(** * gouyez/base: browser-session orchestration and loopback authorization

    A shallow embedding of the Python sources
      - [core/chrome.py] and the directories of [core/config.py]
        (module [Chrome]),
      - [core/gmail_api.py] (module [GmailApi]),
      - [plugins/base.py], [plugins/open_gmail_ui.py] and
        [gmail_hybrid_manager.py] (module [Manager]),
      - [core/logger.py] (module [Logger]),
      - the label actions ([plugins/archive.py] and its eight siblings),
        [plugins/add_contacts.py] and the link filter of
        [plugins/click_links.py] (module [Plugins]),
    on top of a small model of the Python runtime (module [Py]), followed by
    the vocabulary in which traces are read (module [Observe]), some
    concrete environments (module [Samples]) and the properties established.

    Effects are modelled as the code has them: every function that logs,
    sleeps or talks to the outside world lives in the monad [M], which
    records the effects performed (a trace of [event]s) and ends either by
    returning a value or by raising a Python exception (an instance of
    [Exception]).  What the outside world answers (HTTP replies, websocket
    frames, process behaviour, clock readings) is an explicit argument of
    each function.  Logging itself does not raise.  Time is counted in
    milliseconds. *)

From Stdlib Require Import ZArith String Ascii List Lia Bool.
From stdpp Require Import base gmap strings list pretty.

Set Warnings "-register-all".

Open Scope string_scope.
Open Scope Z_scope.

(* ===================================================================== *)
(** * Part I: the embedding                                               *)
(* ===================================================================== *)

(** ** Python runtime: exceptions, traces, the effect monad *)

Module Py.

(** An instance of [Exception]: its class name and [str(e)]. *)
Record exn := Exception { exn_class : string; exn_text : string }.

(** How a call ends. *)
Inductive outcome (A : Type) : Type :=
| Return (a : A)
| Raise (e : exn).
Arguments Return {A} a.
Arguments Raise {A} e.

Definition returned {A} (r : outcome A) : bool :=
  match r with Return _ => true | Raise _ => false end.

(** JSON documents as [json.loads] / [Response.json] deliver them; [JNull]
    is Python's [None].  [JObj] lists the items of a [dict]. *)
Inductive json :=
| JNull
| JBool (b : bool)
| JNum (n : Z)
| JStr (s : string)
| JArr (items : list json)
| JObj (fields : list (string * json)).

(** [bool(v)] *)
Definition truthy (v : json) : bool :=
  match v with
  | JNull => false
  | JBool b => b
  | JNum n => negb (n =? 0)
  | JStr s => negb (String.eqb s "")
  | JArr l => match l with [] => false | _ => true end
  | JObj l => match l with [] => false | _ => true end
  end.

Fixpoint assoc (k : string) (l : list (string * json)) : json :=
  match l with
  | [] => JNull
  | (k', v) :: l' => if String.eqb k k' then v else assoc k l'
  end.

(** [v.get(k)]: only a [dict] has the method; anything else raises
    [AttributeError]. *)
Definition type_name (v : json) : string :=
  match v with
  | JNull => "NoneType"
  | JBool _ => "bool"
  | JNum _ => "int"
  | JStr _ => "str"
  | JArr _ => "list"
  | JObj _ => "dict"
  end.

Definition attribute_error (v : json) : exn :=
  Exception "AttributeError"
    ("'" +:+ type_name v +:+ "' object has no attribute 'get'").

Definition py_get (v : json) (k : string) : outcome json :=
  match v with
  | JObj l => Return (assoc k l)
  | _ => Raise (attribute_error v)
  end.

(** [v == s] for a string literal [s]. *)
Definition eq_str (v : json) (s : string) : bool :=
  match v with JStr s' => String.eqb s' s | _ => false end.

(** Observable effects.  A call into the environment is recorded together
    with whether it returned normally.  [Enter] marks the entry into one of
    the functions of the repository; [InPlugin] wraps what a plugin does. *)
Inductive event :=
| Log (msg : string)
| Sleep (ms : Z)
| Enter (fn : string) (arg : string)
| HttpGet (url : string) (ok : bool)
| WsConnect (url : json) (ok : bool)
| WsSend (id : Z) (method : string) (ok : bool)
| WsRecv (ok : bool)
| WsClose (ok : bool)
| Spawn (cmd : list string) (ok : bool)
| ProcWait (pid : Z) (timeout_ms : Z) (ok : bool)
| ProcTerminate (pid : Z) (ok : bool)
| ProcKill (pid : Z) (ok : bool)
| Syscall (name : string) (ok : bool)
| InPlugin (plugin : string) (ev : event).

(** A computation: the effects it performed, then how it ended. *)
Definition M (A : Type) : Type := list event * outcome A.

Definition ret {A} (a : A) : M A := ([], Return a).
Definition raise {A} (e : exn) : M A := ([], Raise e).

Definition bind {A B} (m : M A) (k : A -> M B) : M B :=
  match m with
  | (t, Return a) => let '(t', r) := k a in ((t ++ t')%list, r)
  | (t, Raise e) => (t, Raise e)
  end.

(** [try: m  except Exception as e: h e] *)
Definition try_except {A} (m : M A) (h : exn -> M A) : M A :=
  match m with
  | (t, Return a) => (t, Return a)
  | (t, Raise e) => let '(t', r) := h e in ((t ++ t')%list, r)
  end.

(** [try: m  finally: f] where [f] itself does not raise. *)
Definition try_finally {A} (m : M A) (f : M unit) : M A :=
  match m, f with
  | (t, r), (t', Return _) => ((t ++ t')%list, r)
  | (t, _), (t', Raise e) => ((t ++ t')%list, Raise e)
  end.

Definition emit (ev : event) : M unit := ([ev], Return tt).

(** A call whose answer [r] is supplied by the environment. *)
Definition perform {A} (mk : bool -> event) (r : outcome A) : M A :=
  ([mk (returned r)], r).

Definition lift {A} (r : outcome A) : M A := ([], r).

Definition trace {A} (m : M A) : list event := fst m.
Definition result {A} (m : M A) : outcome A := snd m.

Definition never_raises {A} (m : M A) : Prop := exists a, result m = Return a.

(** [log_fn(msg)] *)
Definition log_fn (msg : string) : M unit := emit (Log msg).

(** Time is counted in milliseconds.  [time.sleep] refuses a negative
    duration. *)
Definition seconds (n : Z) : Z := 1000 * n.

Definition sleep (ms : Z) : M unit :=
  if ms <? 0
  then raise (Exception "ValueError" "sleep length must be non-negative")
  else emit (Sleep ms).

(** [str(x)] of a float number of seconds given in milliseconds, as the
    f-strings print it: [5000] is "5.0", [250] is "0.25". *)
Fixpoint strip_zeros (fuel : nat) (n : Z) : Z :=
  match fuel with
  | O => n
  | S k => if (n =? 0) || negb (n mod 10 =? 0) then n else strip_zeros k (n / 10)
  end.

Definition frac_digits (r : Z) : string :=
  if r =? 0 then "0"
  else (if r <? 10 then "00" else if r <? 100 then "0" else "")
         +:+ pretty (strip_zeros 3 r).

Definition str_seconds (ms : Z) : string :=
  (if ms <? 0 then "-" else "")
    +:+ pretty (Z.abs ms / 1000) +:+ "." +:+ frac_digits (Z.abs ms mod 1000).


(** *** Strings

    Strings are sequences of 8-bit characters.  On code points below 128
    the functions below are Python's [str] methods of the same names. *)

Definition in_range (lo hi : nat) (c : ascii) : bool :=
  (Nat.leb lo (nat_of_ascii c) && Nat.leb (nat_of_ascii c) hi)%bool.

Definition isdigit (c : ascii) : bool := in_range 48 57 c.
Definition isupper (c : ascii) : bool := in_range 65 90 c.
Definition islower (c : ascii) : bool := in_range 97 122 c.

Definition isalnum (c : ascii) : bool := (isdigit c || isupper c || islower c)%bool.

Definition lower_char (c : ascii) : ascii :=
  if isupper c then ascii_of_nat (nat_of_ascii c + 32) else c.

(** [s.lower()] *)
Fixpoint lower (s : string) : string :=
  match s with
  | EmptyString => EmptyString
  | String c r => String (lower_char c) (lower r)
  end.

(** ["".join(c for c in s if f(c))] *)
Fixpoint join_if (f : ascii -> bool) (s : string) : string :=
  match s with
  | EmptyString => EmptyString
  | String c r => if f c then String c (join_if f r) else join_if f r
  end.

(** [s.replace(old, new)] for a one-character [old]. *)
Fixpoint replace (old : ascii) (new : string) (s : string) : string :=
  match s with
  | EmptyString => EmptyString
  | String c r =>
      if Ascii.eqb c old then new +:+ replace old new r
      else String c (replace old new r)
  end.

(** [s.startswith(p)] *)
Fixpoint startswith (s p : string) {struct p} : bool :=
  match p, s with
  | EmptyString, _ => true
  | String _ _, EmptyString => false
  | String a p', String b s' => (Ascii.eqb a b && startswith s' p')%bool
  end.

Definition isspace (c : ascii) : bool := (in_range 9 13 c || in_range 28 32 c)%bool.

Fixpoint lstrip_chars (l : list ascii) : list ascii :=
  match l with
  | [] => []
  | c :: r => if isspace c then lstrip_chars r else l
  end.

(** [s.strip()] *)
Definition strip (s : string) : string :=
  string_of_list_ascii
    (rev (lstrip_chars (rev (lstrip_chars (list_ascii_of_string s))))).

(** [s.split(sep)] for a one-character [sep]. *)
Fixpoint split_chars (sep : ascii) (cur : list ascii) (l : list ascii) : list string :=
  match l with
  | [] => [string_of_list_ascii (rev cur)]
  | c :: r =>
      if Ascii.eqb c sep
      then string_of_list_ascii (rev cur) :: split_chars sep [] r
      else split_chars sep (c :: cur) r
  end.

Definition split (sep : ascii) (s : string) : list string :=
  split_chars sep [] (list_ascii_of_string s).

(** [l[:k]] on a list. *)
Definition slice_to {X} (l : list X) (k : Z) : list X :=
  if 0 <=? k then take (Z.to_nat k) l
  else take (length l - Z.to_nat (- k)) l.

End Py.

Export Py.

(** [x ← m; k] and [m ;; k] sequence computations of [M]. *)
#[global] Instance M_bind : MBind M := fun A B k m => bind m k.
#[global] Instance M_ret : MRet M := fun A a => ret a.

(** ** core/chrome.py *)

Module Chrome.

(** *** Account identifiers and profile paths

    Every statement below that constrains identifiers constrains them to
    ASCII, where [isalnum] and [lower] are Python's. *)

(** [c.isalnum() or c in ("@", ".", "_", "-")] *)
Definition kept (c : ascii) : bool :=
  (isalnum c || Ascii.eqb c "@" || Ascii.eqb c "." || Ascii.eqb c "_"
   || Ascii.eqb c "-")%bool.

Definition _safe_email_token (email : string) : string :=
  replace "." "_" (replace "@" "_at_" (join_if kept (lower email))).

(** A [pathlib.Path] as its sequence of components.  [base / name] for a
    [name] without separators; joining the empty string changes nothing. *)
Definition Path : Type := list string.

Definition path_join (base : Path) (name : string) : Path :=
  if String.eqb name "" then base else (base ++ [name])%list.

(** core/config.py: the application directories under the root
    [LOCALAPPDATA] (or the home directory's [AppData/Local]). *)
Definition LOCAL_APP_ROOT (local_app_data : Path) : Path :=
  path_join local_app_data "GmailHybrid".
Definition CHROMES_DIR (local_app_data : Path) : Path :=
  path_join (LOCAL_APP_ROOT local_app_data) "chromes".
Definition PROFILES_DIR (local_app_data : Path) : Path :=
  path_join (LOCAL_APP_ROOT local_app_data) "profiles".

Definition cloned_install_dir_for (local_app_data : Path) (email : string) : Path :=
  path_join (CHROMES_DIR local_app_data) (_safe_email_token email).

Definition profile_dir_for (local_app_data : Path) (email : string) : Path :=
  path_join (PROFILES_DIR local_app_data) (_safe_email_token email).

(** The identifiers on which the transform is shown to be one-to-one:
    lower-case letters, digits, ['-'], ['@'] and ['.'], where no ['.'] is
    followed by [at.] or [at@]. *)
Definition plain (c : ascii) : bool :=
  (isdigit c || islower c || Ascii.eqb c "-")%bool.

Fixpoint unambiguous (s : string) : bool :=
  match s with
  | EmptyString => true
  | String c r =>
      ((plain c || Ascii.eqb c "@"
        || (Ascii.eqb c "." && negb (startswith r "at.")
                          && negb (startswith r "at@")))
       && unambiguous r)%bool
  end.

(** Reading a token back: ["_at_"] is an ['@'], any other ['_'] a ['.'].
    [skip] counts the characters still to be passed over. *)
Fixpoint untoken (skip : nat) (t : string) : string :=
  match t with
  | EmptyString => EmptyString
  | String c r =>
      match skip with
      | S k => untoken k r
      | O =>
          if Ascii.eqb c "_"
          then if startswith r "at_"
               then String "@" (untoken 3 r)
               else String "." (untoken 0 r)
          else String c (untoken 0 r)
      end
  end.

(** *** HTTP, websocket and process handles

    The replies of the outside world are part of the handles: a
    [Response] is what [requests.get] delivered, a [WebSocket] knows how its
    sends, receives and close will end, a [Popen] how the process reacts. *)

Record Response := { status_code : Z; json_body : outcome json }.

(** [r.raise_for_status()] *)
Definition raise_for_status (r : Response) : M unit :=
  if ((400 <=? status_code r) && (status_code r <? 600))%bool
  then raise (Exception "HTTPError" (pretty (status_code r)))
  else ret tt.

(** [requests.get(url, timeout=...)], answered by [reply]. *)
Definition requests_get (url : string) (reply : outcome Response) : M Response :=
  perform (HttpGet url) reply.

Definition _http_json (url : string) (reply : outcome Response) : M json :=
  try_except
    (r ← requests_get url reply;
     raise_for_status r;;
     lift (json_body r))
    (λ _, ret JNull).

(** One turn of a polling loop: the clock reading at the loop test and the
    reply the request of that turn gets.  A loop runs through the turns the
    environment grants it; once they are used up the clock has passed every
    deadline. *)
Record poll := { poll_at : Z; poll_reply : outcome Response }.

Definition local_url (port : Z) (path : string) : string :=
  "http://127.0.0.1:" +:+ pretty port +:+ path.

Fixpoint poll_debug_endpoint (port deadline : Z) (polls : list poll) : M bool :=
  match polls with
  | [] => ret false
  | p :: rest =>
      if poll_at p <? deadline then
        hit ← try_except
                (r ← requests_get (local_url port "/json") (poll_reply p);
                 ret (status_code r =? 200))
                (λ _, sleep 200;; ret false);
        if (hit : bool) then ret true else poll_debug_endpoint port deadline rest
      else ret false
  end.

(** [now] is [time.time()] when the deadline is computed. *)
Definition _wait_for_debug_endpoint (port timeout now : Z) (polls : list poll) : M bool :=
  let deadline := now + timeout in
  poll_debug_endpoint port deadline polls.

(** [for entry in v]: the items of a list, the keys of a dict, the
    characters of a string; other values are not iterable. *)
Definition py_iter (v : json) : outcome (list json) :=
  match v with
  | JArr l => Return l
  | JObj l => Return (map (λ kv, JStr (fst kv)) l)
  | JStr s => Return (map (λ c, JStr (String c EmptyString)) (list_ascii_of_string s))
  | _ => Raise (Exception "TypeError" "object is not iterable")
  end.

Fixpoint first_debugger_url (entries : list json) : outcome json :=
  match entries with
  | [] => Return JNull
  | e :: rest =>
      match py_get e "webSocketDebuggerUrl" with
      | Raise x => Raise x
      | Return w => if truthy w then Return w else first_debugger_url rest
      end
  end.

Record tab_poll :=
  { tab_at : Z; new_reply : outcome Response; list_reply : outcome Response }.

Definition _create_new_tab_and_get_ws (port : Z) (initial_url : string)
    (tp : tab_poll) : M json :=
  try_except
    (info ← _http_json (local_url port ("/json/new?" +:+ initial_url)) (new_reply tp);
     w ← (if truthy info then lift (py_get info "webSocketDebuggerUrl") else ret JNull);
     if truthy w then ret w
     else
       info_list ← _http_json (local_url port "/json") (list_reply tp);
       if negb (truthy info_list) then ret JNull
       else
         entries ← lift (py_iter info_list);
         lift (first_debugger_url entries))
    (λ _, ret JNull).

(** The file system as [_find_chrome_executable] looks at it. *)
Record FileSystem :=
  { fs_exists : Path -> bool;
    fs_walk : Path -> list (Path * list string) }.

Definition _find_chrome_executable (fs : FileSystem) (base_dir : Path) : option Path :=
  let candidates :=
    [ path_join base_dir "chrome.exe";
      path_join (path_join base_dir "Application") "chrome.exe";
      path_join (path_join (path_join (path_join base_dir "Google") "Chrome")
                   "Application") "chrome.exe" ] in
  match List.find (fs_exists fs) candidates with
  | Some c => Some c
  | None =>
      match List.find (λ d, existsb (String.eqb "chrome.exe") (snd d)) (fs_walk fs base_dir) with
      | Some d => Some (path_join (fst d) "chrome.exe")
      | None => None
      end
  end.

(** A launched process: its id and how [wait(timeout=6.0)], [terminate()],
    the [wait(timeout=2.0)] after it, and [kill()] end. *)
Record Popen :=
  { pid : Z;
    wait_exit : outcome unit;
    terminate : outcome unit;
    wait_terminated : outcome unit;
    kill : outcome unit }.

Definition proc_wait (p : Popen) (timeout_ms : Z) (r : outcome unit) : M unit :=
  perform (ProcWait (pid p) timeout_ms) r.
Definition proc_terminate (p : Popen) : M unit :=
  perform (ProcTerminate (pid p)) (terminate p).
Definition proc_kill (p : Popen) : M unit :=
  perform (ProcKill (pid p)) (kill p).

(** What [json.loads(raw)] makes of a received frame. *)
Inductive frame :=
| Garbage
| Doc (m : json).

(** One turn of an event wait: the clock at the loop test and how
    [ws.recv()] ends. *)
Record tick := { tick_at : Z; recv_reply : outcome frame }.

Record WebSocket :=
  { send_reply : Z -> string -> outcome unit;
    ticks : list tick;
    close_reply : outcome unit }.

Definition ws_send (ws : WebSocket) (id : Z) (method : string) : M unit :=
  perform (WsSend id method) (send_reply ws id method).
Definition ws_close (ws : WebSocket) : M unit :=
  perform WsClose (close_reply ws).

Record ChromeSession :=
  { email : string; port : Z; proc : Popen; ws_url : json }.

(** *** start_chrome_session *)

Record LaunchEnv :=
  { local_app_data : Path;
    websocket_module : bool;
    free_port : outcome Z;
    files : FileSystem;
    mkdir_profile : outcome unit;
    spawn : outcome Popen;
    ready_started : Z;
    ready_polls : list poll;
    tabs_started : Z;
    tab_polls : list tab_poll }.

Definition _find_free_port_tcp (env : LaunchEnv) : M Z :=
  perform (Syscall "socket.bind") (free_port env).

Definition str_path (p : Path) : string := String.concat "\" p.

Definition chrome_cmd (exe pdir : Path) (port : Z) : list string :=
  [ str_path exe;
    "--user-data-dir=" +:+ str_path pdir;
    "--remote-debugging-port=" +:+ pretty port;
    "--remote-allow-origins=*";
    "--no-first-run";
    "--no-default-browser-check";
    "--disable-default-apps";
    "--disable-translate";
    "--autoplay-policy=no-user-gesture-required";
    "--ignore-certificate-errors" ].

Fixpoint poll_new_tab (port deadline : Z) (polls : list tab_poll) : M json :=
  match polls with
  | [] => ret JNull
  | tp :: rest =>
      if tab_at tp <? deadline then
        w ← _create_new_tab_and_get_ws port "about:blank" tp;
        if truthy w then ret w
        else sleep 250;; poll_new_tab port deadline rest
      else ret JNull
  end.

Definition start_chrome_session (env : LaunchEnv) (email : string)
    : M (option ChromeSession) :=
  emit (Enter "start_chrome_session" email);;
  if negb (websocket_module env)
  then raise (Exception "RuntimeError" "Missing websocket-client")
  else
    port ← _find_free_port_tcp env;
    let dest := cloned_install_dir_for (local_app_data env) email in
    let exe :=
      match _find_chrome_executable (files env) dest with
      | Some e => Some e
      | None => _find_chrome_executable (files env)
                  ["C:"; "Program Files"; "Google"; "Chrome"; "Application"]
      end in
    match exe with
    | None =>
        log_fn "[SESSION][ERROR] chrome.exe not found for cloning; ensure chrome_master or Chrome installed.";;
        ret None
    | Some exe =>
        if negb (fs_exists (files env) exe)
        then
          log_fn "[SESSION][ERROR] chrome.exe not found for cloning; ensure chrome_master or Chrome installed.";;
          ret None
        else
          let pdir := profile_dir_for (local_app_data env) email in
          perform (Syscall "mkdir") (mkdir_profile env);;
          let cmd := chrome_cmd exe pdir port in
          launched ← try_except
                       (p ← perform (Spawn cmd) (spawn env); ret (Some p))
                       (λ e, log_fn ("[SESSION][ERROR] start chrome: " +:+ exn_text e);;
                             ret None);
          match launched with
          | None => ret None
          | Some proc =>
              ready ← _wait_for_debug_endpoint port (seconds 12)
                        (ready_started env) (ready_polls env);
              if negb ready then
                log_fn ("[SESSION][ERROR] debug endpoint not ready on port " +:+ pretty port);;
                try_except (proc_terminate proc) (λ _, ret tt);;
                ret None
              else
                ws_url ← poll_new_tab port (tabs_started env + seconds 10) (tab_polls env);
                if negb (truthy ws_url) then
                  try_except (proc_terminate proc) (λ _, ret tt);;
                  ret None
                else
                  log_fn ("[SESSION] started for " +:+ email +:+ " (port "
                          +:+ pretty port +:+ ")");;
                  ret (Some {| email := email; port := port; proc := proc;
                               ws_url := ws_url |})
          end
    end.

(** *** close_chrome_session *)

Record CloseEnv :=
  { close_websocket_module : bool;
    version_reply : outcome Response;
    close_connect : outcome WebSocket }.

(** The body of [close_chrome_session] is written in four commented steps;
    each is a definition here.  [wait_timeout] is in milliseconds (the
    default [5.0] is [5000]). *)

(** Step 1: get main debugger websocket if available *)
Definition close_step1 (env : CloseEnv) (port : Z) : M json :=
  try_except
    (info ← _http_json (local_url port "/json/version") (version_reply env);
     w ← (if truthy info
          then lift (py_get info "webSocketDebuggerUrl")
          else ret JNull);
     ret (if truthy w then w else JNull))
    (λ _, ret JNull).

(** Step 2: try graceful close using Browser.close or window.close().
    The local [send] bumps its counter [_id] before it calls [ws.send], so
    the counter stands at 2 when the first send raised and at 3 otherwise. *)
Definition close_step2 (env : CloseEnv) (ws_main : json) (wait_timeout : Z) : M unit :=
  if (truthy ws_main && close_websocket_module env)%bool then
    try_except
      (ws ← perform (WsConnect ws_main) (close_connect env);
       _id ← try_except
               (ws_send ws 2 "Runtime.enable";;
                try_except (ws_send ws 3 "Runtime.evaluate";; ret 3)
                           (λ _, ret 3))
               (λ _, ret 2);
       log_fn ("[SESSION] waiting " +:+ str_seconds wait_timeout
               +:+ "s for Chrome to flush cookies/state…");;
       sleep wait_timeout;;
       try_except
         (ws_send ws (_id + 1) "Browser.close";;
          log_fn "[SESSION] sent Browser.close command.")
         (λ e, log_fn ("[SESSION][WARN] Browser.close failed: " +:+ exn_text e));;
       try_except (ws_close ws) (λ _, ret tt))
      (λ e, log_fn ("[SESSION][WARN] websocket graceful close failed: "
                    +:+ exn_text e))
  else
    log_fn "[SESSION][WARN] no websocket debugger; using process terminate fallback.".

(** Step 3: wait for process to end (up to 6s); [true] stands for the
    [return] after a clean exit. *)
Definition close_step3 (p : Popen) : M bool :=
  try_except
    (proc_wait p 6000 (wait_exit p);;
     log_fn "[SESSION] Chrome exited cleanly.";;
     ret true)
    (λ _, ret false).

(** Step 4: fallback to terminate/kill *)
Definition close_step4 (p : Popen) : M unit :=
  try_except
    (log_fn "[SESSION] Chrome not exiting — forcing terminate.";;
     proc_terminate p;;
     proc_wait p 2000 (wait_terminated p))
    (λ _,
       try_except
         (log_fn "[SESSION][WARN] terminate() failed — forcing kill().";;
          proc_kill p)
         (λ e, log_fn ("[SESSION][ERROR] could not kill process: " +:+ exn_text e))).

Definition close_chrome_session (env : CloseEnv) (sess : option ChromeSession)
    (wait_timeout : Z) : M unit :=
  emit (Enter "close_chrome_session"
          (match sess with Some s => email s | None => "None" end));;
  match sess with
  | None => log_fn "[SESSION][WARN] close_chrome_session called with None"
  | Some sess =>
      ws_main ← close_step1 env (port sess);
      close_step2 env ws_main wait_timeout;;
      exited ← close_step3 (proc sess);
      if (exited : bool) then ret tt else close_step4 (proc sess)
  end.

(** *** cdp_navigate *)

Record NavEnv :=
  { nav_websocket_module : bool;
    nav_connect : outcome WebSocket;
    wait_started : Z }.

(** The loop of [cdp_navigate] that waits for the load event. *)
Fixpoint await_load_event (ws : WebSocket) (deadline : Z) (turns : list tick) : M bool :=
  match turns with
  | [] => ret false
  | k :: rest =>
      if tick_at k <? deadline then
        got ← try_except
                (raw ← perform WsRecv (recv_reply k); ret (Some raw))
                (λ _, sleep 50;; ret None);
        match got with
        | None => await_load_event ws deadline rest
        | Some Garbage => await_load_event ws deadline rest
        | Some (Doc m) =>
            v ← lift (py_get m "method");
            if eq_str v "Page.loadEventFired" then ret true
            else await_load_event ws deadline rest
        end
      else ret false
  end.

(** [timeout] is in milliseconds (the default [12] is [seconds 12]). *)
Definition cdp_navigate (env : NavEnv) (ws_url : json) (url : string)
    (wait_load : bool) (timeout : Z) : M bool :=
  if negb (nav_websocket_module env) then
    log_fn "[CDP] websocket-client missing.";;
    ret false
  else
    conn ← try_except
             (ws ← perform (WsConnect ws_url) (nav_connect env); ret (Some ws))
             (λ e, log_fn ("[CDP] connect failed: " +:+ exn_text e);; ret None);
    match conn with
    | None => ret false
    | Some ws =>
        ok ← try_finally
               (try_except
                  (ws_send ws 1 "Page.enable";;
                   ws_send ws 2 "Page.navigate";;
                   if wait_load
                   then await_load_event ws (wait_started env + timeout) (ticks ws)
                   else ret true)
                  (λ e, log_fn ("[CDP] navigate error: " +:+ exn_text e);; ret false))
               (try_except (ws_close ws) (λ _, ret tt));
        (if (ok : bool) then sleep 200 else ret tt);;
        ret ok
    end.

End Chrome.


(** ** core/gmail_api.py *)

Module GmailApi.
Import Chrome.

(** [os.path.join("emails", f"{safe}.json")], on Windows. *)
Definition token_path_for (email : string) : string :=
  let safe := replace "@" "_at_" (join_if kept email) in
  "emails\" +:+ safe +:+ ".json".

(** *** The OAuth callback handler

    A request as [do_GET] sees it after [urlparse] and [parse_qs]: the path
    and, for every key of the query string, the first of its values and the
    others ([parse_qs] lists a key only with at least one non-blank
    value). *)
Record Request :=
  { path : string;
    query : gmap string (string * list string) }.

(** [qs.get(k, [None])[0]] *)
Definition qs_first (qs : gmap string (string * list string)) (k : string)
    : option string :=
  fst <$> qs !! k.

(** [bool(v)] for [v] a string or [None]. *)
Definition nonblank (v : option string) : bool :=
  match v with
  | Some s => negb (String.eqb s "")
  | None => false
  end.

Inductive page :=
| NotFound            (* send_error(404) *)
| MissingContext      (* send_error(500, "Missing shared context") *)
| Denied              (* "Authorization denied." *)
| Complete            (* "Authorization complete!", then on to the inbox *)
| NoCode.             (* "No authorization code received." *)

(** What the handler answers and whether it has asked the server to shut
    down. *)
Record Reply := { status : Z; body : page; shutdown : bool }.

(** [shared] is the dictionary [server.shared] of the flow the server
    belongs to, [None] when the server has none.  The handler writes into
    that dictionary. *)
Definition do_GET (req : Request) (shared : option (gmap string string))
    : option (gmap string string) * Reply :=
  if negb (String.eqb (path req) "/" || String.eqb (path req) "/callback")%bool
  then (shared, {| status := 404; body := NotFound; shutdown := false |})
  else
    let code := qs_first (query req) "code" in
    let error := qs_first (query req) "error" in
    match shared with
    | None => (None, {| status := 500; body := MissingContext; shutdown := false |})
    | Some d =>
        if nonblank error then
          (Some (<["error" := default "" error]> d),
           {| status := 200; body := Denied; shutdown := true |})
        else if nonblank code then
          (Some (<["code" := default "" code]> d),
           {| status := 200; body := Complete; shutdown := true |})
        else
          (Some d, {| status := 200; body := NoCode; shutdown := true |})
    end.

(** The requests the server of one flow handles, one after the other, all
    writing into the flow's dictionary. *)
Definition handle (d : gmap string string) (req : Request) : gmap string string :=
  match fst (do_GET req (Some d)) with
  | Some d' => d'
  | None => d
  end.

Definition deliver (reqs : list Request) (d : gmap string string)
    : gmap string string :=
  fold_left handle reqs d.

(** What the waiting flow makes of the dictionary at one look: it asks for
    a code first and for an error second. *)
Inductive flow_result :=
| Pending
| Code (value : string)
| Error (message : string).

Definition outcome_of (d : gmap string string) : flow_result :=
  match d !! "code" with
  | Some c => Code c
  | None =>
      match d !! "error" with
      | Some e => Error e
      | None => Pending
      end
  end.

(** *** Credentials *)

Record Credentials :=
  { token : string; valid : bool; expired : bool; refresh_token : bool }.

(** The token file of an account: whether it exists, what parsing it
    gives, how a refresh and the write-back end. *)
Record TokenEnv :=
  { token_exists : bool;
    parsed : outcome Credentials;
    refreshed : outcome Credentials;
    written : outcome unit }.

Definition load_credentials_for (env : TokenEnv) (email : string) : M Credentials :=
  creds ← (if token_exists env then
             try_except
               (c ← lift (parsed env); ret (Some c))
               (λ e, log_fn ("[TOKEN] parse failed for " +:+ email +:+ ": "
                            +:+ exn_text e);;
                     ret None)
           else ret None);
  match creds with
  | Some c =>
      if valid c then
        log_fn "[TOKEN] valid";;
        ret c
      else if (expired c && refresh_token c)%bool then
        log_fn "[TOKEN] expired -> refreshing";;
        try_except
          (c' ← perform (Syscall "Credentials.refresh") (refreshed env);
           perform (Syscall "write token") (written env);;
           log_fn "[TOKEN] refreshed";;
           ret c')
          (λ e, log_fn ("[TOKEN] refresh failed: " +:+ exn_text e);;
                raise e)
      else raise (Exception "RuntimeError" "No valid token for this account.")
  | None => raise (Exception "RuntimeError" "No valid token for this account.")
  end.

(** *** The OAuth flow *)

(** One turn of the wait for the server port. *)
Record port_check := { check_at : Z; connected : bool }.

(** One turn of the wait for the callback: the clock at the loop test and
    the requests the server has handled since the turn before. *)
Record callback_turn := { look_at : Z; arrived : list Request }.

Record OAuthEnv :=
  { credentials_json : bool;
    oauth_port : outcome Z;
    authorization_url : outcome string;
    server_bound : outcome unit;
    port_started : Z;
    port_checks : list port_check;
    navigation : NavEnv;
    callback_started : Z;
    callback_turns : list callback_turn;
    fetch_token : string -> outcome Credentials;
    token_saved : outcome unit }.

Fixpoint await_port (deadline : Z) (checks : list port_check) : M bool :=
  match checks with
  | [] => ret false
  | k :: rest =>
      if check_at k <? deadline then
        if connected k then
          emit (Syscall "socket.create_connection" true);;
          ret true
        else
          emit (Syscall "socket.create_connection" false);;
          sleep 100;;
          await_port deadline rest
      else ret false
  end.

(** The loop of [_oauth_once_with_session] that waits for the callback.
    [d] is the flow's dictionary [local_shared]. *)
Fixpoint await_callback (env : OAuthEnv) (email : string) (deadline : Z)
    (d : gmap string string) (turns : list callback_turn) : M (Credentials * bool) :=
  match turns with
  | [] => raise (Exception "TimeoutError"
                   ("Timed out waiting for OAuth callback for " +:+ email))
  | k :: rest =>
      if look_at k <? deadline then
        let d := deliver (arrived k) d in
        match d !! "code" with
        | Some code =>
            creds ← perform (Syscall "flow.fetch_token") (fetch_token env code);
            let tok_path := token_path_for email in
            perform (Syscall "write token") (token_saved env);;
            log_fn ("[TOKEN] saved for " +:+ email +:+ ": " +:+ tok_path);;
            ret (creds, true)
        | None =>
            match d !! "error" with
            | Some e =>
                raise (Exception "RuntimeError"
                         ("OAuth error for " +:+ email +:+ ": " +:+ e))
            | None =>
                sleep 250;;
                await_callback env email deadline d rest
            end
        end
      else raise (Exception "TimeoutError"
                    ("Timed out waiting for OAuth callback for " +:+ email))
  end.

Definition _oauth_once_with_session (env : OAuthEnv) (email : string)
    (sess : ChromeSession) : M (Credentials * bool) :=
  emit (Enter "_oauth_once_with_session" email);;
  if negb (credentials_json env)
  then raise (Exception "FileNotFoundError" "Missing credentials.json next to the app.")
  else
    port ← perform (Syscall "socket.bind") (oauth_port env);
    auth_url ← perform (Syscall "InstalledAppFlow") (authorization_url env);
    (* local_shared = {} *)
    let local_shared : gmap string string := ∅ in
    perform (Syscall "ThreadingHTTPServer") (server_bound env);;
    ready ← await_port (port_started env + seconds 3) (port_checks env);
    if negb ready then
      raise (Exception "RuntimeError"
               ("OAuth callback server failed to start on port " +:+ pretty port))
    else
      cdp_navigate (navigation env) (ws_url sess) auth_url false (seconds 12);;
      log_fn ("[OAUTH] waiting for callback on port " +:+ pretty port +:+ " for "
              +:+ email +:+ " …");;
      await_callback env email (callback_started env + seconds 600)
        local_shared (callback_turns env).

(** The first attempt runs in [first], the retry in [second]. *)
Definition oauth_first_login_in_session (first second : OAuthEnv) (email : string)
    (sess : ChromeSession) : M (Credentials * bool) :=
  try_except
    (_oauth_once_with_session first email sess)
    (λ e,
       log_fn ("[OAuth] first attempt failed: " +:+ exn_text e +:+ "; retrying …");;
       sleep (seconds 2);;
       _oauth_once_with_session second email sess).

(** *** Services and message search *)

(** A request of the paged [users.messages.list] call: how [execute] ends,
    and after a response with its messages, how [list_next] ends ([None]
    when there is no further page). *)
Inductive ListRequest :=
| ListReq (execute : outcome (list json * outcome (option ListRequest))).

Record Service :=
  { list_messages : string -> outcome ListRequest }.

(** The loop of [search_messages].  The list [messages] outlives an
    exception, so the loop hands it back next to the computation. *)
Fixpoint fetch_pages (req : ListRequest) (messages : list json) (max_results : Z)
    (with_log : bool) : list json * M unit :=
  match req with
  | ListReq execute =>
      match execute with
      | Raise e => (messages, perform (Syscall "execute") (Raise e))
      | Return (found, next) =>
          let messages' := (messages ++ found)%list in
          let said :=
            emit (Syscall "execute" true);;
            (match found with
             | [] => ret tt
             | _ => if with_log
                    then log_fn ("[SEARCH] " +:+ pretty (Z.of_nat (length messages'))
                                 +:+ " found so far…")
                    else ret tt
             end) in
          match next with
          | Raise e => (messages', said;; perform (Syscall "list_next") (Raise e))
          | Return None => (messages', said;; emit (Syscall "list_next" true))
          | Return (Some req') =>
              if Z.of_nat (length messages') >=? max_results
              then (messages', said;; emit (Syscall "list_next" true))
              else
                let '(all, rest) := fetch_pages req' messages' max_results with_log in
                (all, said;; emit (Syscall "list_next" true);; rest)
          end
      end
  end.

Definition search_messages (service : Service) (q : string) (max_results : Z)
    (with_log : bool) : M (list json) :=
  let '(messages, body) :=
    match list_messages service q with
    | Raise e => ([], perform (Syscall "list") (Raise e))
    | Return req =>
        let '(all, rest) := fetch_pages req [] max_results with_log in
        (all, emit (Syscall "list" true);; rest)
    end in
  try_except body
    (λ e, if with_log then log_fn ("[SEARCH][ERROR] " +:+ exn_text e) else ret tt);;
  ret (slice_to messages max_results).

End GmailApi.

(** ** plugins/base.py, plugins/open_gmail_ui.py, gmail_hybrid_manager.py *)

Module Manager.
Import Chrome GmailApi.

(** The dictionary handed to [Plugin.run], without the entries that carry
    the user interface ("log", "ui", "app"). *)
Record Context :=
  { ctx_email : string;
    ctx_session : option ChromeSession;
    ctx_service : Service;
    ctx_people_service : option Service;
    ctx_raw_search : string;
    ctx_search_terms : list string }.

Record Plugin :=
  { name : string;
    group : string;
    keep_open_after_run : bool;
    run : Context -> M unit }.

(** plugins/base.py: the defaults of the base class. *)
Definition base_plugin : Plugin :=
  {| name := "Unnamed";
     group := "chrome";
     keep_open_after_run := false;
     run := λ _, raise (Exception "NotImplementedError" "") |}.

(** plugins/open_gmail_ui.py; [nav] is what its [cdp_navigate] meets. *)
Definition OpenGmailUIPlugin (nav : NavEnv) : Plugin :=
  {| name := "Open Gmail UI (always)";
     group := "chrome";
     keep_open_after_run := true;
     run := λ context,
       match ctx_session context with
       | None => log_fn "[UI][ERROR] No Chrome session."
       | Some sess =>
           if negb (truthy (ws_url sess)) then log_fn "[UI][ERROR] No Chrome session."
           else
             cdp_navigate nav (ws_url sess) "https://mail.google.com/mail/u/0/#inbox"
               true (seconds 8);;
             log_fn "[UI] Inbox opened and will be kept open."
       end |}.

(** What one account meets while it is processed. *)
Record AccountEnv :=
  { launch : LaunchEnv;
    closing : CloseEnv;
    tokens : TokenEnv;
    oauth_first : OAuthEnv;
    oauth_second : OAuthEnv;
    gmail_service : outcome Service;
    people_service : outcome Service;
    shared_search_term : string }.

(** [any(getattr(p, "group", "") == "chrome" for p in plugins)] *)
Definition requires_chrome (plugins : list Plugin) : bool :=
  existsb (λ p, String.eqb (group p) "chrome") plugins.

(** [[s.strip() for s in raw_search.split(",") if s.strip()]] *)
Definition search_terms_of (raw_search : string) : list string :=
  List.filter (λ s, negb (String.eqb s "")) (map strip (split "," raw_search)).

Definition context_for (env : AccountEnv) (email : string)
    (sess : option ChromeSession) (gmail : Service) (people : option Service)
    : Context :=
  let raw_search := strip (shared_search_term env) in
  {| ctx_email := email;
     ctx_session := sess;
     ctx_service := gmail;
     ctx_people_service := people;
     ctx_raw_search := raw_search;
     ctx_search_terms := search_terms_of raw_search |}.

(** What a plugin does is kept apart from what the manager does. *)
Definition in_plugin {A} (plugin : string) (m : M A) : M A :=
  (map (InPlugin plugin) (trace m), result m).

(** The loop over the plugins in [_process_one_account]. *)
Fixpoint run_plugins (env : AccountEnv) (email : string)
    (sess : option ChromeSession) (gmail : Service) (people : option Service)
    (plugins : list Plugin) (keep_open : bool) : M bool :=
  match plugins with
  | [] => ret keep_open
  | p :: rest =>
      keep_open ← try_except
                    (let ctx := context_for env email sess gmail people in
                     emit (Enter "run" (name p));;
                     in_plugin (name p) (run p ctx);;
                     ret (keep_open || keep_open_after_run p)%bool)
                    (λ e, log_fn ("[ERROR] Plugin " +:+ name p +:+ " failed: "
                                  +:+ exn_text e);;
                          ret keep_open);
      run_plugins env email sess gmail people rest keep_open
  end.

Definition newline : string := String "010"%char EmptyString.

Definition _process_one_account (env : AccountEnv) (email : string)
    (plugins : list Plugin) : M unit :=
  emit (Enter "_process_one_account" email);;
  log_fn ("--- Processing: " +:+ email +:+ " ---");;
  (* Determine if Chrome is required *)
  let requires_chrome := requires_chrome plugins in
  sess ← (if requires_chrome
          then start_chrome_session (launch env) email
          else log_fn ("[SESSION] Chrome not required for " +:+ email +:+ ".");;
               ret None);
  if (requires_chrome && negb (bool_decide (is_Some sess)))%bool then
    log_fn "[SESSION][FATAL] could not start chrome for account."
  else
    got ← try_except
            (creds ← load_credentials_for (tokens env) email; ret (Some creds))
            (λ e,
               log_fn ("[TOKEN] missing/invalid: " +:+ exn_text e);;
               match sess with
               | Some s =>
                   if requires_chrome then
                     try_except
                       (r ← oauth_first_login_in_session (oauth_first env)
                              (oauth_second env) email s;
                        ret (Some (fst r)))
                       (λ e2,
                          log_fn ("[OAUTH][FATAL] " +:+ exn_text e2);;
                          close_chrome_session (closing env) sess 5000;;
                          ret None)
                   else ret None
               | None => ret None
               end);
    match got with
    | None => ret tt
    | Some creds =>
        built ← try_except
                  (svc ← perform (Syscall "build gmail") (gmail_service env);
                   ret (Some svc))
                  (λ e,
                     log_fn ("[GMAIL][ERROR] service build: " +:+ exn_text e);;
                     match sess with
                     | Some _ => close_chrome_session (closing env) sess 5000
                     | None => ret tt
                     end;;
                     ret None);
        match built with
        | None => ret tt
        | Some gmail =>
            people ← try_except
                       (svc ← perform (Syscall "build people") (people_service env);
                        ret (Some svc))
                       (λ _, ret None);
            keep_open ← run_plugins env email sess gmail people plugins false;
            match sess with
            | Some _ =>
                if (keep_open : bool) then
                  log_fn ("[SESSION] kept open for " +:+ email
                          +:+ " (requested by plugin)")
                else
                  close_chrome_session (closing env) sess 5000;;
                  log_fn ("[SESSION] closed for " +:+ email +:+ " (UI not required)")
            | None =>
                log_fn ("[SESSION] no Chrome session to close for " +:+ email)
            end;;
            log_fn ("--- Done: " +:+ email +:+ " ---" +:+ newline)
        end
    end.

(** The worker pool: every submitted task runs, and so that one account's
    log can be read in one piece the tasks are taken one after the other,
    in the order of submission (a pool of one worker); the result of each
    is then collected. *)
Fixpoint run_pool (tasks : list (M unit)) : M unit :=
  match tasks with
  | [] => ret tt
  | task :: rest =>
      try_except task (λ e, log_fn ("[THREAD][ERROR] " +:+ exn_text e));;
      run_pool rest
  end.

(** [lines] are the lines of the accounts file or of the text box (reading
    the file may fail), [plugins] the discovered plugins with the state of
    their check boxes, [concurrent_var] what [int(...)] makes of the
    concurrency field. *)
Definition run_processing_parallel (envs : string -> AccountEnv)
    (lines : outcome (list string)) (plugins : list (Plugin * bool))
    (concurrent_var : outcome Z) : M unit :=
  match lines with
  | Raise e => log_fn ("[ERROR] Cannot read accounts file: " +:+ exn_text e)
  | Return lines =>
      let accounts := List.filter (λ l, negb (String.eqb l "")) (map strip lines) in
      match accounts with
      | [] => log_fn "[INPUT] No accounts provided."
      | _ =>
          log_fn ("[INPUT] Loaded " +:+ pretty (Z.of_nat (length accounts))
                  +:+ " account(s).");;
          (* Collect only enabled plugins *)
          let enabled := map fst (List.filter snd plugins) in
          match enabled with
          | [] => log_fn "[PLUGIN] No actions selected."
          | _ =>
              let max_concurrent :=
                match concurrent_var with
                | Return n => Z.max 1 n
                | Raise _ => 1
                end in
              log_fn ("[BATCH] Running up to " +:+ pretty max_concurrent
                      +:+ " accounts in parallel.");;
              run_pool (map (λ email, _process_one_account (envs email) email enabled)
                          accounts);;
              log_fn (newline +:+ "=== Finished processing "
                      +:+ pretty (Z.of_nat (length accounts)) +:+ " account(s) ===");;
              emit (Syscall "messagebox.showinfo" true)
          end
      end
  end.

End Manager.

(** ** core/logger.py *)

Module Logger.

(** [c in "\r\n"] *)
Definition is_eol (c : ascii) : bool :=
  (Ascii.eqb c "013" || Ascii.eqb c "010")%bool.

Fixpoint lstrip_eol (l : list ascii) : list ascii :=
  match l with
  | [] => []
  | c :: r => if is_eol c then lstrip_eol r else l
  end.

(** [s.rstrip("\r\n")] *)
Definition rstrip_eol (s : string) : string :=
  string_of_list_ascii (rev (lstrip_eol (rev (list_ascii_of_string s)))).

Definition crlf : string := String "013" (String "010" EmptyString).

(** [FileLogger.write]: the line as it goes to the file, before it is
    encoded. *)
Definition clean_line (line : string) : string := rstrip_eol line +:+ crlf.

(** [FileLogger._safe_username] for a user name of ASCII characters;
    [getuser] is how [getpass.getuser()] ends.  Beyond ASCII Python's
    [str.isalnum] also keeps the letters and digits of every other script,
    which the 8-bit characters here do not represent: the properties of
    this function are stated for ASCII names. *)
Definition _safe_username (getuser : outcome string) : string :=
  let name := match getuser with Return n => n | Raise _ => "unknown" end in
  let safe :=
    strip (join_if (λ c, isalnum c || Ascii.eqb c "-" || Ascii.eqb c "_")%bool name) in
  if String.eqb safe "" then "user" else safe.

(** [_summarize_for_gui] for a message of ASCII characters; [max_len]
    defaults to 300.  Python's [len] and slices count code points and
    [String.length] counts 8-bit characters: the two agree on ASCII text, and
    the properties of this function are stated for ASCII messages. *)
Definition _summarize_for_gui (msg : string) (max_len : Z) : string :=
  let s := strip msg in
  if Z.of_nat (String.length s) >? max_len
  then string_of_list_ascii (slice_to (list_ascii_of_string s) (max_len - 3)) +:+ "..."
  else s.

(** The [log_fn] that [get_logger] returns, for a message that is a
    string: the line it hands to [FileLogger.write] and prints, what reaches
    the file, and the summary it hands to the GUI callback.  [ts] is the
    time stamp. *)
Definition full_line (ts msg : string) : string := ts +:+ " " +:+ rstrip_eol msg.

Definition file_line (ts msg : string) : string := clean_line (full_line ts msg).

Definition gui_line (msg : string) : string := _summarize_for_gui (rstrip_eol msg) 300.

(** *** FileLogger

    The logger's fields, [_file] being the path on which the open handle
    was opened. *)
Record FileLogger :=
  { logs_dir : Chrome.Path;
    max_lines : Z;
    prefix : string;
    _file_path : Chrome.Path;
    _file : Chrome.Path;
    _lines : Z }.

(** What one call of [write] meets: how the calls on the file and on the
    file system end, the user name, and the time stamps read when the file
    is rotated and when the new file is opened. *)
Record WriteEnv :=
  { file_write : outcome unit;
    file_flush : outcome unit;
    fsync : outcome unit;
    stderr_write : outcome unit;
    file_close : outcome unit;
    rotate_stamp : string;
    replaced : outcome unit;
    copied : outcome unit;
    unlinked : outcome unit;
    getuser : outcome string;
    open_stamp : string;
    opened : outcome unit }.

(** [PurePath.stem] of a file name: the name without its last suffix. *)
Definition stem (name : string) : string :=
  let pieces := split "." name in
  let before := String.concat "." (removelast pieces) in
  match pieces with
  | _ :: _ :: _ =>
      if (String.eqb before "" || String.eqb (List.last pieces "") "")%bool
      then name else before
  | _ => name
  end.

(** [p.with_name(name)] for a path with a last component. *)
Definition with_name (p : Chrome.Path) (name : string) : Chrome.Path :=
  (removelast p ++ [name])%list.

(** The fields outlive an exception, so [_open_new_file], [_rotate] and
    [write] hand back the logger as the call leaves it next to the
    computation. *)
Definition _open_new_file (env : WriteEnv) (lg : FileLogger) : FileLogger * M unit :=
  let username := _safe_username (getuser env) in
  let ts := open_stamp env in
  let fname := prefix lg +:+ "_" +:+ username +:+ "_" +:+ ts +:+ ".txt" in
  let path := Chrome.path_join (logs_dir lg) fname in
  let lg1 := {| logs_dir := logs_dir lg; max_lines := max_lines lg; prefix := prefix lg;
                _file_path := path; _file := _file lg; _lines := _lines lg |} in
  (match opened env with
   | Return _ =>
       {| logs_dir := logs_dir lg; max_lines := max_lines lg; prefix := prefix lg;
          _file_path := path; _file := path; _lines := 0 |}
   | Raise _ => lg1
   end,
   perform (Syscall ("open " +:+ Chrome.str_path path)) (opened env)).

Definition _rotate (env : WriteEnv) (lg : FileLogger) : FileLogger * M unit :=
  let ts := rotate_stamp env in
  let rotated :=
    with_name (_file_path lg)
      (stem (List.last (_file_path lg) "") +:+ "_rotated_" +:+ ts +:+ ".txt") in
  let '(lg', reopen) := _open_new_file env lg in
  (lg',
   try_except (perform (Syscall ("close " +:+ Chrome.str_path (_file lg))) (file_close env))
     (λ _, ret tt);;
   try_except
     (perform (Syscall ("replace " +:+ Chrome.str_path (_file_path lg) +:+ " "
                        +:+ Chrome.str_path rotated)) (replaced env))
     (λ _,
        try_except
          (perform (Syscall ("copy2 " +:+ Chrome.str_path (_file_path lg) +:+ " "
                             +:+ Chrome.str_path rotated)) (copied env);;
           perform (Syscall ("unlink " +:+ Chrome.str_path (_file_path lg)))
             (unlinked env))
          (λ _, ret tt));;
   reopen).

Definition write (env : WriteEnv) (lg : FileLogger) (line : string)
    : FileLogger * M unit :=
  let clean := clean_line line in
  let counted :=
    {| logs_dir := logs_dir lg; max_lines := max_lines lg; prefix := prefix lg;
       _file_path := _file_path lg; _file := _file lg; _lines := _lines lg + 1 |} in
  let '(lg', rest) :=
    match file_write env, file_flush env with
    | Return _, Return _ =>
        if _lines counted >=? max_lines counted
        then _rotate env counted
        else (counted, ret tt)
    | _, _ => (lg, ret tt)
    end in
  (lg',
   try_except
     (perform (Syscall ("write " +:+ Chrome.str_path (_file lg))) (file_write env);;
      perform (Syscall "flush") (file_flush env);;
      try_except (perform (Syscall "fsync") (fsync env)) (λ _, ret tt);;
      rest)
     (λ e, try_except (perform (Syscall "stderr.write") (stderr_write env))
             (λ _, ret tt))).

(** A run of calls of [write], each with what it meets. *)
Fixpoint write_all (lg : FileLogger) (calls : list (WriteEnv * string))
    : FileLogger * M unit :=
  match calls with
  | [] => (lg, ret tt)
  | (env, line) :: rest =>
      let '(lg1, first) := write env lg line in
      let '(lg2, others) := write_all lg1 rest in
      (lg2, first;; others)
  end.

End Logger.

(** ** plugins/archive.py and the other label actions, plugins/add_contacts.py *)

Module Plugins.
Import Chrome GmailApi Manager.

Definition dquote : string := String "034" EmptyString.

(** [[t.strip() for t in term.split(';') if t.strip()]] *)
Definition subterms_of (term : string) : list string :=
  List.filter (λ t, negb (String.eqb t "")) (map strip (split ";" term)).

(** The query of a label action: the sender or the subject holds
    [subterm], in the inbox. *)
Definition query_for (subterm : string) : string :=
  "(from:" +:+ dquote +:+ subterm +:+ dquote +:+ " OR subject:" +:+ dquote
    +:+ subterm +:+ dquote +:+ ") in:inbox".

(** [repr] of a list of label names. *)
Definition repr_labels (l : list string) : string :=
  "[" +:+ String.concat ", " (map (λ s, "'" +:+ s +:+ "'") l) +:+ "]".

(** [list(dict.fromkeys(l))] *)
Fixpoint fromkeys (l : list string) : list string :=
  match l with
  | [] => []
  | x :: r => x :: List.filter (λ y, negb (String.eqb y x)) (fromkeys r)
  end.

(** The label actions are one text with different constants: the name,
    the [mapping] of labels to add and to remove, and which of them the
    request body and the log line speak of. *)
Inductive wording :=
| Removed      (* body = {"removeLabelIds": mapping["remove"]} *)
| Added        (* body = {"addLabelIds": mapping["add"]} *)
| AddRemove.   (* both, each when it is not empty *)

Record LabelAction :=
  { action_name : string;
    mapping_add : list string;
    mapping_remove : list string;
    action_wording : wording }.

Definition label_ids (l : list string) : json := JArr (map JStr l).

Definition body_of (a : LabelAction) : json :=
  match action_wording a with
  | Removed => JObj [("removeLabelIds", label_ids (mapping_remove a))]
  | Added => JObj [("addLabelIds", label_ids (mapping_add a))]
  | AddRemove =>
      let add_labels := fromkeys (mapping_add a) in
      let remove_labels := fromkeys (mapping_remove a) in
      JObj ((match add_labels with
             | [] => []
             | _ => [("addLabelIds", label_ids add_labels)]
             end)
            ++ (match remove_labels with
                | [] => []
                | _ => [("removeLabelIds", label_ids remove_labels)]
                end))%list
  end.

Definition success_line (a : LabelAction) (mid : string) : string :=
  "[" +:+ action_name a +:+ "] " +:+ mid +:+
  match action_wording a with
  | Removed => " -> removed " +:+ repr_labels (mapping_remove a)
  | Added => " -> added " +:+ repr_labels (mapping_add a)
  | AddRemove =>
      " -> add=" +:+ repr_labels (fromkeys (mapping_add a))
        +:+ " remove=" +:+ repr_labels (fromkeys (mapping_remove a))
  end.

Section Run.

(** [str_of] is Python's [str] on the value of a message's ["id"];
    [modify mid body] is how
    [svc.users().messages().modify(userId='me', id=mid, body=body).execute()]
    ends. *)
Variable str_of : json -> string.
Variable modify : json -> json -> outcome unit.
Variable a : LabelAction.

(** [for m in msgs: ...] *)
Fixpoint modify_all (msgs : list json) : M unit :=
  match msgs with
  | [] => ret tt
  | m :: rest =>
      mid ← lift (py_get m "id");
      try_except
        (perform (Syscall ("messages.modify " +:+ str_of mid)) (modify mid (body_of a));;
         log_fn (success_line a (str_of mid)))
        (λ e, log_fn ("[" +:+ action_name a +:+ "][ERROR] " +:+ str_of mid +:+ ": "
                      +:+ exn_text e));;
      modify_all rest
  end.

(** [for subterm in subterms: ...] *)
Fixpoint per_subterm (svc : Service) (subterms : list string) : M unit :=
  match subterms with
  | [] => ret tt
  | subterm :: rest =>
      msgs ← search_messages svc (query_for subterm) 500 true;
      match msgs with
      | [] => log_fn ("[" +:+ action_name a +:+ "] No messages found for '"
                      +:+ subterm +:+ "'")
      | _ => modify_all msgs
      end;;
      per_subterm svc rest
  end.

(** [for term in search_terms: ...] *)
Fixpoint per_term (svc : Service) (terms : list string) : M unit :=
  match terms with
  | [] => ret tt
  | term :: rest =>
      let term := strip term in
      (if String.eqb term "" then ret tt
       else per_subterm svc (subterms_of term));;
      per_term svc rest
  end.

(** [run] of a label action.  The service of a [Context] is a service
    object, which is never false, so the test [if not svc] is passed. *)
Definition label_run (context : Context) : M unit :=
  match ctx_search_terms context with
  | [] => log_fn ("[" +:+ action_name a +:+ "] No search terms provided; skipping.")
  | search_terms => per_term (ctx_service context) search_terms
  end.

Definition label_plugin : Plugin :=
  {| name := action_name a;
     group := "api";
     keep_open_after_run := false;
     run := label_run |}.

End Run.

Definition archive : LabelAction :=
  {| action_name := "Archive"; mapping_add := []; mapping_remove := ["INBOX"];
     action_wording := Removed |}.
Definition mark_as_important : LabelAction :=
  {| action_name := "Mark as important"; mapping_add := ["IMPORTANT"];
     mapping_remove := []; action_wording := Added |}.
Definition mark_as_not_important : LabelAction :=
  {| action_name := "Mark as not important"; mapping_add := [];
     mapping_remove := ["IMPORTANT"]; action_wording := Removed |}.
Definition mark_as_not_spam : LabelAction :=
  {| action_name := "Mark as not spam"; mapping_add := ["INBOX"];
     mapping_remove := ["SPAM"]; action_wording := AddRemove |}.
Definition mark_as_starred : LabelAction :=
  {| action_name := "Mark as starred"; mapping_add := ["STARRED"];
     mapping_remove := []; action_wording := Added |}.
Definition mark_as_unread : LabelAction :=
  {| action_name := "Mark as unread"; mapping_add := ["UNREAD"];
     mapping_remove := []; action_wording := Added |}.
Definition move_to_inbox : LabelAction :=
  {| action_name := "Move to inbox"; mapping_add := ["INBOX"];
     mapping_remove := []; action_wording := Added |}.
Definition move_to_trash : LabelAction :=
  {| action_name := "Move to trash"; mapping_add := ["TRASH"];
     mapping_remove := []; action_wording := Added |}.
Definition unstar : LabelAction :=
  {| action_name := "Unstar"; mapping_add := []; mapping_remove := ["STARRED"];
     action_wording := Removed |}.

Definition label_actions : list LabelAction :=
  [ archive; mark_as_important; mark_as_not_important; mark_as_not_spam;
    mark_as_starred; mark_as_unread; move_to_inbox; move_to_trash; unstar ].

Definition ArchivePlugin str_of modify : Plugin := label_plugin str_of modify archive.
Definition MarkAsImportantPlugin str_of modify : Plugin :=
  label_plugin str_of modify mark_as_important.
Definition MarkAsNotImportantPlugin str_of modify : Plugin :=
  label_plugin str_of modify mark_as_not_important.
Definition MarkAsNotSpamPlugin str_of modify : Plugin :=
  label_plugin str_of modify mark_as_not_spam.
Definition MarkAsStarredPlugin str_of modify : Plugin :=
  label_plugin str_of modify mark_as_starred.
Definition MarkAsUnreadPlugin str_of modify : Plugin :=
  label_plugin str_of modify mark_as_unread.
Definition MoveToInboxPlugin str_of modify : Plugin :=
  label_plugin str_of modify move_to_inbox.
Definition MoveToTrashPlugin str_of modify : Plugin :=
  label_plugin str_of modify move_to_trash.
Definition UnstarPlugin str_of modify : Plugin := label_plugin str_of modify unstar.

(** *** plugins/add_contacts.py

    [create addr] is how
    [people_service.people().createContact(body=...).execute()] ends for
    the address [addr]. *)
Fixpoint add_all (create : string -> outcome unit) (emails : list string)
    (added : Z) : M Z :=
  match emails with
  | [] => ret added
  | addr :: rest =>
      added ← try_except
                (perform (Syscall ("people.createContact " +:+ addr)) (create addr);;
                 log_fn ("[CONTACTS] added: " +:+ addr);;
                 ret (added + 1))
                (λ e, log_fn ("[CONTACTS][ERROR] " +:+ addr +:+ ": " +:+ exn_text e);;
                      ret added);
      add_all create rest added
  end.

(** [contacts_var] is the text of the plugin's entry box. *)
Definition AddContactsPlugin (contacts_var : string)
    (create : string -> outcome unit) : Plugin :=
  {| name := "Add contacts:";
     group := "api";
     keep_open_after_run := false;
     run := λ context,
       match ctx_people_service context with
       | None => log_fn "[CONTACTS][ERROR] People API service not available."
       | Some _ =>
           let raw := strip contacts_var in
           if String.eqb raw "" then log_fn "[CONTACTS] No emails entered; skipping."
           else
             let emails :=
               List.filter (λ x, negb (String.eqb x "")) (map strip (split ";" raw)) in
             match emails with
             | [] => log_fn "[CONTACTS] No valid emails found."
             | _ =>
                 added ← add_all create emails 0;
                 log_fn ("[CONTACTS] Done — " +:+ pretty added +:+ " added.")
             end
       end |}.

(** *** plugins/click_links.py: the filter on the links found *)

(** [s.endswith(suffix)] *)
Definition endswith (s suffix : string) : bool :=
  startswith (string_of_list_ascii (rev (list_ascii_of_string s)))
    (string_of_list_ascii (rev (list_ascii_of_string suffix))).

(** [s.split(sep, 1)[0]]: what stands before the first [sep]. *)
Fixpoint before_first (sep : ascii) (s : string) : string :=
  match s with
  | EmptyString => EmptyString
  | String c r => if Ascii.eqb c sep then EmptyString else String c (before_first sep r)
  end.

Definition bad_ext : list string :=
  [ ".jpg"; ".jpeg"; ".png"; ".gif"; ".svg"; ".webp"; ".mp4"; ".mov"; ".avi";
    ".mkv"; ".webm"; ".gifv" ].

Definition _is_valid_web_link (url : string) : bool :=
  let url_l := lower url in
  if negb (startswith url_l "http") then false
  else
    let base := before_first "?" url_l in
    negb (existsb (λ ext, endswith base ext) bad_ext).

End Plugins.

(** ** Reading traces *)

Module Observe.
Import Chrome GmailApi Manager.

(** What running one plugin adds to the log of its account: the call, what
    the plugin did, and the report when it raised. *)
Definition plugin_trace (ctx : Context) (p : Plugin) : list event :=
  Enter "run" (name p)
    :: map (InPlugin (name p)) (trace (run p ctx))
    ++ match result (run p ctx) with
       | Return _ => []
       | Raise e => [Log ("[ERROR] Plugin " +:+ name p +:+ " failed: " +:+ exn_text e)]
       end.

(** Some plugin that asks for the session to stay open ran to its end. *)
Definition kept_open (ctx : Context) (plugins : list Plugin) : bool :=
  existsb (λ p, keep_open_after_run p && returned (result (run p ctx)))%bool plugins.

(** What a task of the pool adds to the log: all it did, and the report
    when it raised. *)
Definition task_trace (task : M unit) : list event :=
  trace task
    ++ match result task with
       | Return _ => []
       | Raise e => [Log ("[THREAD][ERROR] " +:+ exn_text e)]
       end.

(** The arguments with which the function [fn] was entered, in order. *)
Fixpoint entries (fn : string) (t : list event) : list string :=
  match t with
  | [] => []
  | Enter f arg :: rest =>
      if String.eqb f fn then arg :: entries fn rest else entries fn rest
  | _ :: rest => entries fn rest
  end.

(** A computation during which [fn] is not entered. *)
Definition quiet {A} (fn : string) (m : M A) : Prop := entries fn (trace m) = [].

(** A request to the callback path that carries a code or an error. *)
Definition is_callback (req : Request) : bool :=
  ((String.eqb (path req) "/" || String.eqb (path req) "/callback")
   && (nonblank (qs_first (query req) "error")
       || nonblank (qs_first (query req) "code")))%bool.

(** The entry of the dictionary a callback writes, and what it writes. *)
Definition slot (req : Request) : string :=
  if nonblank (qs_first (query req) "error") then "error" else "code".
Definition other_slot (req : Request) : string :=
  if nonblank (qs_first (query req) "error") then "code" else "error".
Definition payload (req : Request) : string :=
  default "" (qs_first (query req) (slot req)).

(** All messages of the pages served before the first failure. *)
Fixpoint served (req : ListRequest) : list json :=
  match req with
  | ListReq (Raise _) => []
  | ListReq (Return (found, Return (Some req'))) => found ++ served req'
  | ListReq (Return (found, _)) => found
  end.

(** A call into the environment that raised. *)
Definition failed (ev : event) : bool :=
  match ev with
  | HttpGet _ ok | WsConnect _ ok | WsSend _ _ ok | WsRecv ok | WsClose ok
  | Spawn _ ok | ProcWait _ _ ok | ProcTerminate _ ok | ProcKill _ ok
  | Syscall _ ok => negb ok
  | _ => false
  end.

(** The log lines by which [close_chrome_session] tells of a failure. *)
Definition reports_failure (ev : event) : bool :=
  match ev with
  | Log msg =>
      (startswith msg "[SESSION][WARN]" || startswith msg "[SESSION][ERROR]"
       || String.eqb msg "[SESSION] Chrome not exiting — forcing terminate.")%bool
  | _ => false
  end.

(** Every failed call that is not [excused] is followed by a report. *)
Fixpoint failures_logged (excused : event -> bool) (t : list event) : bool :=
  match t with
  | [] => true
  | ev :: rest =>
      ((negb (failed ev) || excused ev || existsb reports_failure rest)
       && failures_logged excused rest)%bool
  end.

(** The failures [close_chrome_session] passes over in silence: the two
    sends that ask the page to close, and closing the websocket. *)
Definition passed_over (ev : event) : bool :=
  match ev with
  | WsSend _ method false =>
      (String.eqb method "Runtime.enable" || String.eqb method "Runtime.evaluate")%bool
  | WsClose false => true
  | _ => false
  end.

(** The turns of a polling loop that begin before the deadline. *)
Fixpoint in_time {T} (at_ : T -> Z) (deadline : Z) (turns : list T) : list T :=
  match turns with
  | [] => []
  | k :: rest => if at_ k <? deadline then k :: in_time at_ deadline rest else []
  end.

(** The debug endpoint answers 200 to this poll. *)
Definition answers_200 (q : poll) : bool :=
  match poll_reply q with
  | Return r => status_code r =? 200
  | Raise _ => false
  end.

(** This turn receives a message whose [method] is the load event. *)
Definition load_event (k : tick) : bool :=
  match recv_reply k with
  | Return (Doc (JObj f)) => eq_str (assoc "method" f) "Page.loadEventFired"
  | _ => false
  end.

(** This turn receives a frame that parses to something other than an
    object. *)
Definition not_an_object (k : tick) : bool :=
  match recv_reply k with
  | Return (Doc (JObj _)) => false
  | Return (Doc _) => true
  | _ => false
  end.

(** Failed receives, unparseable frames and objects other than the load
    event. *)
Definition discarded (k : tick) : bool :=
  (negb (load_event k) && negb (not_an_object k))%bool.

(** How the event wait ends on the turns it gets to: with the first load
    event, or at the first frame that is not an object, or by running out
    of time. *)
Fixpoint wait_verdict (turns : list tick) : outcome bool :=
  match turns with
  | [] => Return false
  | k :: rest =>
      if load_event k then Return true
      else match recv_reply k with
           | Return (Doc (JObj _)) | Return Garbage | Raise _ => wait_verdict rest
           | Return (Doc m) => Raise (attribute_error m)
           end
  end.

Definition is_spawn (ev : event) : bool :=
  match ev with Spawn _ true => true | _ => false end.

Definition is_terminate (ev : event) : bool :=
  match ev with ProcTerminate _ _ => true | _ => false end.
Definition is_kill (ev : event) : bool :=
  match ev with ProcKill _ _ => true | _ => false end.

(** *** Further vocabulary *)

(** Every character of [s] satisfies [f]. *)
Fixpoint all_chars (f : ascii -> bool) (s : string) : bool :=
  match s with
  | EmptyString => true
  | String c r => (f c && all_chars f r)%bool
  end.

Definition is_ascii (c : ascii) : bool := Nat.ltb (nat_of_ascii c) 128.

(** The characters of a profile token. *)
Definition token_char (c : ascii) : bool :=
  (islower c || isdigit c || Ascii.eqb c "_" || Ascii.eqb c "-")%bool.

(** The characters of an address whose token file is its own: the kept
    ones without the underscore. *)
Definition address_char (c : ascii) : bool :=
  (kept c && negb (Ascii.eqb c "_"))%bool.

(** Reading the name of a token file back: ["_at_"] is an ['@']. *)
Fixpoint unat (skip : nat) (t : string) : string :=
  match t with
  | EmptyString => EmptyString
  | String c r =>
      match skip with
      | S k => unat k r
      | O => if Ascii.eqb c "_" then String "@" (unat 3 r) else String c (unat 0 r)
      end
  end.

(** An attempt to launch a process, successful or not. *)
Definition spawn_attempt (ev : event) : bool :=
  match ev with Spawn _ _ => true | _ => false end.

(** Requests to the debug endpoint and the pauses between them. *)
Definition net_event (ev : event) : bool :=
  match ev with HttpGet _ _ | Sleep _ => true | _ => false end.

(** What one poll of the debug endpoint adds to the trace: the request,
    and a pause of 0.2 s when the request raised. *)
Definition poll_events (port : Z) (q : poll) : list event :=
  HttpGet (local_url port "/json") (returned (poll_reply q))
    :: (if returned (poll_reply q) then [] else [Sleep 200]).

(** The elements of a list up to and including the first that satisfies
    [f]. *)
Fixpoint through {T} (f : T -> bool) (l : list T) : list T :=
  match l with
  | [] => []
  | x :: r => if f x then [x] else x :: through f r
  end.

Definition is_close (ev : event) : bool :=
  match ev with WsClose _ => true | _ => false end.
Definition is_recv (ev : event) : bool :=
  match ev with WsRecv _ => true | _ => false end.

(** The same attempt with another course of the navigation. *)
Definition with_navigation (nav : NavEnv) (env : GmailApi.OAuthEnv) : GmailApi.OAuthEnv :=
  {| GmailApi.credentials_json := GmailApi.credentials_json env;
     GmailApi.oauth_port := GmailApi.oauth_port env;
     GmailApi.authorization_url := GmailApi.authorization_url env;
     GmailApi.server_bound := GmailApi.server_bound env;
     GmailApi.port_started := GmailApi.port_started env;
     GmailApi.port_checks := GmailApi.port_checks env;
     GmailApi.navigation := nav;
     GmailApi.callback_started := GmailApi.callback_started env;
     GmailApi.callback_turns := GmailApi.callback_turns env;
     GmailApi.fetch_token := GmailApi.fetch_token env;
     GmailApi.token_saved := GmailApi.token_saved env |}.

(** The attempt gets as far as waiting for the callback: the client
    secrets are there, the port, the flow and the server are set up, and
    the server accepts a connection within three seconds. *)
Definition reaches_wait (env : GmailApi.OAuthEnv) : bool :=
  (GmailApi.credentials_json env
   && returned (GmailApi.oauth_port env)
   && returned (GmailApi.authorization_url env)
   && returned (GmailApi.server_bound env)
   && existsb GmailApi.connected
        (in_time GmailApi.check_at (GmailApi.port_started env + seconds 3)
           (GmailApi.port_checks env)))%bool.

(** No callback arrives in a turn of the wait begun before the deadline. *)
Definition no_callback_in_time (env : GmailApi.OAuthEnv) : bool :=
  forallb (λ k, forallb (λ r, negb (is_callback r)) (GmailApi.arrived k))
    (in_time GmailApi.look_at (GmailApi.callback_started env + seconds 600)
       (GmailApi.callback_turns env)).

(** The messages a query is served before the first failure. *)
Definition served_by (service : GmailApi.Service) (q : string) : list json :=
  match GmailApi.list_messages service q with
  | Return req => served req
  | Raise _ => []
  end.

(** A call of the API method whose name begins with [prefix]. *)
Definition calls (prefix : string) (ev : event) : bool :=
  match ev with
  | Syscall name _ => startswith name prefix
  | _ => false
  end.

(** What [search_messages] does: the paged list call, and log lines. *)
Definition search_event (ev : event) : bool :=
  match ev with
  | Log _ => true
  | Syscall name _ =>
      (String.eqb name "list" || String.eqb name "execute"
       || String.eqb name "list_next")%bool
  | _ => false
  end.

Definition is_object (v : json) : bool :=
  match v with JObj _ => true | _ => false end.

(** [m.get('id')] of a message that is an object. *)
Definition message_id (m : json) : json :=
  match m with JObj fields => assoc "id" fields | _ => JNull end.

(** The sub-terms a label action looks for, and the messages it finds for
    them: for each sub-term the first 500 the mailbox serves. *)
Definition subterms_for (ctx : Manager.Context) : list string :=
  flat_map (λ t, Plugins.subterms_of (strip t)) (Manager.ctx_search_terms ctx).

Definition found_for (ctx : Manager.Context) : list json :=
  flat_map (λ s, take 500 (served_by (Manager.ctx_service ctx) (Plugins.query_for s)))
    (subterms_for ctx).

(** The addresses [AddContactsPlugin] reads from its entry box. *)
Definition contacts_of (contacts_var : string) : list string :=
  List.filter (λ x, negb (String.eqb x "")) (map strip (split ";" (strip contacts_var))).

(** The request by which a label action changes the message [m], and how
    it ends. *)
Definition modify_call (str_of : json -> string) (modify : json -> json -> outcome unit)
    (a : Plugins.LabelAction) (m : json) : event :=
  Syscall ("messages.modify " +:+ str_of (message_id m))
    (returned (modify (message_id m) (Plugins.body_of a))).

(** The request that adds the address [addr] to the contacts. *)
Definition create_call (create : string -> outcome unit) (addr : string) : event :=
  Syscall ("people.createContact " +:+ addr) (returned (create addr)).

(** The characters [FileLogger._safe_username] lets through. *)
Definition user_char (c : ascii) : bool :=
  (isalnum c || Ascii.eqb c "-" || Ascii.eqb c "_")%bool.

(** Every call a [write] makes succeeds. *)
Definition healthy (env : Logger.WriteEnv) : bool :=
  (returned (Logger.file_write env) && returned (Logger.file_flush env)
   && returned (Logger.fsync env) && returned (Logger.file_close env)
   && returned (Logger.replaced env) && returned (Logger.opened env))%bool.

(** [close_chrome_session] is entered here, by the manager or by a plugin
    within its [run]. *)
Fixpoint enters_close (ev : event) : bool :=
  match ev with
  | Enter f _ => String.eqb f "close_chrome_session"
  | InPlugin _ ev' => enters_close ev'
  | _ => false
  end.

End Observe.


(** ** Sample environments *)

Module Samples.
Import Chrome.

Definition app_data : Path := ["C:"; "Users"; "me"; "AppData"; "Local"].

Definition timeout_expired (s : string) : exn :=
  Exception "TimeoutExpired" ("Command 'chrome.exe' timed out after " +:+ s +:+ " seconds").

(** A browser that exits when asked to, and one that has to be killed. *)
Definition obedient : Popen :=
  {| pid := 4242; wait_exit := Return tt; terminate := Return tt;
     wait_terminated := Return tt; kill := Return tt |}.
Definition stubborn : Popen :=
  {| pid := 4343;
     wait_exit := Raise (timeout_expired "6.0");
     terminate := Return tt;
     wait_terminated := Raise (timeout_expired "2.0");
     kill := Return tt |}.

Definition debugger_url : json := JStr "ws://127.0.0.1:9222/devtools/browser/b1".
Definition page_url : json := JStr "ws://127.0.0.1:9222/devtools/page/p1".

Definition version_ok : Response :=
  {| status_code := 200;
     json_body := Return (JObj [("Browser", JStr "Chrome"); ("webSocketDebuggerUrl", debugger_url)]) |}.

(** A websocket on which everything works, and one on which the request to
    enable the runtime domain fails. *)
Definition sound_ws (turns : list tick) : WebSocket :=
  {| send_reply := λ _ _, Return tt; ticks := turns; close_reply := Return tt |}.
Definition deaf_ws : WebSocket :=
  {| send_reply := λ _ method,
       if String.eqb method "Runtime.enable"
       then Raise (Exception "WebSocketException" "socket is already closed.")
       else Return tt;
     ticks := [];
     close_reply := Return tt |}.

Definition session_of (p : Popen) : ChromeSession :=
  {| email := "user@example.com"; port := 9222; proc := p; ws_url := page_url |}.

(** Chrome is installed in the account's clone and starts, but its debug
    endpoint refuses connections, then answers 503, and only answers 200
    after thirteen seconds. *)
Definition sluggish_polls : list poll :=
  [ {| poll_at := 1000; poll_reply := Raise (Exception "ConnectionError" "refused") |};
    {| poll_at := 2200; poll_reply := Return {| status_code := 503; json_body := Return JNull |} |};
    {| poll_at := 11900; poll_reply := Raise (Exception "ReadTimeout" "timed out") |};
    {| poll_at := 13100; poll_reply := Return {| status_code := 200; json_body := Return (JArr []) |} |} ].

Definition launch_env (p : Popen) (polls : list poll) (tabs : list tab_poll)
    : LaunchEnv :=
  {| local_app_data := app_data;
     websocket_module := true;
     free_port := Return 9222;
     files := {| fs_exists := λ _, true; fs_walk := λ _, [] |};
     mkdir_profile := Return tt;
     spawn := Return p;
     ready_started := 1000;
     ready_polls := polls;
     tabs_started := 2000;
     tab_polls := tabs |}.

Definition load_fired : json :=
  JObj [("method", JStr "Page.loadEventFired"); ("params", JObj [("timestamp", JNum 1)])].

(** The page answers the two commands, sends an unrelated event and then
    the load event. *)
Definition loading_turns : list tick :=
  [ {| tick_at := 100; recv_reply := Return (Doc (JObj [("id", JNum 1); ("result", JObj [])])) |};
    {| tick_at := 150; recv_reply := Return Garbage |};
    {| tick_at := 200; recv_reply := Raise (Exception "WebSocketTimeoutException" "timed out") |};
    {| tick_at := 9000; recv_reply := Return (Doc (JObj [("method", JStr "Page.frameNavigated")])) |};
    {| tick_at := 9100; recv_reply := Return (Doc load_fired) |} ].

(** A frame holding the JSON text [null] arrives before the load event. *)
Definition null_then_load : list tick :=
  [ {| tick_at := 100; recv_reply := Return (Doc JNull) |};
    {| tick_at := 300; recv_reply := Return (Doc load_fired) |} ].

Definition nav_env (turns : list tick) : NavEnv :=
  {| nav_websocket_module := true;
     nav_connect := Return (sound_ws turns);
     wait_started := 0 |}.

Definition callback (key value : string) : GmailApi.Request :=
  {| GmailApi.path := "/callback"; GmailApi.query := {[ key := (value, []) ]} |}.

Definition message (id : string) : json :=
  JObj [("id", JStr id); ("threadId", JStr id)].

(** A mailbox that serves one page of two messages and fails on the
    second page. *)
Definition failing_mailbox : GmailApi.Service :=
  {| GmailApi.list_messages := λ _,
       Return (GmailApi.ListReq
                 (Return ([message "m1"; message "m2"],
                          Return (Some (GmailApi.ListReq
                                          (Raise (Exception "HttpError" "503 backend error"))))))) |}.

(** A token file that holds valid credentials. *)
Definition valid_token : GmailApi.TokenEnv :=
  {| GmailApi.token_exists := true;
     GmailApi.parsed := Return {| GmailApi.token := "ya29.a0"; GmailApi.valid := true;
                                  GmailApi.expired := false;
                                  GmailApi.refresh_token := true |};
     GmailApi.refreshed := Raise (Exception "RefreshError" "not needed");
     GmailApi.written := Return tt |}.

(** The debug endpoint is up at once and a first tab can be opened. *)
Definition prompt_polls : list poll :=
  [ {| poll_at := 1000;
       poll_reply := Return {| status_code := 200; json_body := Return (JArr []) |} |} ].
Definition prompt_tabs : list tab_poll :=
  [ {| tab_at := 2000;
       new_reply := Return {| status_code := 200;
                              json_body := Return (JObj [("id", JStr "p1");
                                                         ("webSocketDebuggerUrl", page_url)]) |};
       list_reply := Raise (Exception "ConnectionError" "not asked") |} ].

Definition granted : GmailApi.Credentials :=
  {| GmailApi.token := "ya29.a0"; GmailApi.valid := true; GmailApi.expired := false;
     GmailApi.refresh_token := true |}.

(** An authorization attempt during which the given callbacks arrive. *)
Definition oauth_env (turns : list GmailApi.callback_turn) : GmailApi.OAuthEnv :=
  {| GmailApi.credentials_json := true;
     GmailApi.oauth_port := Return 8765;
     GmailApi.authorization_url := Return "https://accounts.google.com/o/oauth2/auth";
     GmailApi.server_bound := Return tt;
     GmailApi.port_started := 0;
     GmailApi.port_checks := [ {| GmailApi.check_at := 10; GmailApi.connected := true |} ];
     GmailApi.navigation := nav_env [];
     GmailApi.callback_started := 100;
     GmailApi.callback_turns := turns;
     GmailApi.fetch_token := λ _, Return granted;
     GmailApi.token_saved := Return tt |}.

Definition denied_turns : list GmailApi.callback_turn :=
  [ {| GmailApi.look_at := 200; GmailApi.arrived := [] |};
    {| GmailApi.look_at := 450; GmailApi.arrived := [callback "error" "access_denied"] |} ].
Definition granted_turns : list GmailApi.callback_turn :=
  [ {| GmailApi.look_at := 200; GmailApi.arrived := [callback "code" "abc123"] |} ].

(** An action of the "api" group, and an action that asks for the session
    to stay open but fails. *)
Definition label_action : Manager.Plugin :=
  {| Manager.name := "Archive";
     Manager.group := "api";
     Manager.keep_open_after_run := false;
     Manager.run := λ ctx,
       match Manager.ctx_search_terms ctx with
       | [] => log_fn "[Archive] No search terms provided; skipping."
       | term :: _ =>
           GmailApi.search_messages (Manager.ctx_service ctx) term 500 true;;
           ret tt
       end |}.
Definition crashing_ui : Manager.Plugin :=
  {| Manager.name := "Open Gmail UI (always)";
     Manager.group := "chrome";
     Manager.keep_open_after_run := true;
     Manager.run := λ _, raise (Exception "KeyError" "'session'") |}.

Definition close_env (ws : WebSocket) : CloseEnv :=
  {| close_websocket_module := true;
     version_reply := Return version_ok;
     close_connect := Return ws |}.

Definition account_env : Manager.AccountEnv :=
  {| Manager.launch := launch_env obedient prompt_polls prompt_tabs;
     Manager.closing := close_env (sound_ws []);
     Manager.tokens := valid_token;
     Manager.oauth_first := oauth_env denied_turns;
     Manager.oauth_second := oauth_env granted_turns;
     Manager.gmail_service := Return failing_mailbox;
     Manager.people_service := Raise (Exception "HttpError" "people API disabled");
     Manager.shared_search_term := " newsletter , promo " |}.

(** A machine on which the websocket client is not installed. *)
Definition no_websocket_client : LaunchEnv :=
  {| local_app_data := app_data;
     websocket_module := false;
     free_port := Return 9222;
     files := {| fs_exists := λ _, true; fs_walk := λ _, [] |};
     mkdir_profile := Return tt;
     spawn := Return obedient;
     ready_started := 1000;
     ready_polls := prompt_polls;
     tabs_started := 2000;
     tab_polls := prompt_tabs |}.

(** An account whose browser starts but never opens its debug endpoint in
    time. *)
Definition stalled_account : Manager.AccountEnv :=
  {| Manager.launch := launch_env obedient sluggish_polls [];
     Manager.closing := close_env (sound_ws []);
     Manager.tokens := valid_token;
     Manager.oauth_first := oauth_env denied_turns;
     Manager.oauth_second := oauth_env granted_turns;
     Manager.gmail_service := Return failing_mailbox;
     Manager.people_service := Raise (Exception "HttpError" "people API disabled");
     Manager.shared_search_term := "newsletter" |}.

(** [str] on the ids met here: strings, and [None] for a message without
    an id. *)
Definition id_text (v : json) : string :=
  match v with JStr s => s | _ => "None" end.

(** A mailbox in which the message [m1] cannot be modified. *)
Definition m1_locked (mid body : json) : outcome unit :=
  if eq_str mid "m1" then Raise (Exception "HttpError" "403 forbidden") else Return tt.

Definition api_context : Manager.Context :=
  Manager.context_for account_env "user@example.com" None
    failing_mailbox (Some failing_mailbox).

(** The People API refuses the address [bob@example.com]. *)
Definition bob_refused (addr : string) : outcome unit :=
  if String.eqb addr "bob@example.com"
  then Raise (Exception "HttpError" "409 conflict")
  else Return tt.

(** A call of [write] during which nothing fails, and a logger that has
    just opened its file and rotates after two lines. *)
Definition all_well (stamp : string) : Logger.WriteEnv :=
  {| Logger.file_write := Return tt;
     Logger.file_flush := Return tt;
     Logger.fsync := Return tt;
     Logger.stderr_write := Return tt;
     Logger.file_close := Return tt;
     Logger.rotate_stamp := stamp;
     Logger.replaced := Return tt;
     Logger.copied := Return tt;
     Logger.unlinked := Return tt;
     Logger.getuser := Return "me";
     Logger.open_stamp := stamp;
     Logger.opened := Return tt |}.

Definition fresh_logger : Logger.FileLogger :=
  {| Logger.logs_dir := ["logs"];
     Logger.max_lines := 2;
     Logger.prefix := "log";
     Logger._file_path := ["logs"; "log_me_20260102_030400.txt"];
     Logger._file := ["logs"; "log_me_20260102_030400.txt"];
     Logger._lines := 0 |}.

Definition three_lines : list (Logger.WriteEnv * string) :=
  [ (all_well "20260102_030401", "one");
    (all_well "20260102_030402", "two");
    (all_well "20260102_030403", "three") ].

(** A browser process that the operating system does not let the caller
    terminate: [Popen.terminate] raises (on Windows, [PermissionError] from
    [TerminateProcess]), and the process keeps running. *)
Definition shielded : Popen :=
  {| pid := 4545;
     wait_exit := Raise (timeout_expired "6.0");
     terminate := Raise (Exception "PermissionError" "[WinError 5] Access is denied");
     wait_terminated := Raise (timeout_expired "2.0");
     kill := Return tt |}.

(** An action that ends as [PlayShortsPlugin.run] does (play_shorts.py,
    the last statement of [run]): it closes the session itself and does not
    ask for it to stay open. *)
Definition self_closing : Manager.Plugin :=
  {| Manager.name := "Play YouTube Shorts";
     Manager.group := "chrome";
     Manager.keep_open_after_run := false;
     Manager.run := λ ctx,
       try_except
         (log_fn "[SHORTS] All videos finished — closing Chrome cleanly.";;
          close_chrome_session (Manager.closing account_env)
            (Manager.ctx_session ctx) 5000)
         (λ e, log_fn ("[SHORTS][WARN] graceful close failed: " +:+ exn_text e)) |}.

End Samples.

(* ===================================================================== *)
(** * Part II: properties                                                 *)
(* ===================================================================== *)

Section ProfilePaths.
Import Chrome.

Example token_example :
  _safe_email_token "User.Name@Example.com" = "user_name_at_example_com".
Proof. reflexivity. Qed.

Example untoken_example :
  untoken 0 "user_name_at_example_com" = "user.name@example.com".
Proof. reflexivity. Qed.

(** What membership in the plain alphabet gives. *)
Lemma plain_char c :
  plain c = true ->
  lower_char c = c /\ kept c = true /\ Ascii.eqb c "@" = false
  /\ Ascii.eqb c "." = false /\ Ascii.eqb c "_" = false.
Proof.
  destruct c as [[] [] [] [] [] [] [] []]; vm_compute; intros H;
    try discriminate H; repeat split; reflexivity.
Qed.

Lemma token_plain c r :
  plain c = true -> _safe_email_token (String c r) = String c (_safe_email_token r).
Proof.
  intros H. destruct (plain_char c H) as (Hl & Hk & Ha & Hd & _).
  unfold _safe_email_token. simpl. rewrite Hl, Hk. simpl. rewrite Ha. simpl.
  rewrite Hd. reflexivity.
Qed.

Lemma token_at r :
  _safe_email_token (String "@" r) = "_at_" +:+ _safe_email_token r.
Proof. reflexivity. Qed.

Lemma token_dot r :
  _safe_email_token (String "." r) = String "_" (_safe_email_token r).
Proof. reflexivity. Qed.

(** The three shapes of a character of an unambiguous identifier. *)
Lemma unambiguous_cons c r :
  unambiguous (String c r) = true ->
  unambiguous r = true /\
  (plain c = true \/ c = "@"%char
   \/ (c = "."%char /\ startswith r "at." = false /\ startswith r "at@" = false)).
Proof.
  simpl. intros H. apply andb_true_iff in H as [H Hr]. split; [exact Hr|].
  apply orb_true_iff in H as [H|H].
  - apply orb_true_iff in H as [H|H]; [now left|].
    right; left. now apply Ascii.eqb_eq.
  - right; right. apply andb_true_iff in H as [H H2].
    apply andb_true_iff in H as [H H1].
    apply Ascii.eqb_eq in H. apply negb_true_iff in H1, H2. now repeat split.
Qed.

Lemma startswith_cons a p b s :
  startswith (String b s) (String a p) = (Ascii.eqb a b && startswith s p)%bool.
Proof. reflexivity. Qed.

Ltac classify H :=
  let Hr := fresh "Hr" in
  let Hp := fresh "Hp" in
  apply unambiguous_cons in H as [Hr [Hp | [-> | (-> & ? & ?)]]].

(** A token begins with [at_] only if the identifier begins with [at.] or
    [at@]. *)
Lemma token_marker r :
  unambiguous r = true ->
  startswith (_safe_email_token r) "at_" = true ->
  startswith r "at." = true \/ startswith r "at@" = true.
Proof.
  intros U H.
  destruct r as [|a r1]; [discriminate H|].
  classify U; [rewrite token_plain in H by assumption | discriminate H | discriminate H].
  rewrite startswith_cons in H.
  apply andb_true_iff in H as [Ha H]. apply Ascii.eqb_eq in Ha. subst a.
  destruct r1 as [|b r2]; [discriminate H|].
  classify Hr; [rewrite token_plain in H by assumption | discriminate H | discriminate H].
  rewrite startswith_cons in H.
  apply andb_true_iff in H as [Hb H]. apply Ascii.eqb_eq in Hb. subst b.
  destruct r2 as [|d r3]; [discriminate H|].
  classify Hr0.
  - rewrite token_plain in H by assumption. rewrite startswith_cons in H.
    apply andb_true_iff in H as [Hd _].
    destruct (plain_char d Hp1) as (_ & _ & _ & _ & Hu).
    rewrite Ascii.eqb_sym in Hu. congruence.
  - right. reflexivity.
  - left. reflexivity.
Qed.

Lemma untoken_cons c r :
  untoken 0 (String c r) =
  if Ascii.eqb c "_"
  then if startswith r "at_" then String "@" (untoken 3 r) else String "." (untoken 0 r)
  else String c (untoken 0 r).
Proof. reflexivity. Qed.

(** Reading the token back recovers an unambiguous identifier. *)
Lemma untoken_token s :
  unambiguous s = true -> untoken 0 (_safe_email_token s) = s.
Proof.
  induction s as [|c r IH]; [reflexivity|].
  intros U. classify U.
  - rewrite token_plain by assumption. rewrite untoken_cons.
    destruct (plain_char c Hp) as (_ & _ & _ & _ & ->). now rewrite IH.
  - rewrite token_at. change (untoken 0 ("_at_" +:+ _safe_email_token r))
      with (String "@" (untoken 0 (_safe_email_token r))). now rewrite IH.
  - rewrite token_dot, untoken_cons. change (Ascii.eqb "_" "_") with true. cbv iota.
    destruct (startswith (_safe_email_token r) "at_") eqn:E.
    + apply token_marker in E; [|assumption]. destruct E; congruence.
    + now rewrite IH.
Qed.

Lemma token_injective a b :
  unambiguous a = true -> unambiguous b = true ->
  _safe_email_token a = _safe_email_token b -> a = b.
Proof.
  intros Ua Ub E.
  rewrite <- (untoken_token a Ua), <- (untoken_token b Ub). now rewrite E.
Qed.

Lemma path_join_injective (base : Path) (x y : string) :
  path_join base x = path_join base y -> x = y.
Proof.
  unfold path_join.
  destruct (String.eqb_spec x ""), (String.eqb_spec y ""); subst; intros E.
  - reflexivity.
  - apply (f_equal (@List.length _)) in E. rewrite length_app in E. simpl in E. lia.
  - apply (f_equal (@List.length _)) in E. rewrite length_app in E. simpl in E. lia.
  - apply app_inj_tail in E. tauto.
Qed.

(** C2 (as amended): the cloned-profile path is a function of the account
    identifier, and on unambiguous identifiers (lower-case ASCII letters,
    digits, '-', '@' and '.', no '.' followed by "at." or "at@") two distinct
    identifiers get distinct paths. *)
Theorem profile_dir_for_injective_on_unambiguous (root : Path) (a b : string) :
  unambiguous a = true -> unambiguous b = true -> a <> b ->
  profile_dir_for root a <> profile_dir_for root b.
Proof.
  intros Ua Ub Hne E. apply Hne.
  apply token_injective; [assumption|assumption|].
  unfold profile_dir_for in E. now apply path_join_injective in E.
Qed.

Lemma profile_dir_for_injective_on_unambiguous_witness :
  profile_dir_for ["C:"; "Users"; "me"; "AppData"; "Local"] "user@example.com"
  <> profile_dir_for ["C:"; "Users"; "me"; "AppData"; "Local"] "user2@example.com".
Proof.
  apply (profile_dir_for_injective_on_unambiguous
           ["C:"; "Users"; "me"; "AppData"; "Local"]
           "user@example.com" "user2@example.com").
  - reflexivity.
  - reflexivity.
  - discriminate.
Defined.

(** C2 (as stated) fails: two distinct identifiers that differ only in
    '.' against '_' share one profile directory, so the map from account
    identifier to path is not one-to-one. *)
Lemma profile_dir_for_collision :
  ~ (forall (root : Path) (a b : string),
        a <> b -> profile_dir_for root a <> profile_dir_for root b).
Proof.
  intros H.
  apply (H [] "a.b@example.com" "a_b@example.com"); [discriminate|].
  vm_compute. reflexivity.
Qed.

(** Further collisions: letter case, dropped characters, and '@' against
    "_at_", also between well-formed lower-case addresses. *)
Example collision_case :
  _safe_email_token "User@Example.com" = _safe_email_token "user@example.com".
Proof. vm_compute. reflexivity. Qed.

Example collision_dropped :
  _safe_email_token "a+b@example.com" = _safe_email_token "ab@example.com".
Proof. vm_compute. reflexivity. Qed.

Example collision_at :
  _safe_email_token "a@b.at.c.com" = _safe_email_token "a.at.b@c.com".
Proof. vm_compute. reflexivity. Qed.

End ProfilePaths.

(** ** The effect monad *)

Import Chrome Observe.
Open Scope list_scope.

(** Running a computation symbolically: unfold the monad, then split on
    the next answer of the environment. *)
Ltac mrun :=
  cbn [mbind M_bind mret M_ret bind try_except try_finally perform emit ret
       raise lift log_fn returned fst snd trace result app
       ws_send ws_close proc_wait proc_terminate proc_kill requests_get
       send_reply close_reply ticks pid wait_exit terminate wait_terminated
       kill andb orb negb].

Ltac msplit :=
  repeat (mrun;
          match goal with
          | |- context [match ?x with Return _ => _ | Raise _ => _ end] =>
              destruct x
          end);
  mrun;
  repeat match goal with x : unit |- _ => destruct x end.

Section MonadFacts.
Context {A B : Type}.

Lemma never_raises_ret (a : A) : never_raises (ret a).
Proof. now exists a. Qed.

Lemma never_raises_emit ev : never_raises (emit ev).
Proof. now exists tt. Qed.

Lemma never_raises_bind (m : M A) (k : A -> M B) :
  never_raises m -> (forall a, never_raises (k a)) -> never_raises (m ≫= k).
Proof.
  intros [a Ha] Hk. destruct m as [t r]. simpl in Ha. subst r.
  destruct (Hk a) as [b Hb]. exists b.
  unfold mbind, M_bind, bind. destruct (k a) as [t' r']. exact Hb.
Qed.

Lemma never_raises_try (m : M A) (h : exn -> M A) :
  (forall e, never_raises (h e)) -> never_raises (try_except m h).
Proof.
  intros Hh. destruct m as [t [a|e]].
  - now exists a.
  - destruct (Hh e) as [a Ha]. exists a. unfold try_except.
    destruct (h e) as [t' r']. exact Ha.
Qed.

Lemma run_bind (m : M A) (k : A -> M B) (a : A) :
  result m = Return a ->
  m ≫= k = ((trace m ++ trace (k a))%list, result (k a)).
Proof.
  destruct m as [t r]. simpl. intros ->.
  unfold mbind, M_bind, bind. now destruct (k a).
Qed.

Lemma run_bind_raise (m : M A) (k : A -> M B) (e : exn) :
  result m = Raise e -> m ≫= k = (trace m, Raise e).
Proof. destruct m as [t r]. simpl. now intros ->. Qed.

End MonadFacts.

Section Quiet.
Context {A B : Type}.
Variable fn : string.

Lemma trace_bind (m : M A) (k : A -> M B) :
  trace (m ≫= k)
  = trace m ++ match result m with Return a => trace (k a) | Raise _ => [] end.
Proof.
  destruct m as [t [a|e]]; unfold mbind, M_bind, bind; cbn [trace result fst snd].
  - now destruct (k a).
  - now rewrite app_nil_r.
Qed.

Lemma trace_try (m : M A) (h : exn -> M A) :
  trace (try_except m h)
  = trace m ++ match result m with Return _ => [] | Raise e => trace (h e) end.
Proof.
  destruct m as [t [a|e]]; unfold try_except; cbn [trace result fst snd].
  - now rewrite app_nil_r.
  - now destruct (h e).
Qed.

Lemma trace_finally (m : M A) (f : M unit) :
  trace (try_finally m f) = trace m ++ trace f.
Proof. destruct m as [t r], f as [t' [[]|e]]; reflexivity. Qed.

Lemma entries_app t1 t2 : entries fn (t1 ++ t2) = entries fn t1 ++ entries fn t2.
Proof.
  induction t1 as [|ev t1 IH]; [reflexivity|].
  destruct ev; cbn [app entries]; try exact IH.
  destruct (String.eqb _ _); [|exact IH]. cbn [app]. now rewrite IH.
Qed.

Lemma quiet_ret (a : A) : quiet fn (ret a).
Proof. reflexivity. Qed.

Lemma quiet_raise (e : exn) : quiet fn (raise e : M A).
Proof. reflexivity. Qed.

Lemma quiet_lift (r : outcome A) : quiet fn (lift r).
Proof. reflexivity. Qed.

Lemma quiet_bind (m : M A) (k : A -> M B) :
  quiet fn m -> (forall a, quiet fn (k a)) -> quiet fn (m ≫= k).
Proof.
  unfold quiet. intros Hm Hk. rewrite trace_bind, entries_app, Hm.
  destruct (result m); [apply Hk|reflexivity].
Qed.

Lemma quiet_try (m : M A) (h : exn -> M A) :
  quiet fn m -> (forall e, quiet fn (h e)) -> quiet fn (try_except m h).
Proof.
  unfold quiet. intros Hm Hh. rewrite trace_try, entries_app, Hm.
  destruct (result m); [reflexivity|apply Hh].
Qed.

Lemma quiet_finally (m : M A) (f : M unit) :
  quiet fn m -> quiet fn f -> quiet fn (try_finally m f).
Proof.
  unfold quiet. intros Hm Hf. now rewrite trace_finally, entries_app, Hm, Hf.
Qed.

Lemma quiet_perform (mk : bool -> event) (r : outcome A) :
  (forall b, entries fn [mk b] = []) -> quiet fn (perform mk r).
Proof. intros H. apply H. Qed.

End Quiet.

Lemma quiet_enter fn f arg : f <> fn -> quiet fn (emit (Enter f arg)).
Proof.
  intros H. unfold quiet. cbn [emit trace fst entries].
  apply String.eqb_neq in H. now rewrite H.
Qed.

Lemma entries_enter_bind {A} fn arg (m : M A) :
  entries fn (trace (emit (Enter fn arg);; m)) = arg :: entries fn (trace m).
Proof.
  rewrite trace_bind, entries_app. cbn [emit trace result fst snd entries].
  now rewrite String.eqb_refl.
Qed.

Lemma quiet_log fn msg : quiet fn (log_fn msg).
Proof. reflexivity. Qed.

Lemma quiet_sleep fn ms : quiet fn (sleep ms).
Proof. unfold sleep. now destruct (ms <? 0). Qed.

(** Quietness goes through the structure of a computation. *)
Ltac quiet_step :=
  first
    [ match goal with H : context [quiet] |- _ => solve [apply H; auto] end
    | apply quiet_ret | apply quiet_raise | apply quiet_lift | apply quiet_log
    | apply quiet_sleep
    | apply quiet_perform; intros []; reflexivity
    | apply quiet_enter; solve [assumption | congruence | discriminate]
    | apply quiet_bind; [|intros ?]
    | apply quiet_try; [|intros ?]
    | apply quiet_finally
    | assumption
    | match goal with
      | |- quiet _ (if ?c then _ else _) => destruct c
      | |- quiet _ (match ?x with _ => _ end) => destruct x
      end ].

Ltac quiet_auto := repeat quiet_step.

(** [try: call  except Exception: pass] *)
Lemma try_perform_pass (mk : bool -> event) (r : outcome unit) :
  try_except (perform mk r) (λ _, ret tt) = ([mk (returned r)], Return tt).
Proof. destruct r as [[]|e]; reflexivity. Qed.

Section Release.
Import Chrome Observe.

Lemma failures_logged_app P t1 t2 :
  failures_logged P t1 = true -> failures_logged P t2 = true ->
  failures_logged P (t1 ++ t2) = true.
Proof.
  induction t1 as [|ev t1 IH]; [auto|]. simpl. intros H1 H2.
  apply andb_true_iff in H1 as [H1 H1'].
  apply andb_true_iff. split; [|auto].
  rewrite existsb_app. apply orb_true_iff in H1 as [H1|H1].
  - now rewrite H1.
  - rewrite H1. now rewrite !orb_true_r.
Qed.

Ltac shape_done := repeat split; solve [auto | discriminate].

(** Step 1 performs one HTTP request and never raises; when the request
    fails there is no debugger address. *)
Lemma close_step1_shape env port :
  exists b w,
    close_step1 env port = ([HttpGet (local_url port "/json/version") b], Return w)
    /\ (b = false -> w = JNull)
    /\ (w = JNull \/ truthy w = true).
Proof.
  unfold close_step1, _http_json, requests_get, perform, raise_for_status.
  destruct (version_reply env) as [resp|e]; cbn.
  - destruct (_ && _)%bool; cbn.
    + exists true, JNull. shape_done.
    + destruct (json_body resp) as [info|e]; cbn.
      * destruct (truthy info) eqn:Ti; cbn.
        -- destruct (py_get info "webSocketDebuggerUrl") as [w|e]; cbn.
           ++ destruct (truthy w) eqn:Tw.
              ** exists true, w. rewrite ?Tw. shape_done.
              ** exists true, JNull. rewrite ?Tw. shape_done.
           ++ exists true, JNull. shape_done.
        -- exists true, JNull. shape_done.
      * exists true, JNull. shape_done.
  - exists false, JNull. shape_done.
Qed.

(** Step 2 never raises, reports its failures except the ones it passes
    over, and reports the missing debugger. *)
Lemma close_step2_shape env w wt :
  (w = JNull \/ truthy w = true) ->
  exists t,
    close_step2 env w wt = (t, Return tt)
    /\ failures_logged passed_over t = true
    /\ (w = JNull -> existsb reports_failure t = true).
Proof.
  intros Hw. unfold close_step2, sleep.
  generalize (str_seconds wt). intros X.
  destruct env as [wm vr cc]. cbn [close_websocket_module close_connect].
  destruct Hw as [-> | Tw].
  - eexists. split; [reflexivity|]. split; reflexivity.
  - rewrite Tw. destruct wm; cbn [andb].
    + destruct (wt <? 0); msplit;
        (eexists; split; [reflexivity|]; split;
         [reflexivity | intros ->; discriminate Tw]).
    + eexists. split; [reflexivity|]. split; [reflexivity | intros ->; discriminate Tw].
Qed.

(** Step 3 waits once; it answers whether the process was seen to exit. *)
Lemma close_step3_shape p :
  close_step3 p =
  (ProcWait (pid p) 6000 (returned (wait_exit p))
     :: (if returned (wait_exit p) then [Log "[SESSION] Chrome exited cleanly."] else []),
   Return (returned (wait_exit p))).
Proof. unfold close_step3. destruct p as [i [[]|e] te wte ki]; reflexivity. Qed.

(** Step 4 never raises, starts with the report of the failed wait, asks
    the process to terminate and kills it when that did not do. *)
Lemma close_step4_shape p :
  exists t,
    close_step4 p = (t, Return tt)
    /\ failures_logged passed_over t = true
    /\ existsb reports_failure t = true
    /\ existsb is_terminate t = true
    /\ existsb is_kill t = negb (returned (terminate p) && returned (wait_terminated p)).
Proof.
  unfold close_step4. destruct p as [i we [[]|e1] [[]|e2] [[]|e3]];
    (eexists; split; [reflexivity|]; repeat split; reflexivity).
Qed.

Lemma existsb_report_logged P t1 t2 b ev :
  failed ev = negb b -> (b = false -> existsb reports_failure t2 = true) ->
  failures_logged P t1 = true -> failures_logged P t2 = true ->
  failures_logged P (t1 ++ ev :: t2) = true.
Proof.
  intros Hev Hb H1 H2. apply failures_logged_app; [assumption|].
  simpl. rewrite H2, Hev. destruct b; [reflexivity|].
  rewrite Hb by reflexivity. simpl. now rewrite orb_true_r.
Qed.

(** C3 (as amended): whatever session it is given and however the browser,
    the debugger endpoint and the websocket behave, [close_chrome_session]
    returns normally.  The failure of any call is followed by a log line
    reporting it, except for the two sends that ask the page to close and
    for closing the websocket, whose failures are passed over.  The process
    is asked to terminate exactly when the six-second wait did not see it
    exit, and is killed exactly when, in addition, [terminate] or the
    two-second wait after it failed. *)
Theorem close_chrome_session_never_raises env sess wt :
  let run := close_chrome_session env sess wt in
  result run = Return tt
  /\ failures_logged passed_over (trace run) = true
  /\ match sess with
     | None => trace run = [Enter "close_chrome_session" "None";
                            Log "[SESSION][WARN] close_chrome_session called with None"]
     | Some s =>
         existsb is_terminate (trace run) = negb (returned (wait_exit (proc s)))
         /\ existsb is_kill (trace run) =
            (negb (returned (wait_exit (proc s)))
             && negb (returned (terminate (proc s))
                      && returned (wait_terminated (proc s))))%bool
     end.
Proof.
  destruct sess as [s|]; [|repeat split; reflexivity].
  cbv zeta. unfold close_chrome_session.
  destruct (close_step1_shape env (port s)) as (b & w & E1 & Hb & Hw).
  destruct (close_step2_shape env w wt Hw) as (t2 & E2 & L2 & R2).
  destruct (close_step4_shape (proc s)) as (t4 & E4 & L4 & R4 & T4 & K4).
  rewrite E1. mrun. rewrite E2. mrun. rewrite close_step3_shape. mrun.
  assert (N2 : existsb is_terminate t2 = false /\ existsb is_kill t2 = false).
  { clear - E2. unfold close_step2, sleep in E2.
    destruct (_ && _)%bool in E2; [|inversion E2; split; reflexivity].
    revert E2. generalize (str_seconds wt). intros X. destruct (wt <? 0);
      msplit; intros E2; inversion E2; split; reflexivity. }
  destruct N2 as [NT NK].
  destruct (returned (wait_exit (proc s))); mrun.
  - split; [reflexivity|]. split.
    + change (failures_logged passed_over
                ([] ++ HttpGet (local_url (port s) "/json/version") b
                    :: (t2 ++ [ProcWait (pid (proc s)) 6000 true;
                               Log "[SESSION] Chrome exited cleanly."])) = true).
      apply existsb_report_logged with (b := b); [reflexivity| | reflexivity|].
      * intros ->. rewrite existsb_app, R2; auto.
      * apply failures_logged_app; [assumption|reflexivity].
    + cbn [existsb is_terminate is_kill orb].
      rewrite !existsb_app, NT, NK. split; reflexivity.
  - rewrite E4. mrun. split; [reflexivity|]. split.
    + change (failures_logged passed_over
                ([] ++ HttpGet (local_url (port s) "/json/version") b
                    :: (t2 ++ ProcWait (pid (proc s)) 6000 false :: t4)) = true).
      apply existsb_report_logged with (b := b); [reflexivity| | reflexivity|].
      * intros ->. rewrite existsb_app, R2; auto.
      * apply existsb_report_logged with (b := false);
          [reflexivity|auto|assumption|assumption].
    + cbn [existsb is_terminate is_kill orb].
      rewrite !existsb_app, NT, NK. cbn [existsb is_terminate is_kill orb].
      rewrite T4, K4. split; reflexivity.
Qed.

(** C3 (as stated) fails: a failure of the graceful-close step can go
    unlogged.  On a websocket that refuses the request to enable the runtime
    domain the function carries on and logs nothing about it. *)
Lemma close_chrome_session_silent_failure :
  ~ (forall env sess wt,
        result (close_chrome_session env sess wt) = Return tt
        /\ failures_logged (fun _ => false)
             (trace (close_chrome_session env sess wt)) = true).
Proof.
  intros H.
  destruct (H (Samples.close_env Samples.deaf_ws)
              (Some (Samples.session_of Samples.obedient)) 5000) as [_ L].
  vm_compute in L. discriminate L.
Qed.

Example close_deaf_trace :
  close_chrome_session (Samples.close_env Samples.deaf_ws)
    (Some (Samples.session_of Samples.obedient)) 5000
  = ([Enter "close_chrome_session" "user@example.com";
      HttpGet "http://127.0.0.1:9222/json/version" true;
      WsConnect Samples.debugger_url true;
      WsSend 2 "Runtime.enable" false;
      Log "[SESSION] waiting 5.0s for Chrome to flush cookies/state…";
      Sleep 5000;
      WsSend 3 "Browser.close" true;
      Log "[SESSION] sent Browser.close command.";
      WsClose true;
      ProcWait 4242 6000 true;
      Log "[SESSION] Chrome exited cleanly."],
     Return tt).
Proof. vm_compute. reflexivity. Qed.

Example close_stubborn_trace :
  trace (close_chrome_session (Samples.close_env (Samples.sound_ws []))
           (Some (Samples.session_of Samples.stubborn)) 5000)
  = [Enter "close_chrome_session" "user@example.com";
     HttpGet "http://127.0.0.1:9222/json/version" true;
     WsConnect Samples.debugger_url true;
     WsSend 2 "Runtime.enable" true;
     WsSend 3 "Runtime.evaluate" true;
     Log "[SESSION] waiting 5.0s for Chrome to flush cookies/state…";
     Sleep 5000;
     WsSend 4 "Browser.close" true;
     Log "[SESSION] sent Browser.close command.";
     WsClose true;
     ProcWait 4343 6000 false;
     Log "[SESSION] Chrome not exiting — forcing terminate.";
     ProcTerminate 4343 true;
     ProcWait 4343 2000 false;
     Log "[SESSION][WARN] terminate() failed — forcing kill().";
     ProcKill 4343 true].
Proof. vm_compute. reflexivity. Qed.

End Release.

Section Acquire.
Import Chrome Observe.

(** The readiness wait asks the endpoint once in every turn begun before the
    deadline, up to and including the first answered with status 200; it
    succeeds exactly when there is such a turn, and never raises. *)
Lemma poll_debug_endpoint_run port deadline polls :
  poll_debug_endpoint port deadline polls
  = (flat_map (poll_events port) (through answers_200 (in_time poll_at deadline polls)),
     Return (existsb answers_200 (in_time poll_at deadline polls))).
Proof.
  induction polls as [|q rest IH]; [reflexivity|].
  cbn [poll_debug_endpoint in_time].
  destruct (poll_at q <? deadline); [|reflexivity].
  cbn [through existsb]. rewrite IH. clear IH.
  assert (A : answers_200 q
              = match poll_reply q with
                | Return r => status_code r =? 200
                | Raise _ => false
                end) by reflexivity.
  assert (P : poll_events port q
              = HttpGet (local_url port "/json") (returned (poll_reply q))
                  :: (if returned (poll_reply q) then [] else [Sleep 200]))
    by reflexivity.
  rewrite A. unfold requests_get.
  destruct (poll_reply q) as [r|e]; mrun.
  - destruct (status_code r =? 200); mrun; cbn [flat_map app]; rewrite P;
      reflexivity.
  - cbn [flat_map app]. rewrite P. reflexivity.
Qed.

Lemma through_all {T} (f : T -> bool) l : existsb f l = false -> through f l = l.
Proof.
  induction l as [|x l IH]; [reflexivity|]. cbn [existsb through].
  intros H. apply orb_false_iff in H as [-> H]. now rewrite IH.
Qed.

(** C4: what [start_chrome_session] does, in full, when it has launched a
    browser process [p] (the websocket client is installed, a port was
    found, the executable chosen exists, the profile directory was made and
    [Popen] returned [p]) and no poll of the debug endpoint begun before the
    twelve-second deadline is answered with status 200: it polls until the
    deadline, logs the error, calls [p.terminate()] once and returns [None].
    Nothing follows the call of [terminate], whatever its outcome: when it
    raises, the exception is swallowed ([except Exception: pass]), the
    process is neither waited for nor killed, and the browser that was
    launched stays behind.  ([close_chrome_session], Step 4, does fall back
    to [kill] in that case.) *)
Theorem start_chrome_session_launch_timeout env email port exe p :
  websocket_module env = true ->
  free_port env = Return port ->
  match _find_chrome_executable (files env)
          (cloned_install_dir_for (local_app_data env) email) with
  | Some e => Some e
  | None => _find_chrome_executable (files env)
              ["C:"; "Program Files"; "Google"; "Chrome"; "Application"]
  end = Some exe ->
  fs_exists (files env) exe = true ->
  mkdir_profile env = Return tt ->
  spawn env = Return p ->
  existsb answers_200
    (in_time poll_at (ready_started env + seconds 12) (ready_polls env)) = false ->
  start_chrome_session env email
  = ([Enter "start_chrome_session" email;
      Syscall "socket.bind" true;
      Syscall "mkdir" true;
      Spawn (chrome_cmd exe (profile_dir_for (local_app_data env) email) port) true]
       ++ flat_map (poll_events port)
            (in_time poll_at (ready_started env + seconds 12) (ready_polls env))
       ++ [Log ("[SESSION][ERROR] debug endpoint not ready on port " +:+ pretty port);
           ProcTerminate (pid p) (returned (terminate p))],
     Return None).
Proof.
  intros Hm Hp He Hx Hd Hs Hmiss.
  unfold start_chrome_session, _find_free_port_tcp.
  destruct (websocket_module env); [|discriminate]. mrun.
  destruct (free_port env) as [q|e]; [|discriminate]. injection Hp as ->. mrun.
  cbv zeta.
  destruct (match _find_chrome_executable (files env) _ with
            | Some e => Some e | None => _ end) as [x|]; [|discriminate].
  injection He as ->. mrun.
  destruct (fs_exists (files env) exe); [|discriminate]. mrun.
  destruct (mkdir_profile env) as [[]|e]; [|discriminate]. mrun.
  destruct (spawn env) as [q|e]; [|discriminate]. injection Hs as ->. mrun.
  unfold _wait_for_debug_endpoint. cbv zeta.
  rewrite poll_debug_endpoint_run, Hmiss, (through_all _ _ Hmiss). mrun.
  destruct (terminate p) as [[]|e]; mrun; rewrite <- ?app_assoc; reflexivity.
Qed.

(** The theorem at a browser whose [terminate] raises: the run ends with the
    failed call, and the result is [None]. *)
Lemma start_chrome_session_launch_timeout_witness :
  start_chrome_session (Samples.launch_env Samples.shielded Samples.sluggish_polls [])
    "user@example.com"
  = ([Enter "start_chrome_session" "user@example.com";
      Syscall "socket.bind" true;
      Syscall "mkdir" true;
      Spawn (chrome_cmd
               (cloned_install_dir_for Samples.app_data "user@example.com" ++ ["chrome.exe"])
               (profile_dir_for Samples.app_data "user@example.com") 9222) true]
       ++ flat_map (poll_events 9222)
            (in_time poll_at
               (ready_started
                  (Samples.launch_env Samples.shielded Samples.sluggish_polls [])
                + seconds 12)
               (ready_polls
                  (Samples.launch_env Samples.shielded Samples.sluggish_polls [])))
       ++ [Log ("[SESSION][ERROR] debug endpoint not ready on port " +:+ pretty 9222);
           ProcTerminate 4545 false],
     Return None).
Proof.
  apply (start_chrome_session_launch_timeout
           (Samples.launch_env Samples.shielded Samples.sluggish_polls [])
           "user@example.com" 9222
           (cloned_install_dir_for Samples.app_data "user@example.com" ++ ["chrome.exe"])
           Samples.shielded);
    vm_compute; reflexivity.
Defined.

(** The same run, written out: the browser is launched, the endpoint is
    asked three times in vain, [terminate] fails, and no [wait] or [kill]
    follows. *)
Example launch_timeout_orphan :
  start_chrome_session (Samples.launch_env Samples.shielded Samples.sluggish_polls [])
    "user@example.com"
  = ([Enter "start_chrome_session" "user@example.com";
      Syscall "socket.bind" true;
      Syscall "mkdir" true;
      Spawn ["C:\Users\me\AppData\Local\GmailHybrid\chromes\user_at_example_com\chrome.exe";
             "--user-data-dir=C:\Users\me\AppData\Local\GmailHybrid\profiles\user_at_example_com";
             "--remote-debugging-port=9222";
             "--remote-allow-origins=*";
             "--no-first-run";
             "--no-default-browser-check";
             "--disable-default-apps";
             "--disable-translate";
             "--autoplay-policy=no-user-gesture-required";
             "--ignore-certificate-errors"] true;
      HttpGet "http://127.0.0.1:9222/json" false;
      Sleep 200;
      HttpGet "http://127.0.0.1:9222/json" true;
      HttpGet "http://127.0.0.1:9222/json" false;
      Sleep 200;
      Log "[SESSION][ERROR] debug endpoint not ready on port 9222";
      ProcTerminate 4545 false],
     Return None).
Proof. vm_compute. reflexivity. Qed.

(** With a browser that lets itself be terminated, the same timeout: *)
Example launch_timeout_trace :
  start_chrome_session (Samples.launch_env Samples.obedient Samples.sluggish_polls [])
    "user@example.com"
  = ([Enter "start_chrome_session" "user@example.com";
      Syscall "socket.bind" true;
      Syscall "mkdir" true;
      Spawn ["C:\Users\me\AppData\Local\GmailHybrid\chromes\user_at_example_com\chrome.exe";
             "--user-data-dir=C:\Users\me\AppData\Local\GmailHybrid\profiles\user_at_example_com";
             "--remote-debugging-port=9222";
             "--remote-allow-origins=*";
             "--no-first-run";
             "--no-default-browser-check";
             "--disable-default-apps";
             "--disable-translate";
             "--autoplay-policy=no-user-gesture-required";
             "--ignore-certificate-errors"] true;
      HttpGet "http://127.0.0.1:9222/json" false;
      Sleep 200;
      HttpGet "http://127.0.0.1:9222/json" true;
      HttpGet "http://127.0.0.1:9222/json" false;
      Sleep 200;
      Log "[SESSION][ERROR] debug endpoint not ready on port 9222";
      ProcTerminate 4242 true],
     Return None).
Proof. vm_compute. reflexivity. Qed.

End Acquire.

Section Navigate.

(** The wait ends as [wait_verdict] says on the turns begun in time. *)
Lemma await_load_event_result ws deadline turns :
  result (await_load_event ws deadline turns)
  = wait_verdict (in_time tick_at deadline turns).
Proof.
  induction turns as [|k rest IH]; [reflexivity|].
  cbn [await_load_event in_time]. destruct (tick_at k <? deadline); [|reflexivity].
  cbn [wait_verdict]. unfold load_event.
  destruct (await_load_event ws deadline rest) as [t o]. cbn [result snd] in IH.
  destruct (recv_reply k) as [[|m]|e]; mrun; try exact IH.
  destruct m; cbn [py_get]; mrun; try reflexivity.
  destruct (eq_str _ _); mrun; [reflexivity|exact IH].
Qed.

Lemma wait_verdict_discarded k rest :
  discarded k = true -> wait_verdict (k :: rest) = wait_verdict rest.
Proof.
  unfold discarded, not_an_object. intros D. apply andb_true_iff in D as [L N].
  apply negb_true_iff in L, N. cbn [wait_verdict]. rewrite L.
  destruct (recv_reply k) as [[|[]]|]; try reflexivity; discriminate N.
Qed.

Lemma wait_verdict_not_an_object k rest :
  not_an_object k = true ->
  exists m, recv_reply k = Return (Doc m)
            /\ wait_verdict (k :: rest) = Raise (attribute_error m).
Proof.
  unfold not_an_object. intros N. cbn [wait_verdict]. unfold load_event.
  destruct (recv_reply k) as [[|m]|]; try discriminate N.
  exists m. split; [reflexivity|]. destruct m; try reflexivity; discriminate N.
Qed.

Lemma wait_verdict_true turns :
  wait_verdict turns = Return true <->
  exists pre k post,
    turns = pre ++ k :: post /\ forallb discarded pre = true /\ load_event k = true.
Proof.
  induction turns as [|k rest IH].
  - split; [discriminate|]. intros (pre & k & post & E & _). now destruct pre.
  - destruct (load_event k) eqn:L.
    + cbn [wait_verdict]. rewrite L. split; [|reflexivity].
      intros _. now exists [], k, rest.
    + destruct (not_an_object k) eqn:N.
      * destruct (wait_verdict_not_an_object k rest N) as (m & _ & ->).
        split; [discriminate|]. intros (pre & k' & post & E & D & L').
        destruct pre as [|q pre]; simpl in E; injection E as <- E.
        -- congruence.
        -- simpl in D. unfold discarded in D. rewrite N in D.
           now rewrite andb_false_r in D.
      * assert (D : discarded k = true) by (unfold discarded; now rewrite L, N).
        rewrite wait_verdict_discarded by assumption. rewrite IH. split.
        -- intros (pre & k' & post & -> & D' & L').
           exists (k :: pre), k', post. repeat split; [|assumption].
           simpl. now rewrite D.
        -- intros (pre & k' & post & E & D' & L').
           destruct pre as [|q pre]; simpl in E; injection E as <- E.
           ++ congruence.
           ++ exists pre, k', post. simpl in D'.
              apply andb_true_iff in D' as [_ D']. now repeat split.
Qed.

(** [cdp_navigate] never raises; with [wait_load] it answers [True] exactly
    when both commands were sent and the wait ended with the load event. *)
Lemma cdp_navigate_result env ws_url url timeout :
  result (cdp_navigate env ws_url url true timeout)
  = Return
      (match nav_connect env with
       | Return ws =>
           nav_websocket_module env
           && returned (send_reply ws 1 "Page.enable")
           && returned (send_reply ws 2 "Page.navigate")
           && match wait_verdict (in_time tick_at (wait_started env + timeout) (ticks ws)) with
              | Return b => b
              | Raise _ => false
              end
       | Raise _ => false
       end).
Proof.
  unfold cdp_navigate.
  destruct (nav_websocket_module env); mrun.
  2:{ destruct (nav_connect env); reflexivity. }
  destruct (nav_connect env) as [ws|e]; mrun; [|reflexivity].
  pose proof (await_load_event_result ws (wait_started env + timeout) (ticks ws)) as R.
  destruct (await_load_event ws (wait_started env + timeout) (ticks ws)) as [t o].
  cbn [result snd] in R. rewrite <- R.
  destruct (send_reply ws 1 "Page.enable") as [[]|e1]; mrun.
  2:{ destruct (close_reply ws) as [[]|e2]; reflexivity. }
  destruct (send_reply ws 2 "Page.navigate") as [[]|e2]; mrun.
  2:{ destruct (close_reply ws) as [[]|e3]; reflexivity. }
  destruct o as [[|]|e3]; mrun; destruct (close_reply ws) as [[]|e4]; reflexivity.
Qed.

Lemma returned_unit (r : outcome unit) : returned r = true <-> r = Return tt.
Proof. destruct r as [[]|e]; split; intros H; try reflexivity; discriminate H. Qed.

Lemma in_time_head {T} (at_ : T -> Z) deadline k rest :
  at_ k < deadline -> in_time at_ deadline (k :: rest) = k :: in_time at_ deadline rest.
Proof. intros H. cbn [in_time]. apply Z.ltb_lt in H. now rewrite H. Qed.

(** The wait on every course of the connection: with [wait_load] set,
    [cdp_navigate] returns [True] if and only if it connected, sent both
    commands, and in a turn begun before the deadline received a message
    whose [method] is "Page.loadEventFired" after nothing but failed
    receives, unparseable frames and JSON objects that are not that event.
    Each of those is read and discarded and the wait goes on; a frame that
    parses to something other than an object ends the wait with an
    [AttributeError], which [cdp_navigate] turns into [False]. *)
Theorem cdp_navigate_waits_for_load_event env ws_url url timeout :
  (result (cdp_navigate env ws_url url true timeout) = Return true <->
   nav_websocket_module env = true
   /\ exists ws,
        nav_connect env = Return ws
        /\ send_reply ws 1 "Page.enable" = Return tt
        /\ send_reply ws 2 "Page.navigate" = Return tt
        /\ exists pre k post,
             in_time tick_at (wait_started env + timeout) (ticks ws) = pre ++ k :: post
             /\ forallb discarded pre = true
             /\ load_event k = true)
  /\ (forall ws deadline k rest,
        tick_at k < deadline -> discarded k = true ->
        result (await_load_event ws deadline (k :: rest))
        = result (await_load_event ws deadline rest))
  /\ (forall ws deadline k rest,
        tick_at k < deadline -> not_an_object k = true ->
        exists m, recv_reply k = Return (Doc m)
                  /\ result (await_load_event ws deadline (k :: rest))
                     = Raise (attribute_error m)).
Proof.
  split; [|split].
  - rewrite cdp_navigate_result. destruct (nav_connect env) as [ws|e].
    + split.
      * intros H. injection H as H.
        apply andb_true_iff in H as [H Hv]. apply andb_true_iff in H as [H H2].
        apply andb_true_iff in H as [Hm H1].
        split; [assumption|]. exists ws. split; [reflexivity|].
        split; [now apply returned_unit|]. split; [now apply returned_unit|].
        apply wait_verdict_true.
        destruct (wait_verdict _) as [b|e]; [now subst b | discriminate Hv].
      * intros (Hm & ws' & E & H1 & H2 & Hv). injection E as <-.
        apply wait_verdict_true in Hv. rewrite Hm, H1, H2, Hv. reflexivity.
    + split; [discriminate|]. intros (_ & ws & E & _). discriminate E.
  - intros ws deadline k rest Hk D. rewrite !await_load_event_result.
    rewrite in_time_head by assumption. now apply wait_verdict_discarded.
  - intros ws deadline k rest Hk N. rewrite await_load_event_result.
    rewrite in_time_head by assumption. now apply wait_verdict_not_an_object.
Qed.

(** So success is not equivalent to a load event received in time on every
    course of the connection: a message that is not the load event can end
    the wait. *)
Lemma cdp_navigate_non_object_frame :
  ~ (forall env ws_url url timeout ws,
        nav_websocket_module env = true ->
        nav_connect env = Return ws ->
        send_reply ws 1 "Page.enable" = Return tt ->
        send_reply ws 2 "Page.navigate" = Return tt ->
        (result (cdp_navigate env ws_url url true timeout) = Return true <->
         existsb load_event
           (in_time tick_at (wait_started env + timeout) (ticks ws)) = true)).
Proof.
  intros H.
  destruct (H (Samples.nav_env Samples.null_then_load) Samples.page_url
              "https://mail.google.com/mail/u/0/#inbox" (seconds 8)
              (Samples.sound_ws Samples.null_then_load)
              eq_refl eq_refl eq_refl eq_refl) as [_ H'].
  specialize (H' eq_refl). vm_compute in H'. discriminate H'.
Qed.


Lemma wait_verdict_objects turns :
  existsb not_an_object turns = false ->
  wait_verdict turns = Return (existsb load_event turns).
Proof.
  induction turns as [|k rest IH]; [reflexivity|].
  cbn [existsb wait_verdict]. intros H. apply orb_false_iff in H as [N H].
  destruct (load_event k); [reflexivity|]. cbn [orb]. rewrite <- (IH H).
  unfold not_an_object in N.
  destruct (recv_reply k) as [[|[]]|]; try reflexivity; discriminate N.
Qed.

(** On the frames of the protocol (every frame that parses is a JSON
    object) the wait is as documented: once connected and with both
    commands sent, [cdp_navigate] returns [True] if and only if a message
    whose [method] is "Page.loadEventFired" is received in a turn begun
    before the deadline; and a turn that brings anything else (a failed
    receive, an unparseable frame, a response, another event) is read and
    the wait goes on with the next turn, after a pause of 50 ms when the
    receive failed. *)
Theorem cdp_navigate_on_protocol_frames env ws_url url timeout ws :
  nav_websocket_module env = true ->
  nav_connect env = Return ws ->
  send_reply ws 1 "Page.enable" = Return tt ->
  send_reply ws 2 "Page.navigate" = Return tt ->
  existsb not_an_object (in_time tick_at (wait_started env + timeout) (ticks ws)) = false ->
  (result (cdp_navigate env ws_url url true timeout) = Return true <->
   existsb load_event (in_time tick_at (wait_started env + timeout) (ticks ws)) = true)
  /\ (forall deadline k rest,
        tick_at k < deadline -> load_event k = false -> not_an_object k = false ->
        await_load_event ws deadline (k :: rest)
        = (WsRecv (returned (recv_reply k))
             :: (if returned (recv_reply k) then [] else [Sleep 50])
             ++ trace (await_load_event ws deadline rest),
           result (await_load_event ws deadline rest))).
Proof.
  intros Hm Hc H1 H2 Hobj. split.
  - rewrite cdp_navigate_result, Hc, Hm, H1, H2, (wait_verdict_objects _ Hobj).
    cbn [returned andb]. split; intros H; [now injection H | now rewrite H].
  - intros deadline k rest Hk L N. cbn [await_load_event].
    apply Z.ltb_lt in Hk. rewrite Hk.
    destruct (await_load_event ws deadline rest) as [t o].
    unfold load_event in L. unfold not_an_object in N.
    destruct (recv_reply k) as [[|m]|e]; mrun; try reflexivity.
    destruct m; try discriminate N. cbn [py_get]. mrun. rewrite L. reflexivity.
Qed.

Lemma cdp_navigate_on_protocol_frames_witness :
  result (cdp_navigate (Samples.nav_env Samples.loading_turns) Samples.page_url
            "https://mail.google.com/mail/u/0/#inbox" true (seconds 12)) = Return true
  <-> existsb load_event
        (in_time tick_at (wait_started (Samples.nav_env Samples.loading_turns) + seconds 12)
           (ticks (Samples.sound_ws Samples.loading_turns))) = true.
Proof.
  apply (cdp_navigate_on_protocol_frames (Samples.nav_env Samples.loading_turns)
           Samples.page_url "https://mail.google.com/mail/u/0/#inbox" (seconds 12)
           (Samples.sound_ws Samples.loading_turns));
    reflexivity.
Defined.

Example navigate_loading_trace :
  cdp_navigate (Samples.nav_env Samples.loading_turns) Samples.page_url
    "https://mail.google.com/mail/u/0/#inbox" true (seconds 12)
  = ([WsConnect Samples.page_url true;
      WsSend 1 "Page.enable" true;
      WsSend 2 "Page.navigate" true;
      WsRecv true; WsRecv true; WsRecv false; Sleep 50; WsRecv true; WsRecv true;
      WsClose true;
      Sleep 200],
     Return true).
Proof. vm_compute. reflexivity. Qed.

End Navigate.

Section Callback.
Import GmailApi.

Example callback_code :
  do_GET (Samples.callback "code" "abc123") (Some ∅)
  = (Some {[ "code" := "abc123" ]},
     {| status := 200; body := Complete; shutdown := true |}).
Proof. vm_compute. reflexivity. Qed.

Example callback_error_then_code :
  outcome_of (deliver [Samples.callback "error" "access_denied";
                       Samples.callback "code" "abc123"] ∅)
  = Code "abc123".
Proof. vm_compute. reflexivity. Qed.

Lemma handle_callback req (d : gmap string string) :
  is_callback req = true -> handle d req = <[slot req := payload req]> d.
Proof.
  unfold is_callback, handle, do_GET, payload, slot. intros H.
  apply andb_true_iff in H as [Hp Hc]. rewrite Hp. cbn [negb].
  destruct (nonblank (qs_first (query req) "error")) eqn:E; [reflexivity|].
  cbn [orb] in Hc. rewrite Hc. reflexivity.
Qed.

Lemma handle_keeps req (d : gmap string string) k :
  is_Some (d !! k) -> is_Some (handle d req !! k).
Proof.
  unfold handle, do_GET. intros H.
  destruct (negb _); [exact H|].
  destruct (nonblank (qs_first (query req) "error")); cbn [fst].
  - destruct (decide ("error" = k)) as [<-|Hne].
    + rewrite lookup_insert_eq. eauto.
    + now rewrite lookup_insert_ne.
  - destruct (nonblank (qs_first (query req) "code")); cbn [fst]; [|exact H].
    destruct (decide ("code" = k)) as [<-|Hne].
    + rewrite lookup_insert_eq. eauto.
    + now rewrite lookup_insert_ne.
Qed.

Lemma deliver_keeps reqs (d : gmap string string) k :
  is_Some (d !! k) -> is_Some (deliver reqs d !! k).
Proof.
  revert d. induction reqs as [|r reqs IH]; intros d H; [exact H|].
  cbn [deliver fold_left]. apply IH. now apply handle_keeps.
Qed.

Lemma deliver_snoc reqs req (d : gmap string string) :
  deliver (reqs ++ [req]) d = handle (deliver reqs d) req.
Proof. unfold deliver. now rewrite fold_left_app. Qed.

Lemma slot_other req : slot req <> other_slot req.
Proof. unfold slot, other_slot. destruct (nonblank _); discriminate. Qed.

Lemma outcome_of_pending (d : gmap string string) :
  outcome_of d = Pending <-> d !! "code" = None /\ d !! "error" = None.
Proof.
  unfold outcome_of. destruct (d !! "code"), (d !! "error"); split;
    try discriminate; try tauto; intros [? ?]; discriminate.
Qed.

(** C1 (as amended): the handler records every callback it handles.  The
    callback delivered last writes its value into its entry of the flow's
    dictionary ("error" for an error callback, "code" for a code callback),
    replacing what an earlier callback of the same kind wrote and leaving
    the other entry as it was; no entry is ever removed.  So after a
    non-empty sequence of code and error callbacks the result is no longer
    pending, but both a code and an error may be recorded, and then the
    waiting flow, which asks for the code first, takes the code. *)
Theorem callbacks_are_recorded (d : gmap string string) reqs req :
  forallb is_callback (reqs ++ [req]) = true ->
  let d' := deliver (reqs ++ [req]) d in
  d' !! slot req = Some (payload req)
  /\ d' !! other_slot req = deliver reqs d !! other_slot req
  /\ outcome_of d' <> Pending
  /\ (forall k, is_Some (d !! k) -> is_Some (d' !! k))
  /\ (forall c e, d' !! "code" = Some c -> d' !! "error" = Some e ->
                  outcome_of d' = Code c).
Proof.
  intros H. cbv zeta. rewrite forallb_app in H. apply andb_true_iff in H as [_ H].
  cbn [forallb] in H. rewrite andb_true_r in H.
  rewrite deliver_snoc, handle_callback by assumption.
  assert (W : <[slot req:=payload req]> (deliver reqs d) !! slot req
              = Some (payload req)) by apply lookup_insert_eq.
  split; [exact W|]. split; [|split; [|split]].
  - apply lookup_insert_ne, slot_other.
  - intros P. apply outcome_of_pending in P as [Pc Pe].
    unfold slot in *. destruct (nonblank _); congruence.
  - intros k Hk. destruct (decide (slot req = k)) as [<-|Hne].
    + rewrite W. eauto.
    + rewrite lookup_insert_ne by assumption. now apply deliver_keeps.
  - intros c e Hc _. unfold outcome_of. now rewrite Hc.
Qed.

Lemma callbacks_are_recorded_witness :
  let d' := deliver ([Samples.callback "error" "access_denied"]
                       ++ [Samples.callback "code" "abc123"]) ∅ in
  d' !! slot (Samples.callback "code" "abc123")
  = Some (payload (Samples.callback "code" "abc123"))
  /\ d' !! other_slot (Samples.callback "code" "abc123")
     = deliver [Samples.callback "error" "access_denied"] ∅
         !! other_slot (Samples.callback "code" "abc123")
  /\ outcome_of d' <> Pending
  /\ (forall k, is_Some ((∅ : gmap string string) !! k) -> is_Some (d' !! k))
  /\ (forall c e, d' !! "code" = Some c -> d' !! "error" = Some e ->
                  outcome_of d' = Code c).
Proof.
  apply (callbacks_are_recorded ∅ [Samples.callback "error" "access_denied"]
           (Samples.callback "code" "abc123")).
  vm_compute. reflexivity.
Defined.

(** C1 (as stated) fails: writes after the first are accepted.  An error
    callback followed by a code callback to the same flow leaves both an
    error and a code recorded, and the flow then sees the code. *)
Lemma callback_second_write_accepted :
  ~ (forall first rest,
        is_callback first = true -> forallb is_callback rest = true ->
        deliver (first :: rest) ∅ = deliver [first] ∅).
Proof.
  intros H.
  specialize (H (Samples.callback "error" "access_denied")
                [Samples.callback "code" "abc123"] eq_refl eq_refl).
  apply (f_equal (λ d : gmap string string, d !! "code")) in H.
  vm_compute in H. discriminate H.
Qed.

Example both_recorded :
  let d := deliver [Samples.callback "error" "access_denied";
                    Samples.callback "code" "abc123"] ∅ in
  d !! "error" = Some "access_denied" /\ d !! "code" = Some "abc123".
Proof. vm_compute. split; reflexivity. Qed.

Example error_overwritten :
  deliver [Samples.callback "error" "access_denied";
           Samples.callback "error" "server_error"] ∅ !! "error"
  = Some "server_error".
Proof. vm_compute. reflexivity. Qed.

End Callback.

Section Search.
Import GmailApi.

Lemma fetch_pages_collects max_results with_log :
  0 <= max_results ->
  forall req messages,
    take (Z.to_nat max_results) (fst (fetch_pages req messages max_results with_log))
    = take (Z.to_nat max_results) (messages ++ served req).
Proof.
  intros Hmax. fix IH 1. intros [[[found [[req'|]|e]]|e]] messages;
    cbn [fetch_pages served fst].
  - destruct (Z.of_nat (length (messages ++ found)) >=? max_results) eqn:G.
    + cbn [fst]. rewrite (app_assoc messages found (served req')).
      rewrite (take_app_le (messages ++ found)); [reflexivity|]. lia.
    + specialize (IH req' (messages ++ found)).
      destruct (fetch_pages req' (messages ++ found) max_results with_log) as [all rest].
      cbn [fst] in *. now rewrite IH, app_assoc.
  - reflexivity.
  - reflexivity.
  - now rewrite app_nil_r.
Qed.

Lemma search_messages_result service q max_results with_log :
  result (search_messages service q max_results with_log)
  = Return (slice_to
              (match list_messages service q with
               | Return req => fst (fetch_pages req [] max_results with_log)
               | Raise _ => []
               end) max_results).
Proof.
  unfold search_messages. destruct (list_messages service q) as [req|e].
  - destruct (fetch_pages req [] max_results with_log) as [all [t [[]|e]]];
      destruct with_log; reflexivity.
  - destruct with_log; reflexivity.
Qed.

(** C10: for a bound [max_results] that is not negative, [search_messages]
    never raises and returns at most [max_results] messages, namely the
    first [max_results] of the messages served before the first failure of
    the paged call (none when the first request already fails). *)
Theorem search_messages_bounded service q max_results with_log :
  0 <= max_results ->
  exists l,
    result (search_messages service q max_results with_log) = Return l
    /\ Z.of_nat (length l) <= max_results
    /\ l = take (Z.to_nat max_results)
             (match list_messages service q with
              | Return req => served req
              | Raise _ => []
              end).
Proof.
  intros Hmax. eexists. split; [apply search_messages_result|].
  unfold slice_to. apply Z.leb_le in Hmax as Hb. rewrite Hb. split.
  - rewrite length_take. lia.
  - destruct (list_messages service q) as [req|e]; [|reflexivity].
    now rewrite fetch_pages_collects.
Qed.

Lemma search_messages_bounded_witness :
  exists l,
    result (search_messages Samples.failing_mailbox "in:inbox" 500 true) = Return l
    /\ Z.of_nat (length l) <= 500
    /\ l = take (Z.to_nat 500)
             (match list_messages Samples.failing_mailbox "in:inbox" with
              | Return req => served req
              | Raise _ => []
              end).
Proof.
  apply (search_messages_bounded Samples.failing_mailbox "in:inbox" 500 true).
  lia.
Defined.

Example search_failing_mailbox :
  search_messages Samples.failing_mailbox "in:inbox" 500 true
  = ([Syscall "list" true; Syscall "execute" true;
      Log "[SEARCH] 2 found so far…";
      Syscall "list_next" true; Syscall "execute" false;
      Log "[SEARCH][ERROR] 503 backend error"],
     Return [Samples.message "m1"; Samples.message "m2"]).
Proof. vm_compute. reflexivity. Qed.

Example search_one_result :
  result (search_messages Samples.failing_mailbox "in:inbox" 1 false)
  = Return [Samples.message "m1"].
Proof. vm_compute. reflexivity. Qed.

End Search.

Section Retry.
Import GmailApi.

Lemma await_port_quiet fn deadline checks : quiet fn (await_port deadline checks).
Proof.
  induction checks as [|k rest IH]; [reflexivity|].
  cbn [await_port]. quiet_auto; reflexivity.
Qed.

Lemma await_load_event_quiet fn ws deadline turns :
  quiet fn (await_load_event ws deadline turns).
Proof.
  induction turns as [|k rest IH]; [reflexivity|].
  cbn [await_load_event]. quiet_auto.
Qed.

Lemma cdp_navigate_quiet fn env ws_url url wait_load timeout :
  quiet fn (cdp_navigate env ws_url url wait_load timeout).
Proof.
  unfold cdp_navigate, ws_send, ws_close.
  pose proof (await_load_event_quiet fn).
  quiet_auto; auto.
Qed.

Lemma await_callback_quiet fn env email deadline d turns :
  quiet fn (await_callback env email deadline d turns).
Proof.
  revert d. induction turns as [|k rest IH]; intros d; [reflexivity|].
  cbn [await_callback]. quiet_auto.
Qed.

Lemma oauth_once_entries env email sess :
  entries "_oauth_once_with_session" (trace (_oauth_once_with_session env email sess))
  = [email].
Proof.
  unfold _oauth_once_with_session. rewrite trace_bind, entries_app.
  cbn [emit trace result fst snd entries String.eqb Ascii.eqb Bool.eqb app].
  f_equal.
  change (quiet "_oauth_once_with_session"
            (if negb (credentials_json env)
             then raise (Exception "FileNotFoundError"
                           "Missing credentials.json next to the app.")
             else
               port ← perform (Syscall "socket.bind") (oauth_port env);
               auth_url ← perform (Syscall "InstalledAppFlow") (authorization_url env);
               let local_shared : gmap string string := ∅ in
               perform (Syscall "ThreadingHTTPServer") (server_bound env);;
               ready ← await_port (port_started env + seconds 3) (port_checks env);
               if negb ready then
                 raise (Exception "RuntimeError"
                          ("OAuth callback server failed to start on port "
                           +:+ pretty port))
               else
                 cdp_navigate (navigation env) (ws_url sess) auth_url false (seconds 12);;
                 log_fn ("[OAUTH] waiting for callback on port " +:+ pretty port
                         +:+ " for " +:+ email +:+ " …");;
                 await_callback env email (callback_started env + seconds 600)
                   local_shared (callback_turns env))).
  cbv zeta.
  pose proof (await_port_quiet "_oauth_once_with_session").
  pose proof (cdp_navigate_quiet "_oauth_once_with_session").
  pose proof (await_callback_quiet "_oauth_once_with_session").
  quiet_auto; auto.
Qed.

(** C7: [oauth_first_login_in_session] runs the flow once; if that attempt
    returns, its result is the result and nothing more happens.  If it
    raises, whatever the exception, the failure is logged, two seconds pass,
    and the whole flow is run once more; the outcome of that second attempt,
    credentials or exception, is the outcome of the call.  The flow is thus
    entered once or twice, never more. *)
Theorem oauth_retries_exactly_once first second email sess :
  let attempt1 := _oauth_once_with_session first email sess in
  let attempt2 := _oauth_once_with_session second email sess in
  let run := oauth_first_login_in_session first second email sess in
  match result attempt1 with
  | Return creds => run = attempt1
  | Raise e =>
      run = (trace attempt1
               ++ [Log ("[OAuth] first attempt failed: " +:+ exn_text e
                        +:+ "; retrying …");
                   Sleep 2000]
               ++ trace attempt2,
             result attempt2)
  end
  /\ entries "_oauth_once_with_session" (trace run)
     = if returned (result attempt1) then [email] else [email; email].
Proof.
  cbv zeta. unfold oauth_first_login_in_session.
  pose proof (oauth_once_entries first email sess) as E1.
  pose proof (oauth_once_entries second email sess) as E2.
  destruct (_oauth_once_with_session first email sess) as [t1 [c|e]];
    cbn [trace result fst snd returned] in *.
  - split; [reflexivity|exact E1].
  - destruct (_oauth_once_with_session second email sess) as [t2 r2];
      cbn [trace result fst snd] in *.
    split; [reflexivity|].
    change (sleep (seconds 2)) with (emit (Sleep 2000)). mrun.
    rewrite entries_app, E1. cbn [entries app]. now rewrite E2.
Qed.

Example denied_then_granted :
  oauth_first_login_in_session (Samples.oauth_env Samples.denied_turns)
    (Samples.oauth_env Samples.granted_turns) "user@example.com"
    (Samples.session_of Samples.obedient)
  = ([Enter "_oauth_once_with_session" "user@example.com";
      Syscall "socket.bind" true;
      Syscall "InstalledAppFlow" true;
      Syscall "ThreadingHTTPServer" true;
      Syscall "socket.create_connection" true;
      WsConnect Samples.page_url true;
      WsSend 1 "Page.enable" true;
      WsSend 2 "Page.navigate" true;
      WsClose true;
      Sleep 200;
      Log "[OAUTH] waiting for callback on port 8765 for user@example.com …";
      Sleep 250;
      Log "[OAuth] first attempt failed: OAuth error for user@example.com: access_denied; retrying …";
      Sleep 2000;
      Enter "_oauth_once_with_session" "user@example.com";
      Syscall "socket.bind" true;
      Syscall "InstalledAppFlow" true;
      Syscall "ThreadingHTTPServer" true;
      Syscall "socket.create_connection" true;
      WsConnect Samples.page_url true;
      WsSend 1 "Page.enable" true;
      WsSend 2 "Page.navigate" true;
      WsClose true;
      Sleep 200;
      Log "[OAUTH] waiting for callback on port 8765 for user@example.com …";
      Syscall "flow.fetch_token" true;
      Syscall "write token" true;
      Log "[TOKEN] saved for user@example.com: emails\user_at_example.com.json"],
     Return (Samples.granted, true)).
Proof. vm_compute. reflexivity. Qed.

Example denied_twice :
  result (oauth_first_login_in_session (Samples.oauth_env Samples.denied_turns)
            (Samples.oauth_env Samples.denied_turns) "user@example.com"
            (Samples.session_of Samples.obedient))
  = Raise (Exception "RuntimeError" "OAuth error for user@example.com: access_denied").
Proof. vm_compute. reflexivity. Qed.

(** The waiting flow and a late code: an error has been recorded, but a
    code arrives before the flow looks again, and the flow goes on with the
    code. *)
Example error_then_code_before_look :
  result (_oauth_once_with_session
            (Samples.oauth_env
               [ {| look_at := 200;
                    arrived := [Samples.callback "error" "access_denied";
                                Samples.callback "code" "abc123"] |} ])
            "user@example.com" (Samples.session_of Samples.obedient))
  = Return (Samples.granted, true).
Proof. vm_compute. reflexivity. Qed.

End Retry.

(** ** Which functions are entered *)

Section Entries.
Import GmailApi Manager.
Variable fn : string.

Lemma http_json_quiet url reply : quiet fn (_http_json url reply).
Proof. unfold _http_json, requests_get, raise_for_status. quiet_auto. Qed.

Lemma poll_debug_endpoint_quiet port deadline polls :
  quiet fn (poll_debug_endpoint port deadline polls).
Proof.
  induction polls as [|q rest IH]; [reflexivity|].
  cbn [poll_debug_endpoint]. unfold requests_get. quiet_auto.
Qed.

Lemma create_new_tab_quiet port url tp :
  quiet fn (_create_new_tab_and_get_ws port url tp).
Proof.
  unfold _create_new_tab_and_get_ws. pose proof http_json_quiet. quiet_auto; auto.
Qed.

Lemma poll_new_tab_quiet port deadline polls :
  quiet fn (poll_new_tab port deadline polls).
Proof.
  induction polls as [|tp rest IH]; [reflexivity|].
  cbn [poll_new_tab]. pose proof create_new_tab_quiet. quiet_auto; auto.
Qed.

Lemma start_chrome_session_quiet env email :
  fn <> "start_chrome_session" -> quiet fn (start_chrome_session env email).
Proof.
  intros Hfn. unfold start_chrome_session, _find_free_port_tcp,
    _wait_for_debug_endpoint, proc_terminate.
  pose proof poll_debug_endpoint_quiet. pose proof poll_new_tab_quiet.
  quiet_auto; auto.
Qed.

Lemma close_steps_quiet env s wt :
  quiet fn (ws_main ← close_step1 env (port s);
            close_step2 env ws_main wt;;
            exited ← close_step3 (proc s);
            if (exited : bool) then ret tt else close_step4 (proc s)).
Proof.
  unfold close_step1, close_step2, close_step3, close_step4, ws_send, ws_close,
    proc_wait, proc_terminate, proc_kill.
  pose proof http_json_quiet. quiet_auto; auto.
Qed.

Lemma close_chrome_session_quiet env sess wt :
  fn <> "close_chrome_session" -> quiet fn (close_chrome_session env sess wt).
Proof.
  intros Hfn. unfold close_chrome_session. apply quiet_bind.
  - apply quiet_enter. congruence.
  - intros _. destruct sess; [apply close_steps_quiet | apply quiet_log].
Qed.

Lemma load_credentials_for_quiet env email :
  quiet fn (load_credentials_for env email).
Proof. unfold load_credentials_for. quiet_auto. Qed.

Lemma oauth_once_quiet env email sess :
  fn <> "_oauth_once_with_session" -> quiet fn (_oauth_once_with_session env email sess).
Proof.
  intros Hfn. unfold _oauth_once_with_session.
  pose proof (await_port_quiet fn). pose proof (cdp_navigate_quiet fn).
  pose proof (await_callback_quiet fn).
  quiet_auto; auto.
Qed.

Lemma oauth_first_login_quiet first second email sess :
  fn <> "_oauth_once_with_session" ->
  quiet fn (oauth_first_login_in_session first second email sess).
Proof.
  intros Hfn. unfold oauth_first_login_in_session.
  pose proof (oauth_once_quiet first email sess Hfn).
  pose proof (oauth_once_quiet second email sess Hfn).
  quiet_auto.
Qed.

Lemma entries_in_plugin plugin t : entries fn (map (InPlugin plugin) t) = [].
Proof. induction t as [|ev t IH]; [reflexivity|exact IH]. Qed.

Lemma in_plugin_quiet {A} plugin (m : M A) : quiet fn (in_plugin plugin m).
Proof. apply entries_in_plugin. Qed.

Lemma run_plugins_quiet env email sess gmail people plugins keep :
  fn <> "run" -> quiet fn (run_plugins env email sess gmail people plugins keep).
Proof.
  intros Hfn. revert keep. induction plugins as [|p rest IH]; intros keep;
    [reflexivity|].
  cbn [run_plugins]. pose proof (@in_plugin_quiet unit). quiet_auto; auto.
Qed.

End Entries.

(** ** The account pipeline *)

Section Pipeline.
Import GmailApi Manager.

(** The plugin loop never raises: it runs every plugin, one after the
    other, and answers whether the session is to stay open. *)
Lemma run_plugins_run env email sess gmail people plugins keep :
  run_plugins env email sess gmail people plugins keep
  = (concat (map (plugin_trace (context_for env email sess gmail people)) plugins),
     Return (keep || kept_open (context_for env email sess gmail people) plugins)%bool).
Proof.
  revert keep. induction plugins as [|p rest IH]; intros keep.
  - cbn. now rewrite orb_false_r.
  - cbn [run_plugins map concat kept_open existsb]. unfold plugin_trace at 1.
    unfold in_plugin. cbv zeta.
    destruct (run p (context_for env email sess gmail people)) as [t [[]|e]]; mrun.
    + rewrite IH. mrun. f_equal. f_equal.
      unfold kept_open. now rewrite andb_true_r, orb_assoc.
    + rewrite IH. mrun. f_equal. f_equal.
      unfold kept_open. now rewrite andb_false_r.
Qed.

Lemma run_pool_run tasks :
  run_pool tasks = (concat (map task_trace tasks), Return tt).
Proof.
  induction tasks as [|task rest IH]; [reflexivity|].
  cbn [run_pool map concat]. rewrite IH.
  destruct task as [t [[]|e]]; mrun.
  - replace (task_trace (t, Return ())) with t; [reflexivity|].
    unfold task_trace. cbn [trace result fst snd]. now rewrite app_nil_r.
  - unfold task_trace at 2. cbn [trace result fst snd]. now rewrite <- app_assoc.
Qed.

Lemma plugin_trace_entries ctx plugins :
  entries "run" (concat (map (plugin_trace ctx) plugins)) = map name plugins.
Proof.
  induction plugins as [|p rest IH]; [reflexivity|].
  cbn [map concat]. rewrite entries_app, IH. unfold plugin_trace.
  cbn [entries String.eqb Ascii.eqb Bool.eqb]. rewrite entries_app, entries_in_plugin.
  cbn [app]. f_equal. now destruct (result _).
Qed.

Lemma plugin_trace_quiet fn ctx plugins :
  fn <> "run" -> entries fn (concat (map (plugin_trace ctx) plugins)) = [].
Proof.
  intros Hfn. apply String.eqb_neq in Hfn. rewrite String.eqb_sym in Hfn.
  induction plugins as [|p rest IH]; [reflexivity|].
  cbn [map concat]. rewrite entries_app, IH. unfold plugin_trace.
  cbn [entries]. rewrite Hfn, entries_app, entries_in_plugin.
  now destruct (result _).
Qed.

Ltac quiet_goal :=
  match goal with
  | |- entries ?f (trace ?m) = [] => change (quiet f m)
  end.

Lemma process_one_account_entries env email plugins :
  entries "_process_one_account" (trace (_process_one_account env email plugins))
  = [email].
Proof.
  unfold _process_one_account. rewrite entries_enter_bind. f_equal. quiet_goal.
  pose proof (start_chrome_session_quiet "_process_one_account") as Hs.
  pose proof (close_chrome_session_quiet "_process_one_account") as Hc.
  pose proof (load_credentials_for_quiet "_process_one_account") as Hl.
  pose proof (oauth_first_login_quiet "_process_one_account") as Ho.
  pose proof (run_plugins_quiet "_process_one_account") as Hr.
  cbv zeta. quiet_auto.
Qed.

Lemma task_trace_entries env email plugins :
  entries "_process_one_account" (task_trace (_process_one_account env email plugins))
  = [email].
Proof.
  unfold task_trace. rewrite entries_app, process_one_account_entries.
  now destruct (result _).
Qed.

Lemma pool_entries (envs : string -> AccountEnv) enabled accounts :
  entries "_process_one_account"
    (concat (map (λ a, task_trace (_process_one_account (envs a) a enabled)) accounts))
  = accounts.
Proof.
  induction accounts as [|a rest IH]; [reflexivity|].
  cbn [map concat]. now rewrite entries_app, task_trace_entries, IH.
Qed.

(** C6: the loop over the actions of an account never raises.  It calls
    every action, in order, whatever the actions before it did, and when an
    action raises the exception is logged at that point.  Likewise the pool
    never raises: every account of the batch is processed in full, whatever
    became of the others, and an exception that escapes from one account is
    logged when its result is collected. *)
Theorem action_failures_are_contained env email sess gmail people plugins keep
    (envs : string -> AccountEnv) accounts enabled lines boxes concurrent_var :
  let ctx := context_for env email sess gmail people in
  let actions := run_plugins env email sess gmail people plugins keep in
  let batch :=
    run_pool (map (λ a, _process_one_account (envs a) a enabled) accounts) in
  let whole := run_processing_parallel envs (Return lines) boxes concurrent_var in
  (never_raises actions
   /\ trace actions = concat (map (plugin_trace ctx) plugins)
   /\ entries "run" (trace actions) = map name plugins
   /\ forall p e,
        In p plugins -> result (run p ctx) = Raise e ->
        In (Log ("[ERROR] Plugin " +:+ name p +:+ " failed: " +:+ exn_text e))
           (trace actions))
  /\ (never_raises batch
      /\ trace batch
         = concat (map (λ a, task_trace (_process_one_account (envs a) a enabled))
                     accounts)
      /\ entries "_process_one_account" (trace batch) = accounts)
  /\ (never_raises whole
      /\ entries "_process_one_account" (trace whole)
         = match map fst (List.filter snd boxes) with
           | [] => []
           | _ => List.filter (λ l, negb (String.eqb l "")) (map strip lines)
           end).
Proof.
  cbv zeta. split; [|split].
  - rewrite run_plugins_run. cbn [trace result fst snd].
    split; [eexists; reflexivity|]. split; [reflexivity|].
    split; [apply plugin_trace_entries|].
    intros p e Hp He. apply in_concat. eexists. split.
    + apply in_map. exact Hp.
    + unfold plugin_trace. rewrite He. right. apply in_or_app. right. now left.
  - rewrite run_pool_run, map_map. cbn [trace result fst snd].
    split; [eexists; reflexivity|]. split; [reflexivity|apply pool_entries].
  - unfold run_processing_parallel.
    destruct (List.filter _ (map strip lines)) as [|a accounts'] eqn:Ea.
    + split; [eexists; reflexivity|]. now destruct (map fst _).
    + destruct (map fst (List.filter snd boxes)) as [|p enabled'] eqn:Ee.
      * split; [eexists; reflexivity|reflexivity].
      * rewrite run_pool_run, map_map. mrun. split; [eexists; reflexivity|].
        cbn [entries]. rewrite entries_app. cbn [entries].
        rewrite app_nil_r. apply pool_entries.
Qed.

Ltac entries_norm :=
  repeat first
    [ progress cbn [entries app String.eqb Ascii.eqb Bool.eqb]
    | rewrite entries_app
    | rewrite plugin_trace_entries
    | rewrite plugin_trace_quiet by discriminate
    | rewrite app_nil_r
    | match goal with H : entries _ _ = _ |- _ => rewrite H end ].

Lemma process_without_chrome env email plugins :
  requires_chrome plugins = false ->
  let run := _process_one_account env email plugins in
  result run = Return tt
  /\ entries "start_chrome_session" (trace run) = []
  /\ entries "close_chrome_session" (trace run) = []
  /\ entries "_oauth_once_with_session" (trace run) = []
  /\ match result (load_credentials_for (tokens env) email), gmail_service env with
     | Return _, Return _ =>
         entries "run" (trace run) = map name plugins
         /\ In (Log ("--- Done: " +:+ email +:+ " ---" +:+ newline)) (trace run)
     | _, _ => entries "run" (trace run) = []
     end.
Proof.
  intros Hreq. cbv zeta. unfold _process_one_account. cbv zeta. rewrite Hreq.
  pose proof (load_credentials_for_quiet "start_chrome_session" (tokens env) email) as Q1.
  pose proof (load_credentials_for_quiet "close_chrome_session" (tokens env) email) as Q2.
  pose proof (load_credentials_for_quiet "_oauth_once_with_session" (tokens env) email) as Q3.
  pose proof (load_credentials_for_quiet "run" (tokens env) email) as Q4.
  unfold quiet in Q1, Q2, Q3, Q4.
  destruct (load_credentials_for (tokens env) email) as [tl [c|e]];
    cbn [trace result fst snd] in *; mrun.
  - destruct (gmail_service env) as [gmail|e]; mrun.
    + destruct (people_service env) as [people|e]; mrun;
        rewrite run_plugins_run; mrun;
        (repeat split; try (entries_norm; reflexivity));
        repeat first [ now left | right | apply in_or_app; right ].
    + repeat split; entries_norm; reflexivity.
  - repeat split; entries_norm; reflexivity.
Qed.

(** C9: when none of the enabled actions belongs to the "chrome" group,
    processing an account never enters [start_chrome_session] (nor
    [close_chrome_session], nor the OAuth flow) and returns normally.  With
    persisted credentials that load, and a Gmail service that builds, every
    action runs and the account is reported done; without them no action
    runs.  The same holds for every account of a batch. *)
Theorem no_chrome_no_session env email plugins
    (envs : string -> AccountEnv) accounts :
  requires_chrome plugins = false ->
  let run := _process_one_account env email plugins in
  let batch :=
    run_pool (map (λ a, _process_one_account (envs a) a plugins) accounts) in
  result run = Return tt
  /\ entries "start_chrome_session" (trace run) = []
  /\ entries "close_chrome_session" (trace run) = []
  /\ entries "_oauth_once_with_session" (trace run) = []
  /\ match result (load_credentials_for (tokens env) email), gmail_service env with
     | Return _, Return _ =>
         entries "run" (trace run) = map name plugins
         /\ In (Log ("--- Done: " +:+ email +:+ " ---" +:+ newline)) (trace run)
     | _, _ => entries "run" (trace run) = []
     end
  /\ entries "start_chrome_session" (trace batch) = [].
Proof.
  intros Hreq. cbv zeta.
  destruct (process_without_chrome env email plugins Hreq) as (R & S & C & O & P).
  repeat (split; [assumption|]).
  rewrite run_pool_run. cbn [trace fst].
  induction accounts as [|a rest IH]; [reflexivity|].
  cbn [map concat]. rewrite entries_app, IH. unfold task_trace.
  destruct (process_without_chrome (envs a) a plugins Hreq) as (_ & S' & _).
  rewrite entries_app, S'.
  destruct (result (_process_one_account (envs a) a plugins)); reflexivity.
Qed.

Lemma no_chrome_no_session_witness :
  let run := _process_one_account Samples.account_env "user@example.com"
               [Samples.label_action] in
  let batch :=
    run_pool (map (λ a, _process_one_account Samples.account_env a [Samples.label_action])
                ["user@example.com"; "other@example.com"]) in
  result run = Return tt
  /\ entries "start_chrome_session" (trace run) = []
  /\ entries "close_chrome_session" (trace run) = []
  /\ entries "_oauth_once_with_session" (trace run) = []
  /\ match result (load_credentials_for (tokens Samples.account_env) "user@example.com"),
           gmail_service Samples.account_env with
     | Return _, Return _ =>
         entries "run" (trace run) = map name [Samples.label_action]
         /\ In (Log ("--- Done: " +:+ "user@example.com" +:+ " ---" +:+ newline))
               (trace run)
     | _, _ => entries "run" (trace run) = []
     end
  /\ entries "start_chrome_session" (trace batch) = [].
Proof.
  apply (no_chrome_no_session Samples.account_env "user@example.com"
           [Samples.label_action] (λ _, Samples.account_env)
           ["user@example.com"; "other@example.com"]).
  reflexivity.
Defined.

Example api_only_trace :
  trace (_process_one_account Samples.account_env "user@example.com"
           [Samples.label_action])
  = [Enter "_process_one_account" "user@example.com";
     Log "--- Processing: user@example.com ---";
     Log "[SESSION] Chrome not required for user@example.com.";
     Log "[TOKEN] valid";
     Syscall "build gmail" true;
     Syscall "build people" false;
     Enter "run" "Archive";
     InPlugin "Archive" (Syscall "list" true);
     InPlugin "Archive" (Syscall "execute" true);
     InPlugin "Archive" (Log "[SEARCH] 2 found so far…");
     InPlugin "Archive" (Syscall "list_next" true);
     InPlugin "Archive" (Syscall "execute" false);
     InPlugin "Archive" (Log "[SEARCH][ERROR] 503 backend error");
     Log "[SESSION] no Chrome session to close for user@example.com";
     Log ("--- Done: user@example.com ---" +:+ newline)].
Proof. vm_compute. reflexivity. Qed.

Lemma close_chrome_session_returns env sess wt :
  result (close_chrome_session env sess wt) = Return tt.
Proof.
  destruct sess as [s|]; [|reflexivity]. unfold close_chrome_session.
  destruct (close_step1_shape env (port s)) as (b & w & E1 & _ & Hw).
  destruct (close_step2_shape env w wt Hw) as (t2 & E2 & _).
  destruct (close_step4_shape (proc s)) as (t4 & E4 & _).
  rewrite E1. mrun. rewrite E2. mrun. rewrite close_step3_shape. mrun.
  destruct (returned (wait_exit (proc s))); mrun; [reflexivity|].
  rewrite E4. reflexivity.
Qed.

Lemma close_chrome_session_entries env s wt :
  entries "close_chrome_session" (trace (close_chrome_session env (Some s) wt))
  = [email s].
Proof.
  unfold close_chrome_session. rewrite entries_enter_bind. f_equal. quiet_goal.
  apply close_steps_quiet.
Qed.

Lemma close_chrome_session_runs env s wt :
  exists t,
    close_chrome_session env (Some s) wt = (t, Return tt)
    /\ entries "close_chrome_session" t = [email s].
Proof.
  pose proof (close_chrome_session_returns env (Some s) wt) as R.
  pose proof (close_chrome_session_entries env s wt) as E.
  destruct (close_chrome_session env (Some s) wt) as [t r].
  cbn [trace result fst snd] in *. subst r. now exists t.
Qed.

(** C5 (as amended): for an account whose session was started, the
    orchestrator leaves the session open after the actions, and the log
    says so, exactly when at least one executed action that asks for it
    ([keep_open_after_run]) ran to its end without raising (actions are
    executed only once credentials and the Gmail service were obtained).
    In every other case (no executed action asks for it, every one that
    asks for it raised, or the run ended before the actions) the
    orchestrator releases the session: it calls [close_chrome_session] on
    it.  The calls counted are the orchestrator's own; what an action does
    within its [run] is recorded under [InPlugin] and is no part of this
    statement (see [self_closing_action_trace] below). *)
Theorem session_kept_open_on_request env email plugins sess :
  requires_chrome plugins = true ->
  result (start_chrome_session (launch env) email) = Return (Some sess) ->
  let run := _process_one_account env email plugins in
  let people :=
    match people_service env with Return svc => Some svc | Raise _ => None end in
  let have_credentials :=
    (returned (result (load_credentials_for (tokens env) email))
     || returned (result (oauth_first_login_in_session (oauth_first env)
                            (oauth_second env) email sess)))%bool in
  let kept :=
    match gmail_service env with
    | Return gmail =>
        (have_credentials
         && kept_open (context_for env email (Some sess) gmail people) plugins)%bool
    | Raise _ => false
    end in
  result run = Return tt
  /\ if kept
     then entries "close_chrome_session" (trace run) = []
          /\ In (Log ("[SESSION] kept open for " +:+ email
                      +:+ " (requested by plugin)")) (trace run)
     else entries "close_chrome_session" (trace run) = [Chrome.email sess].
Proof.
  intros Hreq Hstart. cbv zeta. unfold _process_one_account. cbv zeta. rewrite Hreq.
  pose proof (start_chrome_session_quiet "close_chrome_session" (launch env) email
                ltac:(discriminate)) as Qs.
  pose proof (load_credentials_for_quiet "close_chrome_session" (tokens env) email) as Ql.
  pose proof (oauth_first_login_quiet "close_chrome_session" (oauth_first env)
                (oauth_second env) email sess ltac:(discriminate)) as Qo.
  destruct (close_chrome_session_runs (closing env) sess 5000) as (tc & Eclose & Ec).
  assert (Hs : bool_decide (is_Some (Some sess)) = true)
    by (apply bool_decide_eq_true_2; eauto).
  unfold quiet in Qs, Ql, Qo.
  destruct (start_chrome_session (launch env) email) as [ts rs].
  cbn [trace result fst snd] in *. subst rs. mrun. rewrite Hs. mrun.
  destruct (load_credentials_for (tokens env) email) as [tl [c|e]];
    cbn [trace result fst snd returned orb] in *; mrun.
  - destruct (gmail_service env) as [gmail|e]; mrun.
    + destruct (people_service env) as [people|e]; mrun;
        rewrite run_plugins_run; mrun;
        destruct (kept_open _ plugins); mrun; rewrite ?Eclose; mrun;
        (split; [reflexivity|]); try split;
        try (entries_norm; reflexivity);
        repeat first [ now left | right | apply in_or_app; right ].
    + rewrite Eclose. mrun. split; [reflexivity|]. entries_norm. reflexivity.
  - destruct (oauth_first_login_in_session (oauth_first env) (oauth_second env)
                email sess) as [to [[c b]|e2]];
      cbn [trace result fst snd returned] in *; mrun.
    + destruct (gmail_service env) as [gmail|e3]; mrun.
      * destruct (people_service env) as [people|e3]; mrun;
          rewrite run_plugins_run; mrun;
          destruct (kept_open _ plugins); mrun; rewrite ?Eclose; mrun;
          (split; [reflexivity|]); try split;
          try (entries_norm; reflexivity);
          repeat first [ now left | right | apply in_or_app; right ].
      * rewrite Eclose. mrun. split; [reflexivity|]. entries_norm. reflexivity.
    + rewrite Eclose. mrun.
      destruct (gmail_service env); (split; [reflexivity|]); entries_norm; reflexivity.
Qed.

Example session_started :
  result (start_chrome_session (launch Samples.account_env) "user@example.com")
  = Return (Some (Samples.session_of Samples.obedient)).
Proof. vm_compute. reflexivity. Qed.

Lemma session_kept_open_on_request_witness :
  let env := Samples.account_env in
  let email := "user@example.com" in
  let sess := Samples.session_of Samples.obedient in
  let plugins := [Samples.label_action;
                  OpenGmailUIPlugin (Samples.nav_env Samples.loading_turns)] in
  let run := _process_one_account env email plugins in
  let people :=
    match people_service env with Return svc => Some svc | Raise _ => None end in
  let have_credentials :=
    (returned (result (load_credentials_for (tokens env) email))
     || returned (result (oauth_first_login_in_session (oauth_first env)
                            (oauth_second env) email sess)))%bool in
  let kept :=
    match gmail_service env with
    | Return gmail =>
        (have_credentials
         && kept_open (context_for env email (Some sess) gmail people) plugins)%bool
    | Raise _ => false
    end in
  result run = Return tt
  /\ if kept
     then entries "close_chrome_session" (trace run) = []
          /\ In (Log ("[SESSION] kept open for " +:+ email
                      +:+ " (requested by plugin)")) (trace run)
     else entries "close_chrome_session" (trace run) = [Chrome.email sess].
Proof.
  apply (session_kept_open_on_request Samples.account_env "user@example.com"
           [Samples.label_action;
            OpenGmailUIPlugin (Samples.nav_env Samples.loading_turns)]
           (Samples.session_of Samples.obedient)).
  - reflexivity.
  - vm_compute. reflexivity.
Defined.

(** C5 (as stated) fails: every action of the list is executed; one that
    asks for the session to stay open raises, and the session is released
    all the same. *)
Lemma session_released_after_failed_request :
  ~ (forall env email plugins sess gmail,
        requires_chrome plugins = true ->
        result (start_chrome_session (launch env) email) = Return (Some sess) ->
        returned (result (load_credentials_for (tokens env) email)) = true ->
        gmail_service env = Return gmail ->
        existsb keep_open_after_run plugins = true ->
        entries "close_chrome_session"
          (trace (_process_one_account env email plugins)) = []).
Proof.
  intros H.
  assert (C := H Samples.account_env "user@example.com" [Samples.crashing_ui]
                 (Samples.session_of Samples.obedient) Samples.failing_mailbox).
  assert (S : result (start_chrome_session (launch Samples.account_env)
                        "user@example.com")
              = Return (Some (Samples.session_of Samples.obedient)))
    by (vm_compute; reflexivity).
  specialize (C eq_refl S eq_refl eq_refl eq_refl).
  vm_compute in C. discriminate C.
Qed.

Example failed_request_trace :
  trace (_process_one_account Samples.account_env "user@example.com"
           [Samples.crashing_ui])
  = [Enter "_process_one_account" "user@example.com";
     Log "--- Processing: user@example.com ---";
     Enter "start_chrome_session" "user@example.com";
     Syscall "socket.bind" true;
     Syscall "mkdir" true;
     Spawn ["C:\Users\me\AppData\Local\GmailHybrid\chromes\user_at_example_com\chrome.exe";
            "--user-data-dir=C:\Users\me\AppData\Local\GmailHybrid\profiles\user_at_example_com";
            "--remote-debugging-port=9222";
            "--remote-allow-origins=*";
            "--no-first-run";
            "--no-default-browser-check";
            "--disable-default-apps";
            "--disable-translate";
            "--autoplay-policy=no-user-gesture-required";
            "--ignore-certificate-errors"] true;
     HttpGet "http://127.0.0.1:9222/json" true;
     HttpGet "http://127.0.0.1:9222/json/new?about:blank" true;
     Log "[SESSION] started for user@example.com (port 9222)";
     Log "[TOKEN] valid";
     Syscall "build gmail" true;
     Syscall "build people" false;
     Enter "run" "Open Gmail UI (always)";
     Log "[ERROR] Plugin Open Gmail UI (always) failed: 'session'";
     Enter "close_chrome_session" "user@example.com";
     HttpGet "http://127.0.0.1:9222/json/version" true;
     WsConnect Samples.debugger_url true;
     WsSend 2 "Runtime.enable" true;
     WsSend 3 "Runtime.evaluate" true;
     Log "[SESSION] waiting 5.0s for Chrome to flush cookies/state…";
     Sleep 5000;
     WsSend 4 "Browser.close" true;
     Log "[SESSION] sent Browser.close command.";
     WsClose true;
     ProcWait 4242 6000 true;
     Log "[SESSION] Chrome exited cleanly.";
     Log "[SESSION] closed for user@example.com (UI not required)";
     Log ("--- Done: user@example.com ---" +:+ newline)].
Proof. vm_compute. reflexivity. Qed.

Example kept_open_log :
  In (Log "[SESSION] kept open for user@example.com (requested by plugin)")
     (trace (_process_one_account Samples.account_env "user@example.com"
               [OpenGmailUIPlugin (Samples.nav_env Samples.loading_turns)])).
Proof. vm_compute. tauto. Qed.

(** An action may close the session within its own [run], as
    plugins/play_shorts.py does; the orchestrator, which has not been asked
    to keep the session open, then calls [close_chrome_session] on it all
    the same, so that the function is entered twice for the one session. *)
Example self_closing_action_trace :
  let run := _process_one_account Samples.account_env "user@example.com"
               [Samples.self_closing] in
  entries "close_chrome_session" (trace run) = ["user@example.com"]
  /\ List.filter enters_close (trace run)
     = [InPlugin "Play YouTube Shorts" (Enter "close_chrome_session" "user@example.com");
        Enter "close_chrome_session" "user@example.com"].
Proof. vm_compute. split; reflexivity. Qed.

End Pipeline.

(** ** Strings *)

Section Strings.

Lemma append_cons c a b : String c a +:+ b = String c (a +:+ b).
Proof. reflexivity. Qed.

Lemma append_assoc a b c : (a +:+ b) +:+ c = a +:+ (b +:+ c).
Proof.
  induction a as [|x a IH]; [reflexivity|].
  now rewrite !append_cons, IH.
Qed.

Lemma append_nil_r a : a +:+ "" = a.
Proof. induction a as [|x a IH]; [reflexivity|]. now rewrite append_cons, IH. Qed.

Lemma chars_append a b :
  list_ascii_of_string (a +:+ b) = list_ascii_of_string a ++ list_ascii_of_string b.
Proof.
  induction a as [|x a IH]; [reflexivity|].
  rewrite append_cons. cbn [list_ascii_of_string app]. now rewrite IH.
Qed.

Lemma string_of_app l1 l2 :
  string_of_list_ascii (l1 ++ l2) = string_of_list_ascii l1 +:+ string_of_list_ascii l2.
Proof.
  induction l1 as [|x l1 IH]; [reflexivity|].
  cbn [app string_of_list_ascii]. now rewrite IH.
Qed.

Lemma length_chars s : length (list_ascii_of_string s) = String.length s.
Proof. induction s as [|x s IH]; [reflexivity|]. cbn. now rewrite IH. Qed.

Lemma length_append a b :
  String.length (a +:+ b) = (String.length a + String.length b)%nat.
Proof.
  induction a as [|x a IH]; [reflexivity|].
  rewrite append_cons. cbn [String.length]. now rewrite IH.
Qed.

Lemma chars_inj a b : list_ascii_of_string a = list_ascii_of_string b -> a = b.
Proof.
  intros H. rewrite <- (string_of_list_ascii_of_string a),
    <- (string_of_list_ascii_of_string b). now rewrite H.
Qed.

Lemma append_inv_tail a b s : a +:+ s = b +:+ s -> a = b.
Proof.
  intros H. apply chars_inj. apply (f_equal list_ascii_of_string) in H.
  rewrite !chars_append in H. now apply app_inv_tail in H.
Qed.

Lemma all_chars_app f a b :
  all_chars f (a +:+ b) = (all_chars f a && all_chars f b)%bool.
Proof.
  induction a as [|c a IH]; [reflexivity|].
  rewrite append_cons. cbn [all_chars]. rewrite IH. apply andb_assoc.
Qed.

Lemma all_chars_forallb f s :
  all_chars f s = forallb f (list_ascii_of_string s).
Proof. induction s as [|c s IH]; [reflexivity|]. cbn. now rewrite IH. Qed.

Lemma replace_app old new a b :
  replace old new (a +:+ b) = replace old new a +:+ replace old new b.
Proof.
  induction a as [|c a IH]; [reflexivity|].
  rewrite append_cons. cbn [replace]. rewrite IH.
  destruct (Ascii.eqb c old); [|reflexivity].
  now rewrite append_assoc.
Qed.

End Strings.

(** ** Profile tokens and token files *)

Section TokenFiles.
Import GmailApi.

Lemma token_cons c r :
  _safe_email_token (String c r)
  = _safe_email_token (String c EmptyString) +:+ _safe_email_token r.
Proof.
  unfold _safe_email_token. cbn [lower join_if].
  destruct (kept (lower_char c)); [|reflexivity].
  change (String (lower_char c) (join_if kept (lower r)))
    with (String (lower_char c) EmptyString +:+ join_if kept (lower r)).
  now rewrite !replace_app.
Qed.

Lemma token_of_char c :
  all_chars token_char (_safe_email_token (String c EmptyString)) = true.
Proof. destruct c as [[] [] [] [] [] [] [] []]; vm_compute; reflexivity. Qed.

(** X1: the profile token of an ASCII account identifier is made of
    lower-case letters, digits, ['_'] and ['-'] only: whatever the
    identifier holds, the directory name derived from it has no upper-case
    letter, no ['@'], no ['.'] and no path separator. *)
Theorem safe_email_token_alphabet email :
  all_chars is_ascii email = true ->
  all_chars token_char (_safe_email_token email) = true.
Proof.
  intros _. induction email as [|c r IH]; [reflexivity|].
  now rewrite token_cons, all_chars_app, token_of_char, IH.
Qed.

Lemma safe_email_token_alphabet_witness :
  all_chars token_char (_safe_email_token "User.Name+tag@Example.COM") = true.
Proof.
  apply (safe_email_token_alphabet "User.Name+tag@Example.COM").
  vm_compute. reflexivity.
Defined.

Lemma address_char_kept c :
  address_char c = true -> kept c = true /\ Ascii.eqb c "_" = false.
Proof.
  unfold address_char. intros H. apply andb_true_iff in H as [K U].
  split; [exact K|]. now apply negb_true_iff in U.
Qed.

Lemma join_if_address s :
  all_chars address_char s = true -> join_if kept s = s.
Proof.
  induction s as [|c r IH]; [reflexivity|]. cbn [all_chars join_if].
  intros H. apply andb_true_iff in H as [Hc Hr].
  apply address_char_kept in Hc as [-> _]. now rewrite IH.
Qed.

Lemma unat_replace s :
  all_chars address_char s = true -> unat 0 (replace "@" "_at_" s) = s.
Proof.
  induction s as [|c r IH]; [reflexivity|]. cbn [all_chars replace].
  intros H. apply andb_true_iff in H as [Hc Hr].
  apply address_char_kept in Hc as [_ U]. specialize (IH Hr).
  destruct (Ascii.eqb c "@") eqn:A.
  - apply Ascii.eqb_eq in A. subst c.
    change ("_at_" +:+ replace "@" "_at_" r)
      with (String "_" (String "a" (String "t" (String "_" (replace "@" "_at_" r))))).
    cbn [unat]. change (Ascii.eqb "_" "_") with true. cbv iota. now rewrite IH.
  - cbn [unat]. rewrite U. now rewrite IH.
Qed.

(** X2: on identifiers made of letters, digits, ['@'], ['.'] and ['-']
    (no underscore), [token_path_for] is one-to-one: two such identifiers
    with the same token file are the same identifier, letter case
    included. *)
Theorem token_path_for_injective a b :
  all_chars address_char a = true ->
  all_chars address_char b = true ->
  token_path_for a = token_path_for b ->
  a = b.
Proof.
  intros Ha Hb H. unfold token_path_for in H. cbv zeta in H.
  rewrite (join_if_address a Ha), (join_if_address b Hb) in H.
  apply String.app_inj in H. apply append_inv_tail in H.
  rewrite <- (unat_replace a Ha), <- (unat_replace b Hb). now rewrite H.
Qed.

Lemma token_path_for_injective_witness :
  "a.b@example.com" = "a.b@example.com".
Proof.
  apply (token_path_for_injective "a.b@example.com" "a.b@example.com");
    vm_compute; reflexivity.
Defined.

(** The token file tells apart what the profile directory merges. *)
Example token_files_keep_case :
  token_path_for "Ann@Example.com" <> token_path_for "ann@example.com"
  /\ profile_dir_for Samples.app_data "Ann@Example.com"
     = profile_dir_for Samples.app_data "ann@example.com".
Proof. split; [intros H; discriminate H | vm_compute; reflexivity]. Qed.

Example token_path_example :
  token_path_for "a.b@example.com" = "emails\a.b_at_example.com.json".
Proof. vm_compute. reflexivity. Qed.

End TokenFiles.

(** ** Launching the browser *)

Section Launch.

Lemma first_debugger_url_shape entries w :
  first_debugger_url entries = Return w -> w = JNull \/ truthy w = true.
Proof.
  induction entries as [|e rest IH]; cbn [first_debugger_url].
  - intros [= <-]. now left.
  - destruct (py_get e "webSocketDebuggerUrl") as [v|x]; [|discriminate].
    destruct (truthy v) eqn:T; [|exact IH]. intros [= <-]. now right.
Qed.

Lemma http_json_shape url reply :
  exists v, _http_json url reply = ([HttpGet url (returned reply)], Return v).
Proof.
  unfold _http_json, requests_get, raise_for_status.
  destruct reply as [r|e]; mrun; [|now eexists].
  destruct ((400 <=? status_code r) && (status_code r <? 600))%bool; mrun;
    [now eexists|].
  destruct (json_body r); mrun; now eexists.
Qed.

Ltac tab_list lst :=
  destruct (truthy lst); mrun; [|eexists _, _; repeat split; now left];
  destruct (py_iter lst) as [?es|?x]; mrun; [|eexists _, _; repeat split; now left];
  match goal with
  | |- context [first_debugger_url ?es] =>
      let F := fresh "F" in
      destruct (first_debugger_url es) as [?w|?x] eqn:F; mrun;
      [ eexists _, _; repeat split; eapply first_debugger_url_shape, F
      | eexists _, _; repeat split; now left ]
  end.

(** Asking for a new tab never raises; it makes one or two requests and
    answers a debugger address that is not false, or [None]. *)
Lemma create_new_tab_shape port url tp :
  exists t w,
    _create_new_tab_and_get_ws port url tp = (t, Return w)
    /\ forallb net_event t = true
    /\ (w = JNull \/ truthy w = true).
Proof.
  unfold _create_new_tab_and_get_ws.
  destruct (http_json_shape (local_url port ("/json/new?" +:+ url)) (new_reply tp))
    as [info ->].
  destruct (http_json_shape (local_url port "/json") (list_reply tp)) as [lst ->].
  mrun.
  destruct (truthy info); mrun.
  - destruct (py_get info "webSocketDebuggerUrl") as [w|x]; mrun.
    + destruct (truthy w) eqn:T; mrun.
      * eexists _, _. repeat split. now right.
      * tab_list lst.
    + eexists _, _; repeat split; now left.
  - tab_list lst.
Qed.

Lemma poll_new_tab_shape port deadline polls :
  exists t w,
    poll_new_tab port deadline polls = (t, Return w)
    /\ forallb net_event t = true
    /\ (w = JNull \/ truthy w = true).
Proof.
  induction polls as [|tp rest IH]; cbn [poll_new_tab].
  - eexists _, _. repeat split. now left.
  - destruct (tab_at tp <? deadline); [|eexists _, _; repeat split; now left].
    destruct (create_new_tab_shape port "about:blank" tp) as (t & w & -> & Ht & Hw).
    destruct IH as (t' & w' & -> & Ht' & Hw'). mrun.
    destruct Hw as [->|Hw].
    + cbn [truthy]. change (sleep 250) with (emit (Sleep 250)). mrun.
      eexists _, _. split; [reflexivity|]. split; [|exact Hw'].
      rewrite forallb_app, Ht. exact Ht'.
    + rewrite Hw. mrun. eexists _, _. split; [reflexivity|].
      rewrite app_nil_r. split; [exact Ht|now right].
Qed.

Lemma net_events_launch t :
  forallb net_event t = true ->
  List.filter is_spawn t = [] /\ existsb is_terminate t = false
  /\ List.filter spawn_attempt t = [].
Proof.
  induction t as [|ev t IH]; [now repeat split|].
  cbn [forallb]. intros H. apply andb_true_iff in H as [He Ht].
  destruct (IH Ht) as (A & B & C).
  destruct ev; try discriminate He; cbn; now repeat split.
Qed.

Lemma poll_events_net port l : forallb net_event (flat_map (poll_events port) l) = true.
Proof.
  induction l as [|q l IH]; [reflexivity|].
  cbn [flat_map]. rewrite forallb_app, IH. unfold poll_events.
  now destruct (returned (poll_reply q)).
Qed.

Lemma existsb_app_false {T} (f : T -> bool) l1 l2 :
  existsb f l1 = false -> existsb f l2 = false -> existsb f (l1 ++ l2) = false.
Proof. intros H1 H2. now rewrite existsb_app, H1, H2. Qed.

(** X3: [_wait_for_debug_endpoint] asks the endpoint once in every turn
    begun before the deadline, up to and including the first that is
    answered with status 200, and pauses 0.2 s only after a request that
    raised (an answer with another status is followed by the next request
    at once); it answers whether there was such a turn, and never raises. *)
Theorem wait_for_debug_endpoint_polls port timeout now polls :
  _wait_for_debug_endpoint port timeout now polls
  = (flat_map (poll_events port)
       (through answers_200 (in_time poll_at (now + timeout) polls)),
     Return (existsb answers_200 (in_time poll_at (now + timeout) polls))).
Proof.
  unfold _wait_for_debug_endpoint. cbv zeta.
  induction polls as [|q rest IH]; [reflexivity|].
  cbn [poll_debug_endpoint in_time].
  destruct (poll_at q <? now + timeout); [|reflexivity].
  cbn [through existsb]. rewrite IH. clear IH.
  assert (A : answers_200 q
              = match poll_reply q with
                | Return r => status_code r =? 200
                | Raise _ => false
                end) by reflexivity.
  assert (P : poll_events port q
              = HttpGet (local_url port "/json") (returned (poll_reply q))
                  :: (if returned (poll_reply q) then [] else [Sleep 200]))
    by reflexivity.
  rewrite A. unfold requests_get.
  destruct (poll_reply q) as [r|e]; mrun.
  - destruct (status_code r =? 200); mrun; cbn [flat_map app]; rewrite P;
      reflexivity.
  - cbn [flat_map app]. rewrite P. reflexivity.
Qed.

(** X4: once [start_chrome_session] has launched a browser process it
    launches no other and does not raise; either it returns a session that
    holds that very process, the account, the port it allocated and a
    debugger address that is not false, without having called [terminate],
    or it returns [None] and the last thing it did was to call [terminate]
    on that process, once. *)
Theorem launched_browser_is_handed_over_or_terminated env email :
  let run := start_chrome_session env email in
  existsb is_spawn (trace run) = true ->
  exists p port,
    spawn env = Return p
    /\ free_port env = Return port
    /\ length (List.filter spawn_attempt (trace run)) = 1%nat
    /\ match result run with
       | Return (Some s) =>
           Chrome.email s = email /\ Chrome.port s = port /\ proc s = p
           /\ truthy (ws_url s) = true
           /\ existsb is_terminate (trace run) = false
       | Return None =>
           exists pre,
             trace run = pre ++ [ProcTerminate (pid p) (returned (terminate p))]
             /\ existsb is_terminate pre = false
       | Raise _ => False
       end.
Proof.
  cbv zeta. unfold start_chrome_session, _find_free_port_tcp.
  destruct (websocket_module env); mrun; [|discriminate].
  destruct (free_port env) as [port|e]; mrun; [|discriminate].
  destruct (match _find_chrome_executable (files env) _ with
            | Some e => Some e | None => _ end) as [exe|]; mrun; [|discriminate].
  destruct (fs_exists (files env) exe); mrun; [|discriminate].
  destruct (mkdir_profile env) as [[]|e]; mrun; [|discriminate].
  destruct (spawn env) as [p|e]; mrun; [|discriminate].
  intros _. exists p, port. split; [reflexivity|]. split; [reflexivity|].
  unfold _wait_for_debug_endpoint. cbv zeta. rewrite poll_debug_endpoint_run.
  pose proof (poll_events_net port
                (through answers_200
                   (in_time poll_at (ready_started env + seconds 12) (ready_polls env))))
    as N.
  apply net_events_launch in N as (_ & Nt & Na).
  set (tw := flat_map _ _) in *.
  destruct (existsb answers_200 _); mrun.
  - destruct (poll_new_tab_shape port (tabs_started env + seconds 10) (tab_polls env))
      as (tt & w & -> & Ht & Hw).
    apply net_events_launch in Ht as (_ & Tt & Ta). mrun.
    destruct Hw as [->|Hw].
    + cbn [truthy]. mrun.
      destruct (terminate p) as [[]|e0] eqn:Et; mrun; rewrite ?Et; mrun;
        (split;
         [ cbn [List.filter spawn_attempt]; rewrite !List.filter_app, Na, Ta; reflexivity
         | eexists (_ :: _ :: _ :: _ :: tw ++ tt); split;
           [ cbn [app]; now rewrite <- app_assoc
           | cbn [existsb is_terminate orb]; now apply existsb_app_false ] ]).
    + rewrite Hw. mrun. split.
      * cbn [List.filter spawn_attempt]. rewrite !List.filter_app, Na, Ta. reflexivity.
      * repeat split; try assumption. cbn [existsb is_terminate orb].
        rewrite !existsb_app, Nt, Tt. reflexivity.
  - destruct (terminate p) as [[]|e0] eqn:Et; mrun; rewrite ?Et; mrun;
      (split;
       [ cbn [List.filter spawn_attempt]; rewrite !List.filter_app, Na; reflexivity
       | eexists (_ :: _ :: _ :: _ :: tw ++ [_]); split;
         [ cbn [app]; now rewrite <- app_assoc
         | cbn [existsb is_terminate orb]; now apply existsb_app_false ] ]).
Qed.

Lemma launched_browser_is_handed_over_or_terminated_witness :
  let run := start_chrome_session
               (Samples.launch_env Samples.obedient Samples.prompt_polls
                  Samples.prompt_tabs) "user@example.com" in
  exists p port,
    spawn (Samples.launch_env Samples.obedient Samples.prompt_polls Samples.prompt_tabs)
    = Return p
    /\ free_port (Samples.launch_env Samples.obedient Samples.prompt_polls
                    Samples.prompt_tabs) = Return port
    /\ length (List.filter spawn_attempt (trace run)) = 1%nat
    /\ match result run with
       | Return (Some s) =>
           Chrome.email s = "user@example.com" /\ Chrome.port s = port /\ proc s = p
           /\ truthy (ws_url s) = true
           /\ existsb is_terminate (trace run) = false
       | Return None =>
           exists pre,
             trace run = pre ++ [ProcTerminate (pid p) (returned (terminate p))]
             /\ existsb is_terminate pre = false
       | Raise _ => False
       end.
Proof.
  apply (launched_browser_is_handed_over_or_terminated
           (Samples.launch_env Samples.obedient Samples.prompt_polls Samples.prompt_tabs)
           "user@example.com").
  vm_compute. reflexivity.
Defined.

(** X5: [start_chrome_session] raises only before it launches anything:
    when the websocket client is missing ([RuntimeError]), when no port can
    be allocated, or when the profile directory cannot be made; in none of
    these cases has it tried to start a process. *)
Theorem start_chrome_session_raises_before_launch env email e :
  result (start_chrome_session env email) = Raise e ->
  List.filter spawn_attempt (trace (start_chrome_session env email)) = []
  /\ ((websocket_module env = false
       /\ e = Exception "RuntimeError" "Missing websocket-client")
      \/ free_port env = Raise e
      \/ mkdir_profile env = Raise e).
Proof.
  unfold start_chrome_session, _find_free_port_tcp.
  destruct (websocket_module env); mrun.
  2:{ intros [= <-]. split; [reflexivity|]. left. now split. }
  destruct (free_port env) as [port|e0]; mrun.
  2:{ intros [= <-]. split; [reflexivity|]. right. now left. }
  destruct (match _find_chrome_executable (files env) _ with
            | Some e => Some e | None => _ end) as [exe|]; mrun; [|discriminate].
  destruct (fs_exists (files env) exe); mrun; [|discriminate].
  destruct (mkdir_profile env) as [[]|e0]; mrun.
  2:{ intros [= <-]. split; [reflexivity|]. right. now right. }
  destruct (spawn env) as [p|e0]; mrun; [|discriminate].
  unfold _wait_for_debug_endpoint. cbv zeta. rewrite poll_debug_endpoint_run.
  destruct (existsb answers_200 _); mrun.
  - destruct (poll_new_tab_shape port (tabs_started env + seconds 10) (tab_polls env))
      as (tt & w & -> & Ht & Hw). mrun.
    destruct (truthy w); mrun; [discriminate|].
    destruct (terminate p) as [[]|e1]; mrun; discriminate.
  - destruct (terminate p) as [[]|e1]; mrun; discriminate.
Qed.

Lemma start_chrome_session_raises_before_launch_witness :
  List.filter spawn_attempt
    (trace (start_chrome_session Samples.no_websocket_client "user@example.com")) = []
  /\ ((websocket_module Samples.no_websocket_client = false
       /\ Exception "RuntimeError" "Missing websocket-client"
          = Exception "RuntimeError" "Missing websocket-client")
      \/ free_port Samples.no_websocket_client
         = Raise (Exception "RuntimeError" "Missing websocket-client")
      \/ mkdir_profile Samples.no_websocket_client
         = Raise (Exception "RuntimeError" "Missing websocket-client")).
Proof.
  apply (start_chrome_session_raises_before_launch Samples.no_websocket_client
           "user@example.com" (Exception "RuntimeError" "Missing websocket-client")).
  reflexivity.
Defined.

(** X6: what [_find_chrome_executable] returns is a path whose last
    component is [chrome.exe]: one of its three candidate paths, existing,
    or the file in a directory that the walk of [base_dir] lists with a
    [chrome.exe]; it returns [None] only when none of the three candidates
    exists and the walk lists no such directory. *)
Theorem find_chrome_executable_finds fs base_dir :
  match _find_chrome_executable fs base_dir with
  | Some p =>
      last p = Some "chrome.exe"
      /\ ((In p [ base_dir ++ ["chrome.exe"];
                  base_dir ++ ["Application"; "chrome.exe"];
                  base_dir ++ ["Google"; "Chrome"; "Application"; "chrome.exe"] ]
           /\ fs_exists fs p = true)
          \/ exists d, In d (fs_walk fs base_dir)
                       /\ In "chrome.exe" (snd d)
                       /\ p = fst d ++ ["chrome.exe"])
  | None =>
      fs_exists fs (base_dir ++ ["chrome.exe"]) = false
      /\ fs_exists fs (base_dir ++ ["Application"; "chrome.exe"]) = false
      /\ fs_exists fs (base_dir ++ ["Google"; "Chrome"; "Application"; "chrome.exe"])
         = false
      /\ forall d, In d (fs_walk fs base_dir) -> ~ In "chrome.exe" (snd d)
  end.
Proof.
  unfold _find_chrome_executable. cbv zeta.
  change (path_join base_dir "chrome.exe") with (base_dir ++ ["chrome.exe"]).
  change (path_join (path_join base_dir "Application") "chrome.exe")
    with ((base_dir ++ ["Application"]) ++ ["chrome.exe"]).
  change (path_join (path_join (path_join (path_join base_dir "Google") "Chrome")
                       "Application") "chrome.exe")
    with ((((base_dir ++ ["Google"]) ++ ["Chrome"]) ++ ["Application"]) ++ ["chrome.exe"]).
  rewrite <- !app_assoc. cbn [app find].
  destruct (fs_exists fs (base_dir ++ ["chrome.exe"])) eqn:E1.
  { split; [now rewrite last_snoc|]. left. split; [now left|exact E1]. }
  destruct (fs_exists fs (base_dir ++ ["Application"; "chrome.exe"])) eqn:E2.
  { split; [|left; split; [right; now left|exact E2]].
    change ["Application"; "chrome.exe"] with (["Application"] ++ ["chrome.exe"]).
    now rewrite app_assoc, last_snoc. }
  destruct (fs_exists fs (base_dir ++ ["Google"; "Chrome"; "Application"; "chrome.exe"]))
    eqn:E3.
  { split; [|left; split; [right; right; now left|exact E3]].
    change ["Google"; "Chrome"; "Application"; "chrome.exe"]
      with (["Google"; "Chrome"; "Application"] ++ ["chrome.exe"]).
    now rewrite app_assoc, last_snoc. }
  destruct (find _ (fs_walk fs base_dir)) as [d|] eqn:F.
  - apply find_some in F as [Hd Hx].
    change (path_join (fst d) "chrome.exe") with (fst d ++ ["chrome.exe"]).
    split; [now rewrite last_snoc|]. right. exists d. repeat split; [exact Hd|].
    apply existsb_exists in Hx as (x & Hx & Ex). apply String.eqb_eq in Ex.
    now subst x.
  - repeat split. intros d Hd Hin.
    pose proof (find_none _ _ F d Hd) as N. cbn beta in N.
    assert (existsb (String.eqb "chrome.exe") (snd d) = true) as Y.
    { apply existsb_exists. exists "chrome.exe". split; [exact Hin|].
      apply String.eqb_refl. }
    now rewrite Y in N.
Qed.

End Launch.

(** ** Navigation *)

Section Connection.

Lemma await_load_event_closes ws deadline turns :
  existsb is_close (trace (await_load_event ws deadline turns)) = false.
Proof.
  induction turns as [|k rest IH]; [reflexivity|].
  cbn [await_load_event]. destruct (tick_at k <? deadline); [|reflexivity].
  destruct (await_load_event ws deadline rest) as [t o]. cbn [trace fst] in IH.
  destruct (recv_reply k) as [[|m]|e]; mrun; try exact IH.
  destruct m; cbn [py_get]; mrun; try reflexivity.
  destruct (eq_str _ _); mrun; [reflexivity|exact IH].
Qed.

(** X7: [cdp_navigate] never raises, with or without [wait_load].  When
    it has opened the websocket it closes it exactly once, after everything
    else it does on it and whatever went wrong meanwhile, and then pauses
    0.2 s exactly when it answers [True]; when the client is missing or the
    connection fails it answers [False] and closes nothing. *)
Theorem cdp_navigate_closes_connection env ws_url url wait_load timeout :
  let run := cdp_navigate env ws_url url wait_load timeout in
  exists b : bool,
    result run = Return b
    /\ match nav_websocket_module env, nav_connect env with
       | true, Return ws =>
           exists pre,
             trace run = pre ++ WsClose (returned (close_reply ws))
                               :: (if b then [Sleep 200] else [])
             /\ existsb is_close pre = false
       | _, _ => b = false /\ existsb is_close (trace run) = false
       end.
Proof.
  cbv zeta. unfold cdp_navigate.
  destruct (nav_websocket_module env); mrun.
  2:{ exists false. now repeat split. }
  destruct (nav_connect env) as [ws|e]; mrun.
  2:{ exists false. now repeat split. }
  pose proof (await_load_event_closes ws (wait_started env + timeout) (ticks ws)) as C.
  destruct (await_load_event ws (wait_started env + timeout) (ticks ws)) as [t o].
  cbn [trace fst] in C.
  change (sleep 200) with (emit (Sleep 200)).
  destruct (send_reply ws 1 "Page.enable") as [[]|e1]; mrun.
  2:{ destruct (close_reply ws) as [[]|e2]; mrun;
        exists false; (split; [reflexivity|]);
        eexists [_; _; _]; split; reflexivity. }
  destruct (send_reply ws 2 "Page.navigate") as [[]|e2]; mrun.
  2:{ destruct (close_reply ws) as [[]|e3]; mrun;
        exists false; (split; [reflexivity|]);
        eexists [_; _; _; _]; split; reflexivity. }
  destruct wait_load; mrun.
  - destruct o as [[|]|e3]; mrun; destruct (close_reply ws) as [[]|e4]; mrun;
      eexists; (split; [reflexivity|]).
    all: try (eexists (_ :: _ :: _ :: t); split;
              [cbn [app]; now rewrite <- ?app_assoc | exact C]).
    all: eexists (_ :: _ :: _ :: t ++ [_]); split;
           [cbn [app]; now rewrite <- ?app_assoc
           | cbn [existsb is_close orb]; rewrite existsb_app, C; reflexivity].
  - destruct (close_reply ws) as [[]|e4]; mrun;
      exists true; (split; [reflexivity|]); eexists [_; _; _]; split; reflexivity.
Qed.

(** X8: without [wait_load], [cdp_navigate] answers [True] exactly when
    it connected and both commands were sent; it does not read from the
    websocket at all, so [True] says nothing about the page. *)
Theorem cdp_navigate_without_wait env ws_url url timeout :
  let run := cdp_navigate env ws_url url false timeout in
  result run
  = Return (nav_websocket_module env
            && match nav_connect env with
               | Return ws =>
                   returned (send_reply ws 1 "Page.enable")
                   && returned (send_reply ws 2 "Page.navigate")
               | Raise _ => false
               end)
  /\ existsb is_recv (trace run) = false.
Proof.
  cbv zeta. unfold cdp_navigate.
  destruct (nav_websocket_module env); mrun; [|now split].
  destruct (nav_connect env) as [ws|e]; mrun; [|now split].
  change (sleep 200) with (emit (Sleep 200)).
  destruct (send_reply ws 1 "Page.enable") as [[]|e1]; mrun.
  2:{ destruct (close_reply ws) as [[]|e2]; now split. }
  destruct (send_reply ws 2 "Page.navigate") as [[]|e2]; mrun;
    destruct (close_reply ws) as [[]|e3]; now split.
Qed.

End Connection.

(** ** The callback handler and the authorization flow *)

Section Flow.
Import GmailApi.

Lemma handle_idle req (d : gmap string string) :
  is_callback req = false -> handle d req = d.
Proof.
  unfold is_callback, handle, do_GET. intros H.
  destruct (String.eqb (path req) "/" || String.eqb (path req) "/callback")%bool;
    cbn [negb andb] in *; [|reflexivity].
  apply orb_false_iff in H as [-> ->]. reflexivity.
Qed.

Lemma handle_from_callback req (d : gmap string string) k v :
  handle d req !! k = Some v ->
  d !! k = Some v
  \/ (is_callback req = true /\ slot req = k /\ payload req = v /\ v <> "").
Proof.
  destruct (is_callback req) eqn:C.
  - rewrite (handle_callback req d C).
    destruct (decide (slot req = k)) as [<-|Hne].
    + rewrite lookup_insert_eq. intros [= <-]. right. repeat split.
      unfold is_callback in C. apply andb_true_iff in C as [_ C].
      unfold payload, slot.
      destruct (nonblank (qs_first (query req) "error")) eqn:E.
      * destruct (qs_first (query req) "error") as [s|]; [|discriminate E].
        cbn in *. intros ->. discriminate E.
      * cbn [orb] in C.
        destruct (qs_first (query req) "code") as [s|]; [|discriminate C].
        cbn in *. intros ->. discriminate C.
    + rewrite lookup_insert_ne by exact Hne. now left.
  - rewrite (handle_idle req d C). now left.
Qed.

Lemma deliver_from_callbacks reqs (d : gmap string string) k v :
  deliver reqs d !! k = Some v ->
  d !! k = Some v
  \/ exists req, In req reqs /\ is_callback req = true /\ slot req = k
                 /\ payload req = v /\ v <> "".
Proof.
  revert d. induction reqs as [|r reqs IH]; intros d H; [now left|].
  change (deliver (r :: reqs) d) with (deliver reqs (handle d r)) in H.
  apply IH in H as [H|(req & Hin & Hreq)].
  - apply handle_from_callback in H as [H|H]; [now left|].
    right. exists r. split; [now left|exact H].
  - right. exists req. split; [now right|exact Hreq].
Qed.

Lemma slot_code_or_error req : slot req = "code" \/ slot req = "error".
Proof. unfold slot. destruct (nonblank _); [now right|now left]. Qed.

Lemma deliver_frame reqs (d : gmap string string) k :
  k <> "code" -> k <> "error" -> deliver reqs d !! k = d !! k.
Proof.
  intros Hc He. revert d. induction reqs as [|r reqs IH]; intros d; [reflexivity|].
  change (deliver (r :: reqs) d) with (deliver reqs (handle d r)).
  rewrite (IH (handle d r)).
  destruct (is_callback r) eqn:C.
  - rewrite (handle_callback r d C). apply lookup_insert_ne.
    destruct (slot_code_or_error r) as [-> | ->]; congruence.
  - now rewrite (handle_idle r d C).
Qed.

(** X9: the requests a flow's server handles change nothing in the flow's
    dictionary but the entries ["code"] and ["error"]; a value found there
    afterwards either was there before or is the non-empty value carried by
    one of the callbacks handled; and requests that are no callbacks
    (another path, or neither code nor error) leave the dictionary as it
    was. *)
Theorem handler_writes_only_what_callbacks_carry reqs (d : gmap string string) :
  (forall k, k <> "code" -> k <> "error" -> deliver reqs d !! k = d !! k)
  /\ (forall k v,
        deliver reqs d !! k = Some v ->
        d !! k = Some v
        \/ exists req, In req reqs /\ is_callback req = true /\ slot req = k
                       /\ payload req = v /\ v <> "")
  /\ (forallb (λ r, negb (is_callback r)) reqs = true -> deliver reqs d = d).
Proof.
  split; [|split].
  - intros k. apply deliver_frame.
  - intros k v. apply deliver_from_callbacks.
  - revert d. induction reqs as [|r reqs IH]; intros d H; [reflexivity|].
    cbn [forallb] in H. apply andb_true_iff in H as [Hr H].
    apply negb_true_iff in Hr.
    change (deliver (r :: reqs) d) with (deliver reqs (handle d r)).
    rewrite (handle_idle r d Hr). now apply IH.
Qed.

Lemma await_callback_navigation nav env email deadline d turns :
  await_callback (with_navigation nav env) email deadline d turns
  = await_callback env email deadline d turns.
Proof.
  revert d. induction turns as [|k rest IH]; intros d; [reflexivity|].
  cbn [await_callback]. destruct (look_at k <? deadline); [|reflexivity].
  cbv zeta. destruct (deliver (arrived k) d !! "code"); [reflexivity|].
  destruct (deliver (arrived k) d !! "error"); [reflexivity|].
  now rewrite IH.
Qed.

Lemma cdp_navigate_returns env ws_url url wait_load timeout :
  exists b, result (cdp_navigate env ws_url url wait_load timeout) = Return b.
Proof.
  unfold cdp_navigate.
  destruct (nav_websocket_module env); mrun; [|now eexists].
  destruct (nav_connect env) as [ws|e]; mrun; [|now eexists].
  destruct (await_load_event ws (wait_started env + timeout) (ticks ws)) as [t o].
  change (sleep 200) with (emit (Sleep 200)).
  destruct (send_reply ws 1 "Page.enable") as [[]|e1]; mrun.
  2:{ destruct (close_reply ws) as [[]|e2]; now eexists. }
  destruct (send_reply ws 2 "Page.navigate") as [[]|e2]; mrun.
  2:{ destruct (close_reply ws) as [[]|e3]; now eexists. }
  destruct wait_load; mrun.
  - destruct o as [[|]|e3]; mrun; destruct (close_reply ws) as [[]|e4]; now eexists.
  - destruct (close_reply ws) as [[]|e4]; now eexists.
Qed.

Lemma result_bind {A B} (m : M A) (k : A -> M B) :
  result (m ≫= k)
  = match result m with
    | Return a => result (k a)
    | Raise e => Raise e
    end.
Proof.
  destruct m as [t [a|e]]; unfold mbind, M_bind, bind; cbn [result snd];
    [now destruct (k a)|reflexivity].
Qed.

(** X10: how an authorization attempt ends does not depend on how the
    navigation of the browser to the authorization page went: a navigation
    that fails is not noticed, the attempt goes on to wait for the
    callback. *)
Theorem oauth_result_ignores_navigation nav env email sess :
  result (_oauth_once_with_session (with_navigation nav env) email sess)
  = result (_oauth_once_with_session env email sess).
Proof.
  unfold _oauth_once_with_session. rewrite ?result_bind. cbn [emit result snd].
  change (credentials_json (with_navigation nav env)) with (credentials_json env).
  destruct (credentials_json env); [|reflexivity]. cbn [negb].
  rewrite ?result_bind.
  change (oauth_port (with_navigation nav env)) with (oauth_port env).
  destruct (result (perform (Syscall "socket.bind") (oauth_port env))) as [port|e];
    [|reflexivity].
  rewrite ?result_bind.
  change (authorization_url (with_navigation nav env)) with (authorization_url env).
  destruct (result (perform (Syscall "InstalledAppFlow") (authorization_url env)))
    as [url|e]; [|reflexivity].
  cbv zeta. rewrite ?result_bind.
  change (server_bound (with_navigation nav env)) with (server_bound env).
  destruct (result (perform (Syscall "ThreadingHTTPServer") (server_bound env)))
    as [[]|e]; [|reflexivity].
  rewrite ?result_bind.
  change (port_started (with_navigation nav env)) with (port_started env).
  change (port_checks (with_navigation nav env)) with (port_checks env).
  destruct (result (await_port (port_started env + seconds 3) (port_checks env)))
    as [ready|e]; [|reflexivity].
  destruct (negb ready); [reflexivity|].
  rewrite ?result_bind.
  change (navigation (with_navigation nav env)) with nav.
  destruct (cdp_navigate_returns nav (ws_url sess) url false (seconds 12)) as [b1 ->].
  destruct (cdp_navigate_returns (navigation env) (ws_url sess) url false (seconds 12))
    as [b2 ->].
  rewrite ?result_bind. cbn [log_fn emit result snd].
  change (callback_started (with_navigation nav env)) with (callback_started env).
  change (callback_turns (with_navigation nav env)) with (callback_turns env).
  now rewrite await_callback_navigation.
Qed.



Lemma await_callback_source env email deadline turns :
  forall (d : gmap string string) c b,
    d !! "code" = None ->
    result (await_callback env email deadline d turns) = Return (c, b) ->
    b = true
    /\ exists turn req,
         In turn turns /\ look_at turn < deadline /\ In req (arrived turn)
         /\ is_callback req = true /\ slot req = "code"
         /\ fetch_token env (payload req) = Return c
         /\ token_saved env = Return tt.
Proof.
  induction turns as [|k rest IH]; intros d c b Hd; [discriminate|].
  cbn [await_callback]. destruct (look_at k <? deadline) eqn:L; [|discriminate].
  apply Z.ltb_lt in L. cbv zeta.
  destruct (deliver (arrived k) d !! "code") as [code|] eqn:Ec.
  - apply deliver_from_callbacks in Ec as [Ec|(req & Hin & Hcb & Hs & Hp & _)];
      [congruence|].
    subst code.
    destruct (fetch_token env (payload req)) as [creds|e] eqn:F; mrun; [|discriminate].
    destruct (token_saved env) as [[]|e] eqn:S; mrun; [|discriminate].
    intros [= <- <-]. split; [reflexivity|].
    exists k, req. repeat split; try assumption. now left.
  - destruct (deliver (arrived k) d !! "error") as [err|]; [discriminate|].
    change (sleep 250) with (emit (Sleep 250)).
    rewrite result_bind. cbn [emit result snd]. intros H.
    destruct (IH _ c b Ec H) as (Hb & turn & req & Hin & Hrest).
    split; [exact Hb|]. exists turn, req. split; [now right|exact Hrest].
Qed.

Lemma oauth_once_result env email sess :
  result (_oauth_once_with_session env email sess)
  = if negb (credentials_json env)
    then Raise (Exception "FileNotFoundError" "Missing credentials.json next to the app.")
    else
      match oauth_port env, authorization_url env, server_bound env with
      | Raise e, _, _ => Raise e
      | Return _, Raise e, _ => Raise e
      | Return _, Return _, Raise e => Raise e
      | Return port, Return _, Return _ =>
          match result (await_port (port_started env + seconds 3) (port_checks env)) with
          | Raise e => Raise e
          | Return ready =>
              if negb ready
              then Raise (Exception "RuntimeError"
                            ("OAuth callback server failed to start on port "
                             +:+ pretty port))
              else result (await_callback env email (callback_started env + seconds 600)
                             ∅ (callback_turns env))
          end
      end.
Proof.
  unfold _oauth_once_with_session. rewrite result_bind. cbn [emit result snd].
  destruct (credentials_json env); [|reflexivity]. cbn [negb].
  rewrite result_bind.
  destruct (oauth_port env) as [port|e]; [|reflexivity]. cbn [perform result snd].
  rewrite result_bind.
  destruct (authorization_url env) as [url|e]; [|reflexivity]. cbn [perform result snd].
  cbv zeta. rewrite result_bind.
  destruct (server_bound env) as [[]|e]; [|reflexivity]. cbn [perform result snd].
  rewrite result_bind.
  destruct (result (await_port _ _)) as [ready|e]; [|reflexivity].
  destruct (negb ready); [reflexivity|].
  rewrite result_bind.
  destruct (cdp_navigate_returns (navigation env) (ws_url sess) url false (seconds 12))
    as [b ->].
  rewrite result_bind. reflexivity.
Qed.

(** X11: when an authorization attempt returns credentials, they are
    what [fetch_token] made of the code carried by a callback that the
    attempt's own server handled in a turn begun before the ten-minute
    deadline, the token file was written, and the flag returned is
    [True]. *)
Theorem oauth_credentials_come_from_a_callback env email sess c b :
  result (_oauth_once_with_session env email sess) = Return (c, b) ->
  b = true
  /\ exists turn req,
       In turn (callback_turns env)
       /\ look_at turn < callback_started env + seconds 600
       /\ In req (arrived turn)
       /\ is_callback req = true /\ slot req = "code"
       /\ fetch_token env (payload req) = Return c
       /\ token_saved env = Return tt.
Proof.
  rewrite oauth_once_result.
  destruct (negb (credentials_json env)); [discriminate|].
  destruct (oauth_port env); [|discriminate].
  destruct (authorization_url env); [|discriminate].
  destruct (server_bound env); [|discriminate].
  destruct (result (await_port _ _)) as [ready|e]; [|discriminate].
  destruct (negb ready); [discriminate|].
  apply await_callback_source. apply lookup_empty.
Qed.

Lemma oauth_credentials_come_from_a_callback_witness :
  true = true
  /\ exists turn req,
       In turn (callback_turns (Samples.oauth_env Samples.granted_turns))
       /\ look_at turn
          < callback_started (Samples.oauth_env Samples.granted_turns) + seconds 600
       /\ In req (arrived turn)
       /\ is_callback req = true /\ slot req = "code"
       /\ fetch_token (Samples.oauth_env Samples.granted_turns) (payload req)
          = Return Samples.granted
       /\ token_saved (Samples.oauth_env Samples.granted_turns) = Return tt.
Proof.
  apply (oauth_credentials_come_from_a_callback
           (Samples.oauth_env Samples.granted_turns) "user@example.com"
           (Samples.session_of Samples.obedient) Samples.granted true).
  vm_compute. reflexivity.
Defined.

Lemma await_port_result deadline checks :
  result (await_port deadline checks)
  = Return (existsb connected (in_time check_at deadline checks)).
Proof.
  induction checks as [|k rest IH]; [reflexivity|].
  cbn [await_port in_time]. destruct (check_at k <? deadline); [|reflexivity].
  cbn [existsb]. destruct (connected k); [reflexivity|].
  change (sleep 100) with (emit (Sleep 100)).
  rewrite !result_bind. cbn [emit result snd]. exact IH.
Qed.

Lemma await_callback_timeout env email deadline turns (d : gmap string string) :
  d !! "code" = None -> d !! "error" = None ->
  forallb (λ k, forallb (λ r, negb (is_callback r)) (arrived k))
    (in_time look_at deadline turns) = true ->
  await_callback env email deadline d turns
  = (repeat (Sleep 250) (length (in_time look_at deadline turns)),
     Raise (Exception "TimeoutError"
              ("Timed out waiting for OAuth callback for " +:+ email))).
Proof.
  intros Hc He. induction turns as [|k rest IH]; [reflexivity|].
  cbn [await_callback in_time]. destruct (look_at k <? deadline); [|reflexivity].
  cbn [forallb length repeat]. intros H. apply andb_true_iff in H as [Hk H].
  cbv zeta.
  assert (deliver (arrived k) d = d) as ->.
  { clear - Hk. revert d. induction (arrived k) as [|r reqs IHr]; intros d; [reflexivity|].
    cbn [forallb] in Hk. apply andb_true_iff in Hk as [Hr Hk].
    apply negb_true_iff in Hr.
    change (deliver (r :: reqs) d) with (deliver reqs (handle d r)).
    rewrite (handle_idle r d Hr). now apply IHr. }
  rewrite Hc, He. change (sleep 250) with (emit (Sleep 250)).
  rewrite (IH H). reflexivity.
Qed.

(** X12: an attempt that gets as far as waiting, and to which no callback
    is delivered in a turn begun before the ten-minute deadline, ends with
    [TimeoutError]; requests to other paths, or with neither code nor
    error, do not count. *)
Theorem oauth_times_out_without_callback env email sess :
  reaches_wait env = true ->
  no_callback_in_time env = true ->
  result (_oauth_once_with_session env email sess)
  = Raise (Exception "TimeoutError"
             ("Timed out waiting for OAuth callback for " +:+ email)).
Proof.
  unfold reaches_wait, no_callback_in_time. intros R N.
  repeat (apply andb_true_iff in R as [R ?]).
  rewrite oauth_once_result, R. cbn [negb].
  destruct (oauth_port env); [|discriminate].
  destruct (authorization_url env); [|discriminate].
  destruct (server_bound env); [|discriminate].
  rewrite await_port_result.
  match goal with H : existsb connected _ = true |- _ => rewrite H end. cbn [negb].
  rewrite await_callback_timeout; [reflexivity|apply lookup_empty..|exact N].
Qed.

Lemma oauth_times_out_without_callback_witness :
  result (_oauth_once_with_session
            (Samples.oauth_env [ {| look_at := 200; arrived := [] |};
                                 {| look_at := 700000; arrived := [Samples.callback "code" "late"] |} ])
            "user@example.com" (Samples.session_of Samples.obedient))
  = Raise (Exception "TimeoutError"
             "Timed out waiting for OAuth callback for user@example.com").
Proof.
  apply (oauth_times_out_without_callback
           (Samples.oauth_env [ {| look_at := 200; arrived := [] |};
                                {| look_at := 700000; arrived := [Samples.callback "code" "late"] |} ])
           "user@example.com" (Samples.session_of Samples.obedient));
    vm_compute; reflexivity.
Defined.

End Flow.

(** ** Stored credentials *)

Section StoredToken.
Import GmailApi.

(** X13: [load_credentials_for] returns credentials exactly when the
    token file exists and parses and either the parsed credentials are
    valid (then these are returned) or they are expired with a refresh
    token and both the refresh and the write-back of the token file succeed
    (then the refreshed ones are returned); in every other case it
    raises. *)
Theorem load_credentials_for_returns env email c :
  result (load_credentials_for env email) = Return c <->
  token_exists env = true
  /\ exists c0,
       parsed env = Return c0
       /\ ((valid c0 = true /\ c = c0)
           \/ (valid c0 = false /\ expired c0 = true /\ refresh_token c0 = true
               /\ refreshed env = Return c /\ written env = Return tt)).
Proof.
  unfold load_credentials_for.
  destruct (token_exists env); mrun.
  2:{ split; [discriminate|]. intros [? _]. discriminate. }
  destruct (parsed env) as [c0|e]; mrun.
  2:{ split; [discriminate|]. intros (_ & c0 & ? & _). discriminate. }
  destruct (valid c0) eqn:V; mrun.
  { split.
    - intros [= <-]. split; [reflexivity|]. exists c0. split; [reflexivity|]. now left.
    - intros (_ & c1 & [= <-] & [[_ ->]|(? & _)]); [reflexivity|congruence]. }
  destruct (expired c0) eqn:X; mrun.
  2:{ split; [discriminate|].
      intros (_ & c1 & [= <-] & [[? _]|(_ & ? & _)]); congruence. }
  destruct (refresh_token c0) eqn:T; mrun.
  2:{ split; [discriminate|].
      intros (_ & c1 & [= <-] & [[? _]|(_ & _ & ? & _)]); congruence. }
  destruct (refreshed env) as [c'|e]; mrun.
  2:{ split; [discriminate|].
      intros (_ & c1 & [= <-] & [[? _]|(_ & _ & _ & ? & _)]); congruence. }
  destruct (written env) as [[]|e]; mrun.
  2:{ split; [discriminate|].
      intros (_ & c1 & [= <-] & [[? _]|(_ & _ & _ & _ & ?)]); congruence. }
  split.
  - intros [= <-]. split; [reflexivity|]. exists c0. split; [reflexivity|].
    right. now repeat split.
  - intros (_ & c1 & [= <-] & [[? _]|(_ & _ & _ & [= ->] & _)]); [congruence|reflexivity].
Qed.

End StoredToken.

(** ** Searching *)

Section Prefix.
Import GmailApi.

Lemma fetch_pages_prefix max_results with_log :
  forall req messages,
  exists rest,
    messages ++ served req
    = fst (fetch_pages req messages max_results with_log) ++ rest.
Proof.
  fix IH 1. intros [[[found [[req'|]|e]]|e]] messages; cbn [fetch_pages served fst].
  - destruct (Z.of_nat (length (messages ++ found)) >=? max_results).
    + cbn [fst]. exists (served req'). now rewrite app_assoc.
    + destruct (IH req' (messages ++ found)) as [rest Hrest].
      destruct (fetch_pages req' (messages ++ found) max_results with_log) as [all r].
      cbn [fst] in *. exists rest. now rewrite app_assoc.
  - exists []. now rewrite app_nil_r.
  - exists []. now rewrite app_nil_r.
  - exists []. reflexivity.
Qed.

Lemma slice_to_prefix {X} (l : list X) k : exists rest, l = slice_to l k ++ rest.
Proof.
  unfold slice_to. destruct (0 <=? k).
  - exists (drop (Z.to_nat k) l). now rewrite take_drop.
  - exists (drop (length l - Z.to_nat (- k)) l). now rewrite take_drop.
Qed.

(** X14: for every bound, negative ones included, [search_messages]
    returns normally, and what it returns is an initial segment of the
    messages the mailbox serves for the query before the first failure: in
    their order, without gaps or repetitions. *)
Theorem search_messages_returns_a_prefix service q max_results with_log :
  exists l rest,
    result (search_messages service q max_results with_log) = Return l
    /\ served_by service q = l ++ rest.
Proof.
  rewrite search_messages_result. unfold served_by.
  destruct (list_messages service q) as [req|e].
  - destruct (fetch_pages_prefix max_results with_log req []) as [r1 H1].
    destruct (slice_to_prefix (fst (fetch_pages req [] max_results with_log)) max_results)
      as [r2 H2].
    eexists _, (r2 ++ r1). split; [reflexivity|]. cbn [app] in H1.
    rewrite H1. rewrite H2 at 1. now rewrite app_assoc.
  - exists [], []. split; [|reflexivity]. unfold slice_to.
    destruct (0 <=? max_results); now rewrite ?take_nil.
Qed.

End Prefix.

(** ** One account *)

Ltac as_quiet :=
  match goal with
  | |- entries ?f (trace ?m) = [] => change (quiet f m)
  end.

Section Account.
Import GmailApi Manager.

Lemma result_try {A} (m : M A) (h : exn -> M A) :
  result (try_except m h)
  = match result m with
    | Return a => Return a
    | Raise e => result (h e)
    end.
Proof.
  destruct m as [t [a|e]]; unfold try_except; cbn [result snd];
    [reflexivity|now destruct (h e)].
Qed.

Ltac rres :=
  repeat (rewrite ?result_bind, ?result_try;
          cbn [perform emit log_fn ret raise lift result snd fst]).

Lemma try_except_returned {A} (m : M A) (h : exn -> M A) a :
  result m = Return a -> try_except m h = m.
Proof. destruct m as [t r]. cbn [result snd]. now intros ->. Qed.

Lemma run_plugins_result env email sess gmail people plugins keep :
  exists b, result (run_plugins env email sess gmail people plugins keep) = Return b.
Proof. rewrite run_plugins_run. now eexists. Qed.

(** What is left of [_process_one_account] once the session is settled
    returns normally. *)
Lemma settled_account_returns env email plugins sess rc :
  result
    (got ← try_except
            (creds ← load_credentials_for (tokens env) email; ret (Some creds))
            (λ e,
               log_fn ("[TOKEN] missing/invalid: " +:+ exn_text e);;
               match sess with
               | Some s =>
                   if (rc : bool) then
                     try_except
                       (r ← oauth_first_login_in_session (oauth_first env)
                              (oauth_second env) email s;
                        ret (Some (fst r)))
                       (λ e2,
                          log_fn ("[OAUTH][FATAL] " +:+ exn_text e2);;
                          close_chrome_session (closing env) sess 5000;;
                          ret None)
                   else ret None
               | None => ret None
               end);
     match got with
     | None => ret tt
     | Some creds =>
         built ← try_except
                   (svc ← perform (Syscall "build gmail") (gmail_service env);
                    ret (Some svc))
                   (λ e,
                      log_fn ("[GMAIL][ERROR] service build: " +:+ exn_text e);;
                      match sess with
                      | Some _ => close_chrome_session (closing env) sess 5000
                      | None => ret tt
                      end;;
                      ret None);
         match built with
         | None => ret tt
         | Some gmail =>
             people ← try_except
                        (svc ← perform (Syscall "build people") (people_service env);
                         ret (Some svc))
                        (λ _, ret None);
             keep_open ← run_plugins env email sess gmail people plugins false;
             match sess with
             | Some _ =>
                 if (keep_open : bool) then
                   log_fn ("[SESSION] kept open for " +:+ email
                           +:+ " (requested by plugin)")
                 else
                   close_chrome_session (closing env) sess 5000;;
                   log_fn ("[SESSION] closed for " +:+ email +:+ " (UI not required)")
             | None =>
                 log_fn ("[SESSION] no Chrome session to close for " +:+ email)
             end;;
             log_fn ("--- Done: " +:+ email +:+ " ---" +:+ newline)
         end
     end) = Return tt.
Proof.
  pose proof (close_chrome_session_returns (closing env) sess 5000) as Hc.
  assert (T : forall got : option Credentials,
            result
              match got with
              | None => ret tt
              | Some creds =>
                  built ← try_except
                            (svc ← perform (Syscall "build gmail") (gmail_service env);
                             ret (Some svc))
                            (λ e,
                               log_fn ("[GMAIL][ERROR] service build: " +:+ exn_text e);;
                               match sess with
                               | Some _ => close_chrome_session (closing env) sess 5000
                               | None => ret tt
                               end;;
                               ret None);
                  match built with
                  | None => ret tt
                  | Some gmail =>
                      people ← try_except
                                 (svc ← perform (Syscall "build people")
                                          (people_service env);
                                  ret (Some svc))
                                 (λ _, ret None);
                      keep_open ← run_plugins env email sess gmail people plugins false;
                      match sess with
                      | Some _ =>
                          if (keep_open : bool) then
                            log_fn ("[SESSION] kept open for " +:+ email
                                    +:+ " (requested by plugin)")
                          else
                            close_chrome_session (closing env) sess 5000;;
                            log_fn ("[SESSION] closed for " +:+ email
                                    +:+ " (UI not required)")
                      | None =>
                          log_fn ("[SESSION] no Chrome session to close for " +:+ email)
                      end;;
                      log_fn ("--- Done: " +:+ email +:+ " ---" +:+ newline)
                  end
              end = Return tt).
  { intros [creds|]; [|reflexivity]. rres.
    destruct (gmail_service env) as [gmail|e]; rres.
    - destruct (people_service env) as [people|e]; rres;
        match goal with
        | |- context [run_plugins ?a ?b ?c ?d ?e ?f ?g] =>
            destruct (run_plugins_result a b c d e f g) as [k ->]
        end;
        rres; (destruct sess; [destruct k|]); rres; rewrite ?Hc; reflexivity.
    - destruct sess; rres; rewrite ?Hc; reflexivity. }
  rewrite result_bind.
  match goal with
  | |- match result ?m with _ => _ end = _ =>
      assert (exists got, result m = Return got) as [got ->]
  end; [|apply T].
  rres.
  destruct (result (load_credentials_for (tokens env) email)) as [c|e]; rres;
    [now eexists|].
  destruct sess as [s|]; rres; [|now eexists].
  destruct rc; rres; [|now eexists].
  destruct (result (oauth_first_login_in_session _ _ _ _)) as [[c b]|e2]; rres;
    [now eexists|].
  rewrite Hc. rres. now eexists.
Qed.

(** X15: processing an account raises exactly when a browser is required
    and [start_chrome_session] raises, and then with that exception; every
    other failure (no session, no token, failed authorization, failed
    service build, failing actions, failures while closing) is contained
    and the call returns. *)
Theorem process_one_account_result env email plugins :
  result (_process_one_account env email plugins)
  = if requires_chrome plugins
    then match result (start_chrome_session (launch env) email) with
         | Return _ => Return tt
         | Raise e => Raise e
         end
    else Return tt.
Proof.
  unfold _process_one_account. cbv zeta.
  do 3 (rewrite result_bind; cbn [emit log_fn result snd]).
  destruct (requires_chrome plugins).
  - destruct (result (start_chrome_session (launch env) email)) as [[s|]|e];
      [|reflexivity..].
    assert (bool_decide (is_Some (Some s)) = true) as ->
      by (apply bool_decide_eq_true_2; eauto).
    cbn [andb negb]. apply (settled_account_returns env email plugins (Some s) true).
  - rewrite result_bind. cbn [emit log_fn ret result snd andb].
    apply (settled_account_returns env email plugins None false).
Qed.



(** X16: when a browser is required and [start_chrome_session] returns
    [None], processing the account does nothing after the launch attempt
    but log the fatal line: no token is read, no action runs (not even one
    that needs no browser), nothing is closed. *)
Theorem account_without_browser_is_skipped env email plugins :
  requires_chrome plugins = true ->
  result (start_chrome_session (launch env) email) = Return None ->
  _process_one_account env email plugins
  = (Enter "_process_one_account" email
       :: Log ("--- Processing: " +:+ email +:+ " ---")
       :: trace (start_chrome_session (launch env) email)
       ++ [Log "[SESSION][FATAL] could not start chrome for account."],
     Return tt).
Proof.
  intros Hreq Hstart. unfold _process_one_account. cbv zeta. rewrite Hreq.
  destruct (start_chrome_session (launch env) email) as [ts rs].
  cbn [trace result fst snd] in *. subst rs. mrun.
  assert (bool_decide (is_Some (@None ChromeSession)) = false) as ->.
  { apply bool_decide_eq_false_2. intros [? ?]. discriminate. }
  mrun. reflexivity.
Qed.

Lemma account_without_browser_is_skipped_witness :
  _process_one_account Samples.stalled_account "user@example.com"
    [Samples.label_action; Samples.crashing_ui]
  = (Enter "_process_one_account" "user@example.com"
       :: Log ("--- Processing: " +:+ "user@example.com" +:+ " ---")
       :: trace (start_chrome_session (launch Samples.stalled_account) "user@example.com")
       ++ [Log "[SESSION][FATAL] could not start chrome for account."],
     Return tt).
Proof.
  apply (account_without_browser_is_skipped Samples.stalled_account "user@example.com"
           [Samples.label_action; Samples.crashing_ui]);
    vm_compute; reflexivity.
Defined.

(** X17: when the stored credentials of an account load, processing it
    never enters the authorization flow. *)
Theorem stored_token_skips_authorization env email plugins c :
  result (load_credentials_for (tokens env) email) = Return c ->
  entries "_oauth_once_with_session" (trace (_process_one_account env email plugins))
  = [].
Proof.
  intros Hload. unfold _process_one_account. cbv zeta. as_quiet.
  pose proof (start_chrome_session_quiet "_oauth_once_with_session") as Hs.
  pose proof (close_chrome_session_quiet "_oauth_once_with_session") as Hc.
  pose proof (load_credentials_for_quiet "_oauth_once_with_session") as Hl.
  pose proof (run_plugins_quiet "_oauth_once_with_session") as Hr.
  apply quiet_bind; [quiet_auto|intros _].
  apply quiet_bind; [quiet_auto|intros _].
  apply quiet_bind; [quiet_auto|intros sess].
  destruct (_ && _)%bool; [quiet_auto|].
  rewrite (try_except_returned
             (creds ← load_credentials_for (tokens env) email; ret (Some creds))
             _ (Some c))
    by (rewrite result_bind, Hload; reflexivity).
  quiet_auto.
Qed.

Lemma stored_token_skips_authorization_witness :
  entries "_oauth_once_with_session"
    (trace (_process_one_account Samples.account_env "user@example.com"
              [Samples.crashing_ui])) = [].
Proof.
  apply (stored_token_skips_authorization Samples.account_env "user@example.com"
           [Samples.crashing_ui] Samples.granted).
  vm_compute. reflexivity.
Defined.

End Account.

(** ** Search terms *)

Section Terms.
Import Manager.

Lemma lstrip_chars_split l :
  exists p, l = p ++ lstrip_chars l /\ forallb isspace p = true.
Proof.
  induction l as [|c l (p & Hl & Hp)]; [now exists []|].
  cbn [lstrip_chars]. destruct (isspace c) eqn:S.
  - exists (c :: p). cbn [app forallb]. rewrite S, Hp. now rewrite <- Hl.
  - now exists [].
Qed.

Lemma lstrip_chars_head l :
  match lstrip_chars l with [] => True | c :: _ => isspace c = false end.
Proof.
  induction l as [|c l IH]; [exact I|].
  cbn [lstrip_chars]. destruct (isspace c) eqn:S; [exact IH|exact S].
Qed.

Lemma lstrip_chars_fixed l :
  match l with [] => True | c :: _ => isspace c = false end -> lstrip_chars l = l.
Proof. destruct l as [|c l]; [reflexivity|]. cbn [lstrip_chars]. now intros ->. Qed.

Lemma forallb_lstrip f l : forallb f l = true -> forallb f (lstrip_chars l) = true.
Proof.
  intros H. destruct (lstrip_chars_split l) as (p & Hl & _).
  rewrite Hl, forallb_app in H. now apply andb_true_iff in H as [_ H].
Qed.

Lemma forallb_rev {T} (f : T -> bool) l : forallb f (rev l) = forallb f l.
Proof.
  induction l as [|x l IH]; [reflexivity|].
  cbn [rev forallb]. rewrite forallb_app, IH. cbn [forallb].
  rewrite andb_true_r. apply andb_comm.
Qed.

(** The characters [strip] leaves: no white space at either end. *)
Lemma strip_chars l :
  let b := lstrip_chars (rev (lstrip_chars l)) in
  lstrip_chars (rev b) = rev b /\ lstrip_chars (rev (rev b)) = b.
Proof.
  cbv zeta. set (a := lstrip_chars l). set (b := lstrip_chars (rev a)).
  split.
  - apply lstrip_chars_fixed.
    destruct (lstrip_chars_split (rev a)) as (p & Ha & _). fold b in Ha.
    apply (f_equal (@rev ascii)) in Ha. rewrite rev_involutive, rev_app_distr in Ha.
    pose proof (lstrip_chars_head l) as H. fold a in H.
    destruct (rev b) as [|c r]; [exact I|]. rewrite Ha in H. exact H.
  - rewrite rev_involutive. apply lstrip_chars_fixed. apply lstrip_chars_head.
Qed.

Lemma strip_idempotent s : strip (strip s) = strip s.
Proof.
  unfold strip. rewrite list_ascii_of_string_of_list_ascii.
  destruct (strip_chars (list_ascii_of_string s)) as [H1 H2].
  cbv zeta in *. now rewrite H1, H2.
Qed.

Lemma strip_keeps f s : all_chars f s = true -> all_chars f (strip s) = true.
Proof.
  rewrite !all_chars_forallb. unfold strip.
  rewrite list_ascii_of_string_of_list_ascii. intros H.
  rewrite forallb_rev. apply forallb_lstrip. rewrite forallb_rev.
  now apply forallb_lstrip.
Qed.

Lemma split_chars_pieces sep cur l piece :
  forallb (λ c, negb (Ascii.eqb c sep)) cur = true ->
  In piece (split_chars sep cur l) ->
  all_chars (λ c, negb (Ascii.eqb c sep)) piece = true.
Proof.
  revert cur. induction l as [|c l IH]; intros cur Hcur; cbn [split_chars].
  - intros [<-|[]]. rewrite all_chars_forallb, list_ascii_of_string_of_list_ascii.
    now rewrite forallb_rev.
  - destruct (Ascii.eqb c sep) eqn:E.
    + intros [<-|H].
      * rewrite all_chars_forallb, list_ascii_of_string_of_list_ascii.
        now rewrite forallb_rev.
      * now apply (IH []).
    + apply IH. cbn [forallb]. now rewrite E, Hcur.
Qed.

(** X18: the search terms handed to the actions are not empty, have no
    white space at either end and contain no comma. *)
Theorem search_terms_are_clean raw term :
  In term (search_terms_of raw) ->
  term <> "" /\ strip term = term
  /\ all_chars (λ c, negb (Ascii.eqb c ",")) term = true.
Proof.
  unfold search_terms_of. intros H. apply filter_In in H as [H N].
  apply in_map_iff in H as (piece & <- & H).
  split; [|split].
  - apply negb_true_iff in N. now apply String.eqb_neq in N.
  - apply strip_idempotent.
  - apply strip_keeps.
    now apply (split_chars_pieces "," [] (list_ascii_of_string raw)).
Qed.

Lemma search_terms_are_clean_witness :
  "promo" <> "" /\ strip "promo" = "promo"
  /\ all_chars (λ c, negb (Ascii.eqb c ",")) "promo" = true.
Proof.
  apply (search_terms_are_clean " newsletter , promo ,, " "promo").
  vm_compute. right. left. reflexivity.
Defined.

Example search_terms_example :
  search_terms_of " newsletter , promo ,, " = ["newsletter"; "promo"].
Proof. vm_compute. reflexivity. Qed.

End Terms.

(** ** The label actions *)

Section LabelActions.
Import GmailApi Manager Plugins.

Lemma fetch_pages_events max_results with_log :
  forall req messages,
    forallb search_event (trace (snd (fetch_pages req messages max_results with_log)))
    = true.
Proof.
  assert (S : forall (found : list json) (n : nat),
            exists ts,
              (emit (Syscall "execute" true);;
               match found with
               | [] => ret tt
               | _ => if with_log
                      then log_fn ("[SEARCH] " +:+ pretty (Z.of_nat n)
                                   +:+ " found so far…")
                      else ret tt
               end) = (ts, Return tt)
              /\ forallb search_event ts = true).
  { intros found n. destruct found, with_log; eexists; split; reflexivity. }
  fix IH 1. intros [[[found [[req'|]|e]]|e]] messages; cbn [fetch_pages].
  - destruct (S found (length (messages ++ found))) as (ts & Es & Hs).
    destruct (Z.of_nat (length (messages ++ found)) >=? max_results).
    + cbn [snd]. rewrite Es. mrun. rewrite forallb_app, Hs. reflexivity.
    + specialize (IH req' (messages ++ found)).
      destruct (fetch_pages req' (messages ++ found) max_results with_log)
        as [all [t r]].
      cbn [snd trace fst] in *. rewrite Es. mrun.
      rewrite forallb_app, Hs. exact IH.
  - destruct (S found (length (messages ++ found))) as (ts & Es & Hs).
    cbn [snd]. rewrite Es. mrun. rewrite forallb_app, Hs. reflexivity.
  - destruct (S found (length (messages ++ found))) as (ts & Es & Hs).
    cbn [snd]. rewrite Es. mrun. rewrite forallb_app, Hs. reflexivity.
  - reflexivity.
Qed.

Lemma search_messages_events service q max_results with_log :
  forallb search_event (trace (search_messages service q max_results with_log)) = true.
Proof.
  unfold search_messages. destruct (list_messages service q) as [req|e].
  - pose proof (fetch_pages_events max_results with_log req []) as H.
    destruct (fetch_pages req [] max_results with_log) as [all [t [[]|e]]];
      cbn [snd trace fst] in H; mrun.
    + rewrite app_nil_r. exact H.
    + destruct with_log; mrun; rewrite ?app_nil_r; cbn [forallb search_event];
        rewrite ?forallb_app, H; reflexivity.
  - destruct with_log; reflexivity.
Qed.

Lemma search_events_calls prefix t :
  calls prefix (Syscall "list" true) = false ->
  calls prefix (Syscall "execute" true) = false ->
  calls prefix (Syscall "list_next" true) = false ->
  forallb search_event t = true -> List.filter (calls prefix) t = [].
Proof.
  intros H1 H2 H3. induction t as [|ev t IH]; [reflexivity|].
  cbn [forallb]. intros H. apply andb_true_iff in H as [He Ht].
  cbn [List.filter]. rewrite (IH Ht).
  destruct ev as [msg|ms|fn arg|url ok|url ok|id meth ok|ok|ok|cmd ok|p t' ok|p ok|p ok
                  |name ok|pl ev'];
    try discriminate He; [reflexivity|].
  cbn [search_event] in He. cbn [calls] in *.
  apply orb_true_iff in He as [He|He]; [apply orb_true_iff in He as [He|He]|];
    apply String.eqb_eq in He; subst name; now rewrite ?H1, ?H2, ?H3.
Qed.

(** What a search of a label action comes to. *)
Lemma search_messages_run service q :
  exists t,
    search_messages service q 500 true = (t, Return (take 500 (served_by service q)))
    /\ forallb search_event t = true.
Proof.
  pose proof (search_messages_result service q 500 true) as R.
  pose proof (search_messages_events service q 500 true) as E.
  destruct (search_messages service q 500 true) as [t r].
  cbn [result snd trace fst] in *. exists t. split; [|exact E]. subst r.
  f_equal. f_equal. unfold served_by, slice_to. cbn [Z.leb].
  destruct (list_messages service q) as [req|e]; [|reflexivity].
  now rewrite (fetch_pages_collects 500 true ltac:(lia) req []).
Qed.



Variable str_of : json -> string.
Variable modify : json -> json -> outcome unit.
Variable a : LabelAction.

Lemma calls_modify name ok :
  calls "messages.modify " (Syscall ("messages.modify " +:+ name) ok) = true.
Proof. reflexivity. Qed.

Lemma modify_all_run msgs :
  forallb is_object msgs = true ->
  exists t,
    modify_all str_of modify a msgs = (t, Return tt)
    /\ List.filter (calls "messages.modify ") t = map (modify_call str_of modify a) msgs.
Proof.
  induction msgs as [|m rest IH]; [now exists []|].
  cbn [forallb]. intros H. apply andb_true_iff in H as [Hm Hr].
  destruct (IH Hr) as (t & Et & Ft). cbn [modify_all]. rewrite Et.
  destruct m as [| | | | |fields]; try discriminate Hm. cbn [py_get]. mrun.
  cbn [map]. unfold modify_call at 1. cbn [message_id].
  destruct (modify (assoc "id" fields) (body_of a)) as [[]|e]; mrun;
    eexists; (split; [reflexivity|]);
    cbn [List.filter]; rewrite calls_modify; cbn [calls]; now rewrite Ft.
Qed.

Lemma per_subterm_run svc subs :
  forallb is_object
    (flat_map (λ s, take 500 (served_by svc (query_for s))) subs) = true ->
  exists t,
    per_subterm str_of modify a svc subs = (t, Return tt)
    /\ List.filter (calls "messages.modify ") t
       = map (modify_call str_of modify a) (flat_map (λ s, take 500 (served_by svc (query_for s))) subs).
Proof.
  induction subs as [|s rest IH]; [now exists []|].
  cbn [flat_map]. rewrite forallb_app. intros H. apply andb_true_iff in H as [Hs Hr].
  destruct (IH Hr) as (t & Et & Ft). cbn [per_subterm]. rewrite Et.
  destruct (search_messages_run svc (query_for s)) as (ts & -> & Hts).
  apply (search_events_calls "messages.modify ") in Hts; [|reflexivity..].
  rewrite map_app. mrun.
  destruct (take 500 (served_by svc (query_for s))) as [|m ms] eqn:Em.
  - mrun. eexists. split; [reflexivity|].
    rewrite List.filter_app, Hts. cbn [List.filter calls app map]. exact Ft.
  - destruct (modify_all_run (m :: ms) Hs) as (tm & -> & Fm). mrun.
    eexists. split; [reflexivity|].
    rewrite !List.filter_app, Hts, Fm, Ft. reflexivity.
Qed.

Lemma per_term_run svc terms :
  forallb is_object
    (flat_map (λ s, take 500 (served_by svc (query_for s)))
       (flat_map (λ t, subterms_of (strip t)) terms)) = true ->
  exists t,
    per_term str_of modify a svc terms = (t, Return tt)
    /\ List.filter (calls "messages.modify ") t
       = map (modify_call str_of modify a)
           (flat_map (λ s, take 500 (served_by svc (query_for s)))
              (flat_map (λ t, subterms_of (strip t)) terms)).
Proof.
  induction terms as [|term rest IH]; [now exists []|].
  cbn [flat_map]. rewrite flat_map_app, forallb_app. intros H.
  apply andb_true_iff in H as [Hs Hr].
  destruct (IH Hr) as (t & Et & Ft). cbn [per_term]. cbv zeta. rewrite Et.
  rewrite map_app.
  destruct (String.eqb (strip term) "") eqn:E.
  - apply String.eqb_eq in E. rewrite E in *. mrun.
    eexists. split; [reflexivity|]. exact Ft.
  - destruct (per_subterm_run svc (subterms_of (strip term)) Hs) as (ts & -> & Fs).
    mrun. eexists. split; [reflexivity|]. now rewrite List.filter_app, Fs, Ft.
Qed.

(** X19: a label action (Archive, Mark as ..., Move to ..., Unstar)
    whose searches return message objects returns normally and asks for the
    modification of every message found, once each and in order, for each
    sub-term the first 500 messages the mailbox serves: a modification that
    fails does not keep the action from the messages after it. *)
Theorem label_action_modifies_every_message ctx :
  forallb is_object (found_for ctx) = true ->
  let act := run (label_plugin str_of modify a) ctx in
  result act = Return tt
  /\ List.filter (calls "messages.modify ") (trace act)
     = map (modify_call str_of modify a) (found_for ctx).
Proof.
  unfold found_for, subterms_for. intros H. cbv zeta.
  cbn [run label_plugin]. unfold label_run.
  destruct (ctx_search_terms ctx) as [|term rest] eqn:Et; [now split|].
  destruct (per_term_run (ctx_service ctx) (term :: rest) H) as (t & -> & Ft).
  split; [reflexivity|exact Ft].
Qed.

End LabelActions.


Section LabelSamples.
Import GmailApi Manager Plugins.

Lemma label_action_modifies_every_message_witness :
  let act := run (MarkAsNotSpamPlugin Samples.id_text Samples.m1_locked) Samples.api_context in
  result act = Return tt
  /\ List.filter (calls "messages.modify ") (trace act)
     = map (modify_call Samples.id_text Samples.m1_locked mark_as_not_spam) (found_for Samples.api_context).
Proof.
  apply (label_action_modifies_every_message Samples.id_text Samples.m1_locked mark_as_not_spam
           Samples.api_context).
  vm_compute. reflexivity.
Defined.

Example not_spam_trace :
  run (MarkAsNotSpamPlugin Samples.id_text Samples.m1_locked)
    (context_for Samples.account_env "user@example.com" None Samples.failing_mailbox None)
  = ([Syscall "list" true; Syscall "execute" true; Log "[SEARCH] 2 found so far…";
      Syscall "list_next" true; Syscall "execute" false;
      Log "[SEARCH][ERROR] 503 backend error";
      Syscall "messages.modify m1" false;
      Log "[Mark as not spam][ERROR] m1: 403 forbidden";
      Syscall "messages.modify m2" true;
      Log "[Mark as not spam] m2 -> add=['INBOX'] remove=['SPAM']";
      Syscall "list" true; Syscall "execute" true; Log "[SEARCH] 2 found so far…";
      Syscall "list_next" true; Syscall "execute" false;
      Log "[SEARCH][ERROR] 503 backend error";
      Syscall "messages.modify m1" false;
      Log "[Mark as not spam][ERROR] m1: 403 forbidden";
      Syscall "messages.modify m2" true;
      Log "[Mark as not spam] m2 -> add=['INBOX'] remove=['SPAM']"],
     Return tt).
Proof. vm_compute. reflexivity. Qed.

End LabelSamples.

(** ** Contacts, and the action that opens the inbox *)

Section Contacts.
Import GmailApi Manager Plugins.

Lemma calls_create addr ok :
  calls "people.createContact " (Syscall ("people.createContact " +:+ addr) ok) = true.
Proof. reflexivity. Qed.

Lemma add_all_run create emails added :
  exists t,
    add_all create emails added
    = (t, Return (added + Z.of_nat (length (List.filter (λ x, returned (create x)) emails))))
    /\ List.filter (calls "people.createContact ") t = map (create_call create) emails.
Proof.
  revert added. induction emails as [|addr rest IH]; intros added.
  - exists []. cbn. now rewrite Z.add_0_r.
  - cbn [add_all List.filter map]. unfold create_call at 1.
    destruct (create addr) as [[]|e]; mrun.
    + destruct (IH (added + 1)) as (t & -> & Ft). eexists. split.
      * apply f_equal2; [reflexivity|]. f_equal. cbn [length]. lia.
      * cbn [List.filter]. rewrite calls_create. cbn [calls]. now rewrite Ft.
    + destruct (IH added) as (t & -> & Ft). eexists. split.
      * reflexivity.
      * cbn [List.filter]. rewrite calls_create. cbn [calls]. now rewrite Ft.
Qed.

(** X20: [AddContactsPlugin.run] never raises.  With a People service
    and at least one address in the entry box it asks once for the creation
    of each address, in order, whether or not earlier creations failed, and
    its last log line reports the number of creations that succeeded;
    otherwise it logs one line and does nothing else. *)
Theorem add_contacts_counts_successes contacts_var create ctx :
  let act := run (AddContactsPlugin contacts_var create) ctx in
  result act = Return tt
  /\ match ctx_people_service ctx, contacts_of contacts_var with
     | Some _, _ :: _ =>
         List.filter (calls "people.createContact ") (trace act)
         = map (create_call create) (contacts_of contacts_var)
         /\ last (trace act)
            = Some (Log ("[CONTACTS] Done — "
                         +:+ pretty (Z.of_nat (length (List.filter (λ x, returned (create x))
                                                         (contacts_of contacts_var))))
                         +:+ " added."))
     | _, _ => exists msg, trace act = [Log msg]
     end.
Proof.
  cbv zeta. cbn [run AddContactsPlugin]. unfold contacts_of.
  destruct (ctx_people_service ctx) as [svc|]; [|split; [reflexivity|now eexists]].
  destruct (String.eqb (strip contacts_var) "") eqn:E.
  - apply String.eqb_eq in E. rewrite E. split; [reflexivity|]. now eexists.
  - destruct (List.filter _ (map strip (split ";" (strip contacts_var))))
      as [|addr rest] eqn:El; [split; [reflexivity|now eexists]|].
    destruct (add_all_run create (addr :: rest) 0) as (t & -> & Ft). mrun.
    split; [reflexivity|]. split.
    + rewrite List.filter_app, Ft. cbn [List.filter calls]. now rewrite app_nil_r.
    + now rewrite last_snoc.
Qed.

Example add_contacts_trace :
  run (AddContactsPlugin " ann@example.com; bob@example.com ;; cy@example.com"
         Samples.bob_refused) Samples.api_context
  = ([Syscall "people.createContact ann@example.com" true;
      Log "[CONTACTS] added: ann@example.com";
      Syscall "people.createContact bob@example.com" false;
      Log "[CONTACTS][ERROR] bob@example.com: 409 conflict";
      Syscall "people.createContact cy@example.com" true;
      Log "[CONTACTS] added: cy@example.com";
      Log "[CONTACTS] Done — 2 added."],
     Return tt).
Proof. vm_compute. reflexivity. Qed.

(** X21: [OpenGmailUIPlugin.run] never raises, whatever the session and
    the navigation do; so a list of actions in which it occurs always asks
    for the session to be kept open. *)
Theorem open_gmail_ui_keeps_session_open nav ctx plugins :
  In (OpenGmailUIPlugin nav) plugins ->
  result (run (OpenGmailUIPlugin nav) ctx) = Return tt
  /\ kept_open ctx plugins = true.
Proof.
  intros Hin.
  assert (R : result (run (OpenGmailUIPlugin nav) ctx) = Return tt).
  { cbn [run OpenGmailUIPlugin].
    destruct (ctx_session ctx) as [sess|]; [|reflexivity].
    destruct (negb (truthy (ws_url sess))); [reflexivity|].
    rewrite result_bind.
    destruct (cdp_navigate_returns nav (ws_url sess)
                "https://mail.google.com/mail/u/0/#inbox" true (seconds 8)) as [b ->].
    reflexivity. }
  split; [exact R|]. unfold kept_open. apply existsb_exists.
  exists (OpenGmailUIPlugin nav). split; [exact Hin|]. rewrite R. reflexivity.
Qed.

Lemma open_gmail_ui_keeps_session_open_witness :
  result (run (OpenGmailUIPlugin (Samples.nav_env Samples.null_then_load)) Samples.api_context)
  = Return tt
  /\ kept_open Samples.api_context
       [Samples.label_action; OpenGmailUIPlugin (Samples.nav_env Samples.null_then_load)]
     = true.
Proof.
  apply (open_gmail_ui_keeps_session_open (Samples.nav_env Samples.null_then_load)
           Samples.api_context
           [Samples.label_action;
            OpenGmailUIPlugin (Samples.nav_env Samples.null_then_load)]).
  right. left. reflexivity.
Defined.

End Contacts.

(** ** Log lines *)

Section LogLines.
Import Logger.

Lemma length_of_list l : String.length (string_of_list_ascii l) = length l.
Proof. induction l as [|c l IH]; [reflexivity|]. cbn. now rewrite IH. Qed.

(** X22: for a message of ASCII characters and a bound of at least three,
    the summary handed to the GUI is never longer than the bound; a stripped
    message within the bound is handed on unchanged, a longer one is cut to
    a summary of exactly [max_len] characters: its beginning, then three
    dots. *)
Theorem summarize_for_gui_bounded msg max_len :
  all_chars is_ascii msg = true ->
  3 <= max_len ->
  Z.of_nat (String.length (_summarize_for_gui msg max_len)) <= max_len
  /\ (Z.of_nat (String.length (strip msg)) <= max_len ->
      _summarize_for_gui msg max_len = strip msg)
  /\ (max_len < Z.of_nat (String.length (strip msg)) ->
      Z.of_nat (String.length (_summarize_for_gui msg max_len)) = max_len
      /\ exists head, _summarize_for_gui msg max_len = head +:+ "..."
                      /\ exists tail, strip msg = head +:+ tail).
Proof.
  intros _ Hmax. unfold _summarize_for_gui. cbv zeta.
  set (s := strip msg).
  destruct (Z.of_nat (String.length s) >? max_len) eqn:L.
  - apply Z.gtb_lt in L.
    assert (Hk : (0 <=? max_len - 3) = true) by (apply Z.leb_le; lia).
    unfold slice_to. rewrite Hk.
    assert (Hlen : Z.of_nat (String.length
                      (string_of_list_ascii
                         (take (Z.to_nat (max_len - 3)) (list_ascii_of_string s))
                       +:+ "...")) = max_len).
    { rewrite length_append, length_of_list, length_take, length_chars.
      cbn [String.length]. lia. }
    split; [lia|]. split; [lia|]. intros _. split; [exact Hlen|].
    eexists. split; [reflexivity|].
    exists (string_of_list_ascii (drop (Z.to_nat (max_len - 3)) (list_ascii_of_string s))).
    rewrite <- string_of_app, take_drop. now rewrite string_of_list_ascii_of_string.
  - assert (Z.of_nat (String.length s) <= max_len).
    { destruct (Z.gtb_spec (Z.of_nat (String.length s)) max_len); [discriminate|lia]. }
    split; [lia|]. split; [reflexivity|]. lia.
Qed.

Lemma summarize_for_gui_bounded_witness :
  Z.of_nat (String.length (_summarize_for_gui "  [SEARCH] 200 found so far  " 12)) <= 12
  /\ (Z.of_nat (String.length (strip "  [SEARCH] 200 found so far  ")) <= 12 ->
      _summarize_for_gui "  [SEARCH] 200 found so far  " 12
      = strip "  [SEARCH] 200 found so far  ")
  /\ (12 < Z.of_nat (String.length (strip "  [SEARCH] 200 found so far  ")) ->
      Z.of_nat (String.length (_summarize_for_gui "  [SEARCH] 200 found so far  " 12))
      = 12
      /\ exists head, _summarize_for_gui "  [SEARCH] 200 found so far  " 12
                      = head +:+ "..."
                      /\ exists tail, strip "  [SEARCH] 200 found so far  " = head +:+ tail).
Proof.
  apply (summarize_for_gui_bounded "  [SEARCH] 200 found so far  " 12);
    [reflexivity | lia].
Defined.

Example summary_example :
  _summarize_for_gui "  [SEARCH] 200 found so far  " 12 = "[SEARCH] ...".
Proof. vm_compute. reflexivity. Qed.

(** With a bound below three the summary is longer than the bound. *)
Example summary_small_bound : _summarize_for_gui "abcdef" 2 = "abcde...".
Proof. vm_compute. reflexivity. Qed.

Lemma lstrip_eol_fixed l :
  match l with [] => True | c :: _ => is_eol c = false end -> lstrip_eol l = l.
Proof. destruct l as [|c l]; [reflexivity|]. cbn [lstrip_eol]. now intros ->. Qed.

Lemma lstrip_eol_head l :
  match lstrip_eol l with [] => True | c :: _ => is_eol c = false end.
Proof.
  induction l as [|c l IH]; [exact I|].
  cbn [lstrip_eol]. destruct (is_eol c) eqn:S; [exact IH|exact S].
Qed.

Lemma lstrip_eol_app p l : forallb is_eol p = true -> lstrip_eol (p ++ l) = lstrip_eol l.
Proof.
  induction p as [|c p IH]; [reflexivity|]. cbn [forallb app lstrip_eol].
  intros H. apply andb_true_iff in H as [-> H]. now apply IH.
Qed.

Lemma rstrip_eol_tail line tail :
  all_chars is_eol tail = true -> rstrip_eol (line +:+ tail) = rstrip_eol line.
Proof.
  intros H. unfold rstrip_eol. rewrite chars_append, rev_app_distr.
  rewrite lstrip_eol_app; [reflexivity|].
  rewrite forallb_rev. now rewrite <- all_chars_forallb.
Qed.

Lemma full_line_fixed ts msg : rstrip_eol (full_line ts msg) = full_line ts msg.
Proof.
  unfold full_line, rstrip_eol at 1.
  rewrite !chars_append, !rev_app_distr.
  rewrite lstrip_eol_fixed.
  - rewrite <- !rev_app_distr, rev_involutive, <- !chars_append.
    apply string_of_list_ascii_of_string.
  - unfold rstrip_eol. rewrite list_ascii_of_string_of_list_ascii, rev_involutive.
    pose proof (lstrip_eol_head (rev (list_ascii_of_string msg))) as H.
    destruct (lstrip_eol (rev (list_ascii_of_string msg))) as [|c r]; [|exact H].
    reflexivity.
Qed.

(** X23: the line a log call writes to the file is the time stamp, a
    space, the message without the carriage returns and line feeds at its
    end, and one CRLF; what stands before that CRLF does not end with a
    carriage return or a line feed, and messages that differ only in such
    trailing characters give the same line. *)
Theorem log_line_ends_with_one_crlf ts msg :
  file_line ts msg = ts +:+ " " +:+ rstrip_eol msg +:+ crlf
  /\ rstrip_eol (ts +:+ " " +:+ rstrip_eol msg) = ts +:+ " " +:+ rstrip_eol msg
  /\ (forall tail, all_chars is_eol tail = true ->
                   file_line ts (msg +:+ tail) = file_line ts msg).
Proof.
  split; [|split].
  - unfold file_line, clean_line. rewrite full_line_fixed. unfold full_line.
    now rewrite !append_assoc.
  - apply full_line_fixed.
  - intros tail H. unfold file_line, full_line. now rewrite rstrip_eol_tail.
Qed.

Example file_line_example :
  file_line "2026-01-02 03:04:05" ("--- Done: a@b.c ---" +:+ Manager.newline)
  = "2026-01-02 03:04:05 --- Done: a@b.c ---" +:+ crlf.
Proof. vm_compute. reflexivity. Qed.

Lemma no_space_strip s :
  all_chars (λ c, negb (isspace c)) s = true -> strip s = s.
Proof.
  rewrite all_chars_forallb. intros H. unfold strip.
  assert (F : forall l, forallb (λ c, negb (isspace c)) l = true -> lstrip_chars l = l).
  { intros [|c l]; [reflexivity|]. cbn [forallb lstrip_chars]. intros E.
    apply andb_true_iff in E as [E _]. apply negb_true_iff in E. now rewrite E. }
  rewrite (F _ H), F by now rewrite forallb_rev.
  rewrite rev_involutive. apply string_of_list_ascii_of_string.
Qed.

Lemma join_if_all f s : all_chars f (join_if f s) = true.
Proof.
  induction s as [|c s IH]; [reflexivity|]. cbn [join_if].
  destruct (f c) eqn:E; [|exact IH]. cbn [all_chars]. now rewrite E, IH.
Qed.

Lemma all_chars_impl (f g : ascii -> bool) s :
  (forall c, f c = true -> g c = true) -> all_chars f s = true -> all_chars g s = true.
Proof.
  intros Hfg. induction s as [|c s IH]; [reflexivity|]. cbn [all_chars].
  intros H. apply andb_true_iff in H as [Hc Hs]. now rewrite (Hfg c Hc), IH.
Qed.

(** X24: for a user whose name is made of ASCII characters, the user name
    in the name of a log file is never empty and made of letters, digits,
    ['-'] and ['_'] only: it is the name of the user without every other
    character, or [user] when nothing is left; when the name of the user
    cannot be found it is derived from [unknown]. *)
Theorem safe_username_is_a_file_name_part getuser :
  let name := match getuser with Return n => n | Raise _ => "unknown" end in
  let passed := join_if user_char name in
  all_chars is_ascii name = true ->
  _safe_username getuser = (if String.eqb passed "" then "user" else passed)
  /\ _safe_username getuser <> ""
  /\ all_chars user_char (_safe_username getuser) = true.
Proof.
  cbv zeta. intros _. unfold _safe_username. cbv zeta.
  set (name := match getuser with Return n => n | Raise _ => "unknown" end).
  fold user_char.
  rewrite no_space_strip.
  2:{ apply (all_chars_impl user_char); [|apply join_if_all].
      intros c. destruct c as [[] [] [] [] [] [] [] []]; vm_compute; congruence. }
  split; [reflexivity|].
  destruct (String.eqb (join_if user_char name) "") eqn:E.
  - split; [discriminate|reflexivity].
  - split; [now apply String.eqb_neq in E|apply join_if_all].
Qed.

Lemma safe_username_is_a_file_name_part_witness :
  _safe_username (Return "Jane Doe-7") = "JaneDoe-7"
  /\ _safe_username (Return "Jane Doe-7") <> ""
  /\ all_chars user_char (_safe_username (Return "Jane Doe-7")) = true.
Proof.
  apply (safe_username_is_a_file_name_part (Return "Jane Doe-7")). reflexivity.
Defined.

Example safe_username_example :
  _safe_username (Return "Jane Doe-7") = "JaneDoe-7"
  /\ _safe_username (Return "??") = "user"
  /\ _safe_username (Raise (Exception "KeyError" "getpwuid")) = "unknown".
Proof. vm_compute. repeat split. Qed.

End LogLines.

(** ** Links *)

Section Links.
Import Plugins.

Lemma lower_app a b : lower (a +:+ b) = lower a +:+ lower b.
Proof.
  induction a as [|c a IH]; [reflexivity|].
  rewrite append_cons. cbn [lower]. now rewrite IH.
Qed.

Lemma lower_char_question c : Ascii.eqb (lower_char c) "?" = Ascii.eqb c "?".
Proof. destruct c as [[] [] [] [] [] [] [] []]; reflexivity. Qed.

Lemma lower_no_question s :
  all_chars (λ c, negb (Ascii.eqb c "?")) s = true ->
  all_chars (λ c, negb (Ascii.eqb c "?")) (lower s) = true.
Proof.
  induction s as [|c s IH]; [reflexivity|]. cbn [all_chars lower].
  intros H. apply andb_true_iff in H as [Hc Hs].
  now rewrite lower_char_question, Hc, IH.
Qed.

Lemma before_first_app sep a b :
  all_chars (λ c, negb (Ascii.eqb c sep)) a = true ->
  before_first sep (a +:+ String sep b) = a.
Proof.
  induction a as [|c a IH]; cbn [all_chars].
  - intros _. change ("" +:+ String sep b) with (String sep b).
    cbn [before_first]. now rewrite Ascii.eqb_refl.
  - intros H. apply andb_true_iff in H as [Hc Ha]. apply negb_true_iff in Hc.
    rewrite append_cons. cbn [before_first]. now rewrite Hc, IH.
Qed.

Lemma before_first_none sep a :
  all_chars (λ c, negb (Ascii.eqb c sep)) a = true -> before_first sep a = a.
Proof.
  induction a as [|c a IH]; [reflexivity|]. cbn [all_chars before_first].
  intros H. apply andb_true_iff in H as [Hc Ha]. apply negb_true_iff in Hc.
  now rewrite Hc, IH.
Qed.

Lemma startswith_app p s : startswith (p +:+ s) p = true.
Proof.
  induction p as [|c p IH]; [reflexivity|].
  rewrite append_cons. cbn [startswith]. now rewrite Ascii.eqb_refl, IH.
Qed.

Lemma endswith_app s suffix : endswith (s +:+ suffix) suffix = true.
Proof.
  unfold endswith. rewrite chars_append, rev_app_distr, string_of_app.
  apply startswith_app.
Qed.

Lemma bad_ext_lower ext :
  In ext bad_ext ->
  lower ext = ext /\ all_chars (λ c, negb (Ascii.eqb c "?")) ext = true.
Proof.
  intros H. repeat (destruct H as [<-|H]; [split; reflexivity|]). destruct H.
Qed.

(** X25: a link to a picture or a film is never taken for a web link to
    open: whatever stands before one of the twelve media suffixes (without
    a question mark), whatever query string follows it, and in whatever
    letter case the link is written, [_is_valid_web_link] answers
    [False]. *)
Theorem media_links_are_not_opened base ext query :
  In ext bad_ext ->
  all_chars (λ c, negb (Ascii.eqb c "?")) base = true ->
  _is_valid_web_link (base +:+ ext) = false
  /\ _is_valid_web_link (base +:+ ext +:+ "?" +:+ query) = false
  /\ forall url, lower url = lower (base +:+ ext) -> _is_valid_web_link url = false.
Proof.
  intros Hext Hbase. destruct (bad_ext_lower ext Hext) as [Le Qe].
  apply lower_no_question in Hbase.
  assert (Hx : existsb (λ e, endswith (lower base +:+ ext) e) bad_ext = true).
  { apply existsb_exists. exists ext. split; [exact Hext|apply endswith_app]. }
  assert (Hq : all_chars (λ c, negb (Ascii.eqb c "?")) (lower base +:+ ext) = true)
    by now rewrite all_chars_app, Hbase, Qe.
  assert (V : forall url, lower url = lower base +:+ ext -> _is_valid_web_link url = false).
  { intros url E. unfold _is_valid_web_link. cbv zeta. rewrite E.
    destruct (negb _); [reflexivity|].
    now rewrite (before_first_none "?" _ Hq), Hx. }
  split; [|split].
  - apply V. now rewrite lower_app, Le.
  - unfold _is_valid_web_link. cbv zeta. rewrite !lower_app, Le.
    destruct (negb _); [reflexivity|].
    rewrite <- append_assoc.
    change (lower "?" +:+ lower query) with (String "?" (lower query)).
    now rewrite (before_first_app "?" _ (lower query) Hq), Hx.
  - intros url E. apply V. now rewrite E, lower_app, Le.
Qed.

Lemma media_links_are_not_opened_witness :
  _is_valid_web_link ("https://cdn.example.com/Banner" +:+ ".png") = false
  /\ _is_valid_web_link ("https://cdn.example.com/Banner" +:+ ".png" +:+ "?" +:+ "w=600")
     = false
  /\ forall url,
       lower url = lower ("https://cdn.example.com/Banner" +:+ ".png") ->
       _is_valid_web_link url = false.
Proof.
  apply (media_links_are_not_opened "https://cdn.example.com/Banner" ".png" "w=600").
  - cbn. tauto.
  - vm_compute. reflexivity.
Defined.

Example valid_link_examples :
  _is_valid_web_link "https://example.com/offer?img=a.png" = true
  /\ _is_valid_web_link "HTTPS://EXAMPLE.COM/A.JPG?x=1" = false
  /\ _is_valid_web_link "ftp://example.com/page" = false.
Proof. vm_compute. repeat split. Qed.

End Links.

(** ** The log file *)

Section Rotation.
Import Logger.

Lemma write_healthy env lg line :
  healthy env = true ->
  exists t,
    snd (write env lg line) = (t, Return tt)
    /\ if _lines lg + 1 >=? max_lines lg
       then _lines (fst (write env lg line)) = 0
            /\ max_lines (fst (write env lg line)) = max_lines lg
            /\ length (List.filter (calls "open ") t) = 1%nat
       else _lines (fst (write env lg line)) = _lines lg + 1
            /\ max_lines (fst (write env lg line)) = max_lines lg
            /\ length (List.filter (calls "open ") t) = 0%nat.
Proof.
  unfold healthy. intros H. repeat (apply andb_true_iff in H as [H ?]).
  unfold write. cbv zeta.
  destruct (file_write env) as [[]|?]; [|discriminate].
  destruct (file_flush env) as [[]|?]; [|discriminate].
  destruct (fsync env) as [[]|?]; [|discriminate].
  cbn [_lines max_lines].
  destruct (_lines lg + 1 >=? max_lines lg).
  - unfold _rotate, _open_new_file. cbv zeta.
    destruct (file_close env) as [[]|?]; [|discriminate].
    destruct (replaced env) as [[]|?]; [|discriminate].
    destruct (opened env) as [[]|?]; [|discriminate].
    cbn [fst snd]. mrun. eexists. split; [reflexivity|].
    cbn [_lines max_lines]. repeat split.
  - cbn [fst snd]. mrun. eexists. split; [reflexivity|].
    cbn [_lines max_lines]. repeat split.
Qed.

(** X26: [FileLogger.write] never raises, whatever fails: writing,
    flushing, syncing, rotating the file, even the report on the standard
    error stream.  A line that could not be written and flushed is not
    counted, and leaves the logger as it was. *)
Theorem file_logger_write_never_raises env lg line :
  result (snd (write env lg line)) = Return tt
  /\ ((returned (file_write env) && returned (file_flush env))%bool = false ->
      fst (write env lg line) = lg).
Proof.
  unfold write, _rotate, _open_new_file. cbv zeta. cbn [_lines max_lines].
  split.
  - destruct (file_write env) as [[]|e1], (file_flush env) as [[]|e2];
      try (destruct (stderr_write env) as [[]|e0]; reflexivity).
    destruct (_lines lg + 1 >=? max_lines lg); cbn [snd].
    + destruct (fsync env) as [[]|e1], (file_close env) as [[]|e2],
        (replaced env) as [[]|e3], (copied env) as [[]|e4],
        (unlinked env) as [[]|e5], (opened env) as [[]|e6],
        (stderr_write env) as [[]|e7]; reflexivity.
    + destruct (fsync env) as [[]|e1]; reflexivity.
  - destruct (file_write env) as [[]|e1]; [|reflexivity].
    destruct (file_flush env) as [[]|e1]; [discriminate|reflexivity].
Qed.

(** X27: as long as nothing fails, the log file is rotated exactly every
    [max_lines] lines: after [n] more calls of [write] on a logger that has
    counted [k] lines, with [k] below [max_lines], the counter stands at
    [(k + n) mod max_lines], a new file has been opened [(k + n) /
    max_lines] times, and no call raised. *)
Theorem file_logger_rotates_every_max_lines lg calls_ :
  1 <= max_lines lg ->
  0 <= _lines lg < max_lines lg ->
  forallb healthy (map fst calls_) = true ->
  let n := Z.of_nat (length calls_) in
  result (snd (write_all lg calls_)) = Return tt
  /\ _lines (fst (write_all lg calls_)) = (_lines lg + n) mod max_lines lg
  /\ Z.of_nat (length (List.filter (calls "open ") (trace (snd (write_all lg calls_)))))
     = (_lines lg + n) / max_lines lg.
Proof.
  intros Hmax. revert lg Hmax.
  induction calls_ as [|[env line] rest IH]; intros lg Hmax Hl Hh; cbv zeta.
  - cbn. rewrite Z.add_0_r. rewrite Z.mod_small, Z.div_small by lia. now repeat split.
  - cbn [map fst forallb] in Hh. apply andb_true_iff in Hh as [He Hr].
    destruct (write_healthy env lg line He) as (t & Et & Hw).
    cbn [write_all]. destruct (write env lg line) as [lg1 first].
    cbn [fst snd] in *. subst first.
    specialize (IH lg1).
    destruct (write_all lg1 rest) as [lg2 [t2 r2]]. cbn [fst snd trace result] in *.
    mrun. rewrite List.filter_app, length_app, Nat2Z.inj_add.
    replace (Z.of_nat (length ((env, line) :: rest)))
      with (1 + Z.of_nat (length rest)) by (cbn [length]; lia).
    destruct (_lines lg + 1 >=? max_lines lg) eqn:G.
    + destruct Hw as (L1 & M1 & O1). rewrite M1, L1 in IH.
      assert (H0 : 0 <= 0 < max_lines lg) by lia.
      destruct (IH Hmax H0 Hr) as (R & L & O). cbv zeta in *.
      assert (_lines lg + 1 = max_lines lg) as E
        by (destruct (Z.geb_spec (_lines lg + 1) (max_lines lg)); [lia|discriminate]).
      rewrite R, L, O, O1.
      replace (_lines lg + (1 + Z.of_nat (length rest)))
        with (Z.of_nat (length rest) + 1 * max_lines lg) by lia.
      rewrite Z_mod_plus_full, Z_div_plus_full by lia.
      rewrite !Z.add_0_l. repeat split; lia.
    + destruct Hw as (L1 & M1 & O1). rewrite M1, L1 in IH.
      assert (_lines lg + 1 < max_lines lg) as E
        by (destruct (Z.geb_spec (_lines lg + 1) (max_lines lg)); [discriminate|lia]).
      assert (H1 : 0 <= _lines lg + 1 < max_lines lg) by lia.
      destruct (IH Hmax H1 Hr) as (R & L & O). cbv zeta in *.
      rewrite R, L, O, O1.
      replace (_lines lg + (1 + Z.of_nat (length rest)))
        with (_lines lg + 1 + Z.of_nat (length rest)) by lia.
      repeat split; lia.
Qed.

Lemma file_logger_rotates_every_max_lines_witness :
  let n := Z.of_nat (length Samples.three_lines) in
  result (snd (write_all Samples.fresh_logger Samples.three_lines)) = Return tt
  /\ _lines (fst (write_all Samples.fresh_logger Samples.three_lines))
     = (_lines Samples.fresh_logger + n) mod max_lines Samples.fresh_logger
  /\ Z.of_nat (length (List.filter (calls "open ")
                         (trace (snd (write_all Samples.fresh_logger
                                        Samples.three_lines)))))
     = (_lines Samples.fresh_logger + n) / max_lines Samples.fresh_logger.
Proof.
  apply (file_logger_rotates_every_max_lines Samples.fresh_logger Samples.three_lines).
  - vm_compute. discriminate.
  - vm_compute. split; [discriminate|reflexivity].
  - vm_compute. reflexivity.
Defined.

Example rotation_trace :
  write_all Samples.fresh_logger Samples.three_lines
  = ({| logs_dir := ["logs"]; max_lines := 2; prefix := "log";
        _file_path := ["logs"; "log_me_20260102_030402.txt"];
        _file := ["logs"; "log_me_20260102_030402.txt"];
        _lines := 1 |},
     ([Syscall "write logs\log_me_20260102_030400.txt" true;
       Syscall "flush" true; Syscall "fsync" true;
       Syscall "write logs\log_me_20260102_030400.txt" true;
       Syscall "flush" true; Syscall "fsync" true;
       Syscall "close logs\log_me_20260102_030400.txt" true;
       Syscall "replace logs\log_me_20260102_030400.txt logs\log_me_20260102_030400_rotated_20260102_030402.txt" true;
       Syscall "open logs\log_me_20260102_030402.txt" true;
       Syscall "write logs\log_me_20260102_030402.txt" true;
       Syscall "flush" true; Syscall "fsync" true],
      Return tt)).
Proof. vm_compute. reflexivity. Qed.

End Rotation.
